(** * The donation wizard (students/john_navitsky/session06/mailroom.py)

    A shallow embedding of the donor store, the name parser, the donation
    entry loop, the donor report, the letters, the donor file and the main
    menu, followed by the properties of the specification that were checked
    against them and by further properties of the code.

    Conventions of the embedding.
    - In the console program text is [string]: a sequence of 7-bit ASCII
      characters.  The Python methods [str.lower], [str.title], [str.strip],
      ... are embedded in [PyStr] for that range (letters are the only cased
      characters, the whitespace characters are 9-13 and 28-32); a character
      above 127 is carried along as a caseless, non-blank character.
    - [Unicode] embeds the same methods for every sequence of code points,
      with the tables of the interpreter, and [UnicodeName.parse_name] is the
      name parser on these.  The two embeddings agree on ASCII text
      ([parse_name_ascii]); what is claimed of every name is settled on
      [UnicodeName.parse_name].
    - A Python [float] is a binary64 number: the kernel's [float] with its
      IEEE 754 operations.
    - An exception that the program does not catch is an explicit result
      ([Raise]); the console is a script of input lines and a log of the
      chunks written.
    - The disk is a finite map from paths to texts, with the paths that
      [open] refuses; [json.dumps], [json.load] and [repr] are parameters of
      the functions that call them. *)

From Stdlib Require Import ZArith NArith List String Ascii Bool Lia.
From Stdlib Require Import Floats SpecFloat DecimalString.
From stdpp Require Import base list strings gmap.

Import ListNotations.
Local Open Scope string_scope.
Local Open Scope list_scope.

(** ** Python [str] methods *)

Module PyStr.

(** [str.isspace] on one ASCII character: TAB, LF, VT, FF, CR, the four
    separators FS, GS, RS, US and the blank. *)
Definition is_space (c : ascii) : bool :=
  let n := nat_of_ascii c in
  ((9 <=? n)%nat && (n <=? 13)%nat) || ((28 <=? n)%nat && (n <=? 32)%nat).

Definition is_upper (c : ascii) : bool :=
  let n := nat_of_ascii c in (65 <=? n)%nat && (n <=? 90)%nat.

Definition is_lower (c : ascii) : bool :=
  let n := nat_of_ascii c in (97 <=? n)%nat && (n <=? 122)%nat.

Definition is_cased (c : ascii) : bool := is_upper c || is_lower c.

Definition is_digit (c : ascii) : bool :=
  let n := nat_of_ascii c in (48 <=? n)%nat && (n <=? 57)%nat.

Definition to_lower (c : ascii) : ascii :=
  if is_upper c then ascii_of_nat (nat_of_ascii c + 32) else c.

Definition to_upper (c : ascii) : ascii :=
  if is_lower c then ascii_of_nat (nat_of_ascii c - 32) else c.

(** [s.lower()] and [s.upper()]. *)
Fixpoint lower (s : string) : string :=
  match s with
  | EmptyString => EmptyString
  | String c s' => String (to_lower c) (lower s')
  end.

Fixpoint upper (s : string) : string :=
  match s with
  | EmptyString => EmptyString
  | String c s' => String (to_upper c) (upper s')
  end.

(** [s.title()]: a cased character is upper-cased when the character before
    it is not cased and lower-cased when it is. *)
Definition title_char (previous_is_cased : bool) (c : ascii) : ascii :=
  if previous_is_cased then to_lower c else to_upper c.

Fixpoint title_from (previous_is_cased : bool) (s : string) : string :=
  match s with
  | EmptyString => EmptyString
  | String c s' => String (title_char previous_is_cased c) (title_from (is_cased c) s')
  end.

Definition title (s : string) : string := title_from false s.

(** [s.strip()] with no argument. *)
Fixpoint lstrip (s : string) : string :=
  match s with
  | EmptyString => EmptyString
  | String c s' => if is_space c then lstrip s' else s
  end.

Fixpoint rstrip (s : string) : string :=
  match s with
  | EmptyString => EmptyString
  | String c s' =>
      match rstrip s' with
      | EmptyString => if is_space c then EmptyString else String c EmptyString
      | r => String c r
      end
  end.

Definition strip (s : string) : string := lstrip (rstrip s).

(** [s.split(sep)] for a one-character separator: never empty. *)
Fixpoint split_on (sep : ascii) (s : string) : list string :=
  match s with
  | EmptyString => [EmptyString]
  | String c s' =>
      if Ascii.eqb c sep then EmptyString :: split_on sep s'
      else match split_on sep s' with
           | p :: ps => String c p :: ps
           | [] => [String c EmptyString]
           end
  end.

(** Does [s] start with a character that is not whitespace? *)
Definition starts_word (s : string) : bool :=
  match s with
  | EmptyString => false
  | String c _ => negb (is_space c)
  end.

(** [s.split()] with no argument: the maximal runs of characters that are
    not whitespace. *)
Fixpoint split (s : string) : list string :=
  match s with
  | EmptyString => []
  | String c s' =>
      if is_space c then split s'
      else if starts_word s' then
        match split s' with
        | t :: ts => String c t :: ts
        | [] => [String c EmptyString]
        end
      else String c EmptyString :: split s'
  end.

(** [sep.join(l)]. *)
Fixpoint join (sep : string) (l : list string) : string :=
  match l with
  | [] => EmptyString
  | [x] => x
  | x :: l' => x ++ sep ++ join sep l'
  end.

(** [c * n]. *)
Fixpoint repeat_char (c : ascii) (n : nat) : string :=
  match n with
  | O => EmptyString
  | S n' => String c (repeat_char c n')
  end.

(** Every character of [s] passes the test [p]. *)
Fixpoint all_chars (p : ascii -> bool) (s : string) : bool :=
  match s with
  | EmptyString => true
  | String c s' => p c && all_chars p s'
  end.

Definition no_blank (s : string) : bool := all_chars (fun c => negb (is_space c)) s.


(** A word: not empty and without whitespace. *)
Definition is_word (s : string) : bool :=
  match s with
  | EmptyString => false
  | _ => no_blank s
  end.

(** The tokens of a title-cased text: the first one is cased from the state
    [b], every other one from scratch. *)
Definition title_tokens (b : bool) (l : list string) : list string :=
  match l with
  | [] => []
  | t :: ts => title_from b t :: map title ts
  end.

(** [x in l] for a list of strings. *)
Definition mem (x : string) (l : list string) : bool :=
  existsb (String.eqb x) l.

End PyStr.

(** ** Python [str] methods on any text

    A Python [str] is a sequence of code points.  [Unicode] embeds the
    methods that [parse_name] and the matching of names call, for every
    text, as CPython's [unicodeobject.c] has them: [do_lower], [do_upper],
    [do_title] with [lower_ucs4] and its final-sigma rule, [strip] and
    [split] with [Py_UNICODE_ISSPACE].  The tables are those of the Unicode
    Character Database 14.0.0 that the interpreter carries (the properties
    Cased and Case_Ignorable, the three full case mappings and the
    whitespace of [str.isspace]). *)

Module Unicode.

Local Open Scope N_scope.

Definition text : Type := list N.

(** The code points that [str.isspace], [str.strip] and [str.split] take for
    whitespace, as ranges. *)
Definition whitespace_ranges : list (N * N) :=
  [ (9, 13); (28, 32); (133, 133); (160, 160); (5760, 5760); (8192, 8202); (8232, 8233);
    (8239, 8239); (8287, 8287); (12288, 12288) ].

(** The cased code points (the property Cased), as ranges. *)
Definition cased_ranges : list (N * N) :=
  [ (65, 90); (97, 122); (170, 170); (181, 181); (186, 186); (192, 214); (216, 246);
    (248, 442); (444, 447); (452, 659); (661, 696); (704, 705); (736, 740); (837, 837);
    (880, 883); (886, 887); (890, 893); (895, 895); (902, 902); (904, 906); (908, 908);
    (910, 929); (931, 1013); (1015, 1153); (1162, 1327); (1329, 1366); (1376, 1416);
    (4256, 4293); (4295, 4295); (4301, 4301); (4304, 4346); (4349, 4351); (5024, 5109);
    (5112, 5117); (7296, 7304); (7312, 7354); (7357, 7359); (7424, 7615); (7680, 7957);
    (7960, 7965); (7968, 8005); (8008, 8013); (8016, 8023); (8025, 8025); (8027, 8027);
    (8029, 8029); (8031, 8061); (8064, 8116); (8118, 8124); (8126, 8126); (8130, 8132);
    (8134, 8140); (8144, 8147); (8150, 8155); (8160, 8172); (8178, 8180); (8182, 8188);
    (8305, 8305); (8319, 8319); (8336, 8348); (8450, 8450); (8455, 8455); (8458, 8467);
    (8469, 8469); (8473, 8477); (8484, 8484); (8486, 8486); (8488, 8488); (8490, 8493);
    (8495, 8500); (8505, 8505); (8508, 8511); (8517, 8521); (8526, 8526); (8544, 8575);
    (8579, 8580); (9398, 9449); (11264, 11492); (11499, 11502); (11506, 11507); (11520, 11557);
    (11559, 11559); (11565, 11565); (42560, 42605); (42624, 42653); (42786, 42887);
    (42891, 42894); (42896, 42954); (42960, 42961); (42963, 42963); (42965, 42969);
    (42997, 42998); (43000, 43002); (43824, 43866); (43868, 43880); (43888, 43967);
    (64256, 64262); (64275, 64279); (65313, 65338); (65345, 65370); (66560, 66639);
    (66736, 66771); (66776, 66811); (66928, 66938); (66940, 66954); (66956, 66962);
    (66964, 66965); (66967, 66977); (66979, 66993); (66995, 67001); (67003, 67004);
    (67456, 67456); (67459, 67461); (67463, 67504); (67506, 67514); (68736, 68786);
    (68800, 68850); (71840, 71903); (93760, 93823); (119808, 119892); (119894, 119964);
    (119966, 119967); (119970, 119970); (119973, 119974); (119977, 119980); (119982, 119993);
    (119995, 119995); (119997, 120003); (120005, 120069); (120071, 120074); (120077, 120084);
    (120086, 120092); (120094, 120121); (120123, 120126); (120128, 120132); (120134, 120134);
    (120138, 120144); (120146, 120485); (120488, 120512); (120514, 120538); (120540, 120570);
    (120572, 120596); (120598, 120628); (120630, 120654); (120656, 120686); (120688, 120712);
    (120714, 120744); (120746, 120770); (120772, 120779); (122624, 122633); (122635, 122654);
    (125184, 125251); (127280, 127305); (127312, 127337); (127344, 127369) ].

(** The case-ignorable code points (the property Case_Ignorable), as
    ranges. *)
Definition case_ignorable_ranges : list (N * N) :=
  [ (39, 39); (46, 46); (58, 58); (94, 94); (96, 96); (168, 168); (173, 173); (175, 175);
    (180, 180); (183, 184); (688, 879); (884, 885); (890, 890); (900, 901); (903, 903);
    (1155, 1161); (1369, 1369); (1375, 1375); (1425, 1469); (1471, 1471); (1473, 1474);
    (1476, 1477); (1479, 1479); (1524, 1524); (1536, 1541); (1552, 1562); (1564, 1564);
    (1600, 1600); (1611, 1631); (1648, 1648); (1750, 1757); (1759, 1768); (1770, 1773);
    (1807, 1807); (1809, 1809); (1840, 1866); (1958, 1968); (2027, 2037); (2042, 2042);
    (2045, 2045); (2070, 2093); (2137, 2139); (2184, 2184); (2192, 2193); (2200, 2207);
    (2249, 2306); (2362, 2362); (2364, 2364); (2369, 2376); (2381, 2381); (2385, 2391);
    (2402, 2403); (2417, 2417); (2433, 2433); (2492, 2492); (2497, 2500); (2509, 2509);
    (2530, 2531); (2558, 2558); (2561, 2562); (2620, 2620); (2625, 2626); (2631, 2632);
    (2635, 2637); (2641, 2641); (2672, 2673); (2677, 2677); (2689, 2690); (2748, 2748);
    (2753, 2757); (2759, 2760); (2765, 2765); (2786, 2787); (2810, 2815); (2817, 2817);
    (2876, 2876); (2879, 2879); (2881, 2884); (2893, 2893); (2901, 2902); (2914, 2915);
    (2946, 2946); (3008, 3008); (3021, 3021); (3072, 3072); (3076, 3076); (3132, 3132);
    (3134, 3136); (3142, 3144); (3146, 3149); (3157, 3158); (3170, 3171); (3201, 3201);
    (3260, 3260); (3263, 3263); (3270, 3270); (3276, 3277); (3298, 3299); (3328, 3329);
    (3387, 3388); (3393, 3396); (3405, 3405); (3426, 3427); (3457, 3457); (3530, 3530);
    (3538, 3540); (3542, 3542); (3633, 3633); (3636, 3642); (3654, 3662); (3761, 3761);
    (3764, 3772); (3782, 3782); (3784, 3789); (3864, 3865); (3893, 3893); (3895, 3895);
    (3897, 3897); (3953, 3966); (3968, 3972); (3974, 3975); (3981, 3991); (3993, 4028);
    (4038, 4038); (4141, 4144); (4146, 4151); (4153, 4154); (4157, 4158); (4184, 4185);
    (4190, 4192); (4209, 4212); (4226, 4226); (4229, 4230); (4237, 4237); (4253, 4253);
    (4348, 4348); (4957, 4959); (5906, 5908); (5938, 5939); (5970, 5971); (6002, 6003);
    (6068, 6069); (6071, 6077); (6086, 6086); (6089, 6099); (6103, 6103); (6109, 6109);
    (6155, 6159); (6211, 6211); (6277, 6278); (6313, 6313); (6432, 6434); (6439, 6440);
    (6450, 6450); (6457, 6459); (6679, 6680); (6683, 6683); (6742, 6742); (6744, 6750);
    (6752, 6752); (6754, 6754); (6757, 6764); (6771, 6780); (6783, 6783); (6823, 6823);
    (6832, 6862); (6912, 6915); (6964, 6964); (6966, 6970); (6972, 6972); (6978, 6978);
    (7019, 7027); (7040, 7041); (7074, 7077); (7080, 7081); (7083, 7085); (7142, 7142);
    (7144, 7145); (7149, 7149); (7151, 7153); (7212, 7219); (7222, 7223); (7288, 7293);
    (7376, 7378); (7380, 7392); (7394, 7400); (7405, 7405); (7412, 7412); (7416, 7417);
    (7468, 7530); (7544, 7544); (7579, 7679); (8125, 8125); (8127, 8129); (8141, 8143);
    (8157, 8159); (8173, 8175); (8189, 8190); (8203, 8207); (8216, 8217); (8228, 8228);
    (8231, 8231); (8234, 8238); (8288, 8292); (8294, 8303); (8305, 8305); (8319, 8319);
    (8336, 8348); (8400, 8432); (11388, 11389); (11503, 11505); (11631, 11631); (11647, 11647);
    (11744, 11775); (11823, 11823); (12293, 12293); (12330, 12333); (12337, 12341);
    (12347, 12347); (12441, 12446); (12540, 12542); (40981, 40981); (42232, 42237);
    (42508, 42508); (42607, 42610); (42612, 42621); (42623, 42623); (42652, 42655);
    (42736, 42737); (42752, 42785); (42864, 42864); (42888, 42890); (42994, 42996);
    (43000, 43001); (43010, 43010); (43014, 43014); (43019, 43019); (43045, 43046);
    (43052, 43052); (43204, 43205); (43232, 43249); (43263, 43263); (43302, 43309);
    (43335, 43345); (43392, 43394); (43443, 43443); (43446, 43449); (43452, 43453);
    (43471, 43471); (43493, 43494); (43561, 43566); (43569, 43570); (43573, 43574);
    (43587, 43587); (43596, 43596); (43632, 43632); (43644, 43644); (43696, 43696);
    (43698, 43700); (43703, 43704); (43710, 43711); (43713, 43713); (43741, 43741);
    (43756, 43757); (43763, 43764); (43766, 43766); (43867, 43871); (43881, 43883);
    (44005, 44005); (44008, 44008); (44013, 44013); (64286, 64286); (64434, 64450);
    (65024, 65039); (65043, 65043); (65056, 65071); (65106, 65106); (65109, 65109);
    (65279, 65279); (65287, 65287); (65294, 65294); (65306, 65306); (65342, 65342);
    (65344, 65344); (65392, 65392); (65438, 65439); (65507, 65507); (65529, 65531);
    (66045, 66045); (66272, 66272); (66422, 66426); (67456, 67461); (67463, 67504);
    (67506, 67514); (68097, 68099); (68101, 68102); (68108, 68111); (68152, 68154);
    (68159, 68159); (68325, 68326); (68900, 68903); (69291, 69292); (69446, 69456);
    (69506, 69509); (69633, 69633); (69688, 69702); (69744, 69744); (69747, 69748);
    (69759, 69761); (69811, 69814); (69817, 69818); (69821, 69821); (69826, 69826);
    (69837, 69837); (69888, 69890); (69927, 69931); (69933, 69940); (70003, 70003);
    (70016, 70017); (70070, 70078); (70089, 70092); (70095, 70095); (70191, 70193);
    (70196, 70196); (70198, 70199); (70206, 70206); (70367, 70367); (70371, 70378);
    (70400, 70401); (70459, 70460); (70464, 70464); (70502, 70508); (70512, 70516);
    (70712, 70719); (70722, 70724); (70726, 70726); (70750, 70750); (70835, 70840);
    (70842, 70842); (70847, 70848); (70850, 70851); (71090, 71093); (71100, 71101);
    (71103, 71104); (71132, 71133); (71219, 71226); (71229, 71229); (71231, 71232);
    (71339, 71339); (71341, 71341); (71344, 71349); (71351, 71351); (71453, 71455);
    (71458, 71461); (71463, 71467); (71727, 71735); (71737, 71738); (71995, 71996);
    (71998, 71998); (72003, 72003); (72148, 72151); (72154, 72155); (72160, 72160);
    (72193, 72202); (72243, 72248); (72251, 72254); (72263, 72263); (72273, 72278);
    (72281, 72283); (72330, 72342); (72344, 72345); (72752, 72758); (72760, 72765);
    (72767, 72767); (72850, 72871); (72874, 72880); (72882, 72883); (72885, 72886);
    (73009, 73014); (73018, 73018); (73020, 73021); (73023, 73029); (73031, 73031);
    (73104, 73105); (73109, 73109); (73111, 73111); (73459, 73460); (78896, 78904);
    (92912, 92916); (92976, 92982); (92992, 92995); (94031, 94031); (94095, 94111);
    (94176, 94177); (94179, 94180); (110576, 110579); (110581, 110587); (110589, 110590);
    (113821, 113822); (113824, 113827); (118528, 118573); (118576, 118598); (119143, 119145);
    (119155, 119170); (119173, 119179); (119210, 119213); (119362, 119364); (121344, 121398);
    (121403, 121452); (121461, 121461); (121476, 121476); (121499, 121503); (121505, 121519);
    (122880, 122886); (122888, 122904); (122907, 122913); (122915, 122916); (122918, 122922);
    (123184, 123197); (123566, 123566); (123628, 123631); (125136, 125142); (125252, 125259);
    (127995, 127999); (917505, 917505); (917536, 917631); (917760, 917999) ].

(** The code points whose lower-case mapping is one other code point: a run
    [(lo, hi, step, to)] maps [lo], [lo + step], ..., [hi] to [to], [to + step], ... *)
Definition lower_runs : list (N * N * N * N) :=
  [ (65, 90, 1, 97); (192, 214, 1, 224); (216, 222, 1, 248); (256, 302, 2, 257);
    (306, 310, 2, 307); (313, 327, 2, 314); (330, 374, 2, 331); (376, 376, 1, 255);
    (377, 381, 2, 378); (385, 385, 1, 595); (386, 388, 2, 387); (390, 390, 1, 596);
    (391, 391, 1, 392); (393, 394, 1, 598); (395, 395, 1, 396); (398, 398, 1, 477);
    (399, 399, 1, 601); (400, 400, 1, 603); (401, 401, 1, 402); (403, 403, 1, 608);
    (404, 404, 1, 611); (406, 406, 1, 617); (407, 407, 1, 616); (408, 408, 1, 409);
    (412, 412, 1, 623); (413, 413, 1, 626); (415, 415, 1, 629); (416, 420, 2, 417);
    (422, 422, 1, 640); (423, 423, 1, 424); (425, 425, 1, 643); (428, 428, 1, 429);
    (430, 430, 1, 648); (431, 431, 1, 432); (433, 434, 1, 650); (435, 437, 2, 436);
    (439, 439, 1, 658); (440, 440, 1, 441); (444, 444, 1, 445); (452, 452, 1, 454);
    (453, 453, 1, 454); (455, 455, 1, 457); (456, 456, 1, 457); (458, 458, 1, 460);
    (459, 475, 2, 460); (478, 494, 2, 479); (497, 497, 1, 499); (498, 500, 2, 499);
    (502, 502, 1, 405); (503, 503, 1, 447); (504, 542, 2, 505); (544, 544, 1, 414);
    (546, 562, 2, 547); (570, 570, 1, 11365); (571, 571, 1, 572); (573, 573, 1, 410);
    (574, 574, 1, 11366); (577, 577, 1, 578); (579, 579, 1, 384); (580, 580, 1, 649);
    (581, 581, 1, 652); (582, 590, 2, 583); (880, 882, 2, 881); (886, 886, 1, 887);
    (895, 895, 1, 1011); (902, 902, 1, 940); (904, 906, 1, 941); (908, 908, 1, 972);
    (910, 911, 1, 973); (913, 929, 1, 945); (931, 939, 1, 963); (975, 975, 1, 983);
    (984, 1006, 2, 985); (1012, 1012, 1, 952); (1015, 1015, 1, 1016); (1017, 1017, 1, 1010);
    (1018, 1018, 1, 1019); (1021, 1023, 1, 891); (1024, 1039, 1, 1104); (1040, 1071, 1, 1072);
    (1120, 1152, 2, 1121); (1162, 1214, 2, 1163); (1216, 1216, 1, 1231); (1217, 1229, 2, 1218);
    (1232, 1326, 2, 1233); (1329, 1366, 1, 1377); (4256, 4293, 1, 11520);
    (4295, 4295, 1, 11559); (4301, 4301, 1, 11565); (5024, 5103, 1, 43888);
    (5104, 5109, 1, 5112); (7312, 7354, 1, 4304); (7357, 7359, 1, 4349); (7680, 7828, 2, 7681);
    (7838, 7838, 1, 223); (7840, 7934, 2, 7841); (7944, 7951, 1, 7936); (7960, 7965, 1, 7952);
    (7976, 7983, 1, 7968); (7992, 7999, 1, 7984); (8008, 8013, 1, 8000); (8025, 8031, 2, 8017);
    (8040, 8047, 1, 8032); (8072, 8079, 1, 8064); (8088, 8095, 1, 8080); (8104, 8111, 1, 8096);
    (8120, 8121, 1, 8112); (8122, 8123, 1, 8048); (8124, 8124, 1, 8115); (8136, 8139, 1, 8050);
    (8140, 8140, 1, 8131); (8152, 8153, 1, 8144); (8154, 8155, 1, 8054); (8168, 8169, 1, 8160);
    (8170, 8171, 1, 8058); (8172, 8172, 1, 8165); (8184, 8185, 1, 8056); (8186, 8187, 1, 8060);
    (8188, 8188, 1, 8179); (8486, 8486, 1, 969); (8490, 8490, 1, 107); (8491, 8491, 1, 229);
    (8498, 8498, 1, 8526); (8544, 8559, 1, 8560); (8579, 8579, 1, 8580); (9398, 9423, 1, 9424);
    (11264, 11311, 1, 11312); (11360, 11360, 1, 11361); (11362, 11362, 1, 619);
    (11363, 11363, 1, 7549); (11364, 11364, 1, 637); (11367, 11371, 2, 11368);
    (11373, 11373, 1, 593); (11374, 11374, 1, 625); (11375, 11375, 1, 592);
    (11376, 11376, 1, 594); (11378, 11378, 1, 11379); (11381, 11381, 1, 11382);
    (11390, 11391, 1, 575); (11392, 11490, 2, 11393); (11499, 11501, 2, 11500);
    (11506, 11506, 1, 11507); (42560, 42604, 2, 42561); (42624, 42650, 2, 42625);
    (42786, 42798, 2, 42787); (42802, 42862, 2, 42803); (42873, 42875, 2, 42874);
    (42877, 42877, 1, 7545); (42878, 42886, 2, 42879); (42891, 42891, 1, 42892);
    (42893, 42893, 1, 613); (42896, 42898, 2, 42897); (42902, 42920, 2, 42903);
    (42922, 42922, 1, 614); (42923, 42923, 1, 604); (42924, 42924, 1, 609);
    (42925, 42925, 1, 620); (42926, 42926, 1, 618); (42928, 42928, 1, 670);
    (42929, 42929, 1, 647); (42930, 42930, 1, 669); (42931, 42931, 1, 43859);
    (42932, 42946, 2, 42933); (42948, 42948, 1, 42900); (42949, 42949, 1, 642);
    (42950, 42950, 1, 7566); (42951, 42953, 2, 42952); (42960, 42960, 1, 42961);
    (42966, 42968, 2, 42967); (42997, 42997, 1, 42998); (65313, 65338, 1, 65345);
    (66560, 66599, 1, 66600); (66736, 66771, 1, 66776); (66928, 66964, 2, 66967);
    (66929, 66937, 2, 66968); (66941, 66953, 2, 66980); (66957, 66961, 2, 66996);
    (66965, 66965, 1, 67004); (68736, 68786, 1, 68800); (71840, 71871, 1, 71872);
    (93760, 93791, 1, 93792); (125184, 125217, 1, 125218) ].

(** The code points whose lower-case mapping is several code points. *)
Definition lower_special : list (N * list N) :=
  [ (304, [105; 775]) ].

(** The code points whose upper-case mapping is one other code point: a run
    [(lo, hi, step, to)] maps [lo], [lo + step], ..., [hi] to [to], [to + step], ... *)
Definition upper_runs : list (N * N * N * N) :=
  [ (97, 122, 1, 65); (181, 181, 1, 924); (224, 246, 1, 192); (248, 254, 1, 216);
    (255, 255, 1, 376); (257, 303, 2, 256); (305, 305, 1, 73); (307, 311, 2, 306);
    (314, 328, 2, 313); (331, 375, 2, 330); (378, 382, 2, 377); (383, 383, 1, 83);
    (384, 384, 1, 579); (387, 389, 2, 386); (392, 392, 1, 391); (396, 396, 1, 395);
    (402, 402, 1, 401); (405, 405, 1, 502); (409, 409, 1, 408); (410, 410, 1, 573);
    (414, 414, 1, 544); (417, 421, 2, 416); (424, 424, 1, 423); (429, 429, 1, 428);
    (432, 432, 1, 431); (436, 438, 2, 435); (441, 441, 1, 440); (445, 445, 1, 444);
    (447, 447, 1, 503); (453, 453, 1, 452); (454, 454, 1, 452); (456, 456, 1, 455);
    (457, 457, 1, 455); (459, 459, 1, 458); (460, 460, 1, 458); (462, 476, 2, 461);
    (477, 477, 1, 398); (479, 495, 2, 478); (498, 498, 1, 497); (499, 499, 1, 497);
    (501, 501, 1, 500); (505, 543, 2, 504); (547, 563, 2, 546); (572, 572, 1, 571);
    (575, 576, 1, 11390); (578, 578, 1, 577); (583, 591, 2, 582); (592, 592, 1, 11375);
    (593, 593, 1, 11373); (594, 594, 1, 11376); (595, 595, 1, 385); (596, 596, 1, 390);
    (598, 599, 1, 393); (601, 601, 1, 399); (603, 603, 1, 400); (604, 604, 1, 42923);
    (608, 608, 1, 403); (609, 609, 1, 42924); (611, 611, 1, 404); (613, 613, 1, 42893);
    (614, 614, 1, 42922); (616, 616, 1, 407); (617, 617, 1, 406); (618, 618, 1, 42926);
    (619, 619, 1, 11362); (620, 620, 1, 42925); (623, 623, 1, 412); (625, 625, 1, 11374);
    (626, 626, 1, 413); (629, 629, 1, 415); (637, 637, 1, 11364); (640, 640, 1, 422);
    (642, 642, 1, 42949); (643, 643, 1, 425); (647, 647, 1, 42929); (648, 648, 1, 430);
    (649, 649, 1, 580); (650, 651, 1, 433); (652, 652, 1, 581); (658, 658, 1, 439);
    (669, 669, 1, 42930); (670, 670, 1, 42928); (837, 837, 1, 921); (881, 883, 2, 880);
    (887, 887, 1, 886); (891, 893, 1, 1021); (940, 940, 1, 902); (941, 943, 1, 904);
    (945, 961, 1, 913); (962, 962, 1, 931); (963, 971, 1, 931); (972, 972, 1, 908);
    (973, 974, 1, 910); (976, 976, 1, 914); (977, 977, 1, 920); (981, 981, 1, 934);
    (982, 982, 1, 928); (983, 983, 1, 975); (985, 1007, 2, 984); (1008, 1008, 1, 922);
    (1009, 1009, 1, 929); (1010, 1010, 1, 1017); (1011, 1011, 1, 895); (1013, 1013, 1, 917);
    (1016, 1016, 1, 1015); (1019, 1019, 1, 1018); (1072, 1103, 1, 1040); (1104, 1119, 1, 1024);
    (1121, 1153, 2, 1120); (1163, 1215, 2, 1162); (1218, 1230, 2, 1217); (1231, 1231, 1, 1216);
    (1233, 1327, 2, 1232); (1377, 1414, 1, 1329); (4304, 4346, 1, 7312); (4349, 4351, 1, 7357);
    (5112, 5117, 1, 5104); (7296, 7296, 1, 1042); (7297, 7297, 1, 1044); (7298, 7298, 1, 1054);
    (7299, 7300, 1, 1057); (7301, 7301, 1, 1058); (7302, 7302, 1, 1066); (7303, 7303, 1, 1122);
    (7304, 7304, 1, 42570); (7545, 7545, 1, 42877); (7549, 7549, 1, 11363);
    (7566, 7566, 1, 42950); (7681, 7829, 2, 7680); (7835, 7835, 1, 7776);
    (7841, 7935, 2, 7840); (7936, 7943, 1, 7944); (7952, 7957, 1, 7960); (7968, 7975, 1, 7976);
    (7984, 7991, 1, 7992); (8000, 8005, 1, 8008); (8017, 8023, 2, 8025); (8032, 8039, 1, 8040);
    (8048, 8049, 1, 8122); (8050, 8053, 1, 8136); (8054, 8055, 1, 8154); (8056, 8057, 1, 8184);
    (8058, 8059, 1, 8170); (8060, 8061, 1, 8186); (8112, 8113, 1, 8120); (8126, 8126, 1, 921);
    (8144, 8145, 1, 8152); (8160, 8161, 1, 8168); (8165, 8165, 1, 8172); (8526, 8526, 1, 8498);
    (8560, 8575, 1, 8544); (8580, 8580, 1, 8579); (9424, 9449, 1, 9398);
    (11312, 11359, 1, 11264); (11361, 11361, 1, 11360); (11365, 11365, 1, 570);
    (11366, 11366, 1, 574); (11368, 11372, 2, 11367); (11379, 11379, 1, 11378);
    (11382, 11382, 1, 11381); (11393, 11491, 2, 11392); (11500, 11502, 2, 11499);
    (11507, 11507, 1, 11506); (11520, 11557, 1, 4256); (11559, 11559, 1, 4295);
    (11565, 11565, 1, 4301); (42561, 42605, 2, 42560); (42625, 42651, 2, 42624);
    (42787, 42799, 2, 42786); (42803, 42863, 2, 42802); (42874, 42876, 2, 42873);
    (42879, 42887, 2, 42878); (42892, 42892, 1, 42891); (42897, 42899, 2, 42896);
    (42900, 42900, 1, 42948); (42903, 42921, 2, 42902); (42933, 42947, 2, 42932);
    (42952, 42954, 2, 42951); (42961, 42961, 1, 42960); (42967, 42969, 2, 42966);
    (42998, 42998, 1, 42997); (43859, 43859, 1, 42931); (43888, 43967, 1, 5024);
    (65345, 65370, 1, 65313); (66600, 66639, 1, 66560); (66776, 66811, 1, 66736);
    (66967, 67003, 2, 66928); (66968, 66976, 2, 66929); (66980, 66992, 2, 66941);
    (66996, 67000, 2, 66957); (67004, 67004, 1, 66965); (68800, 68850, 1, 68736);
    (71872, 71903, 1, 71840); (93792, 93823, 1, 93760); (125218, 125251, 1, 125184) ].

(** The code points whose upper-case mapping is several code points. *)
Definition upper_special : list (N * list N) :=
  [ (223, [83; 83]); (329, [700; 78]); (496, [74; 780]); (912, [921; 776; 769]);
    (944, [933; 776; 769]); (1415, [1333; 1362]); (7830, [72; 817]); (7831, [84; 776]);
    (7832, [87; 778]); (7833, [89; 778]); (7834, [65; 702]); (8016, [933; 787]);
    (8018, [933; 787; 768]); (8020, [933; 787; 769]); (8022, [933; 787; 834]);
    (8064, [7944; 921]); (8065, [7945; 921]); (8066, [7946; 921]); (8067, [7947; 921]);
    (8068, [7948; 921]); (8069, [7949; 921]); (8070, [7950; 921]); (8071, [7951; 921]);
    (8072, [7944; 921]); (8073, [7945; 921]); (8074, [7946; 921]); (8075, [7947; 921]);
    (8076, [7948; 921]); (8077, [7949; 921]); (8078, [7950; 921]); (8079, [7951; 921]);
    (8080, [7976; 921]); (8081, [7977; 921]); (8082, [7978; 921]); (8083, [7979; 921]);
    (8084, [7980; 921]); (8085, [7981; 921]); (8086, [7982; 921]); (8087, [7983; 921]);
    (8088, [7976; 921]); (8089, [7977; 921]); (8090, [7978; 921]); (8091, [7979; 921]);
    (8092, [7980; 921]); (8093, [7981; 921]); (8094, [7982; 921]); (8095, [7983; 921]);
    (8096, [8040; 921]); (8097, [8041; 921]); (8098, [8042; 921]); (8099, [8043; 921]);
    (8100, [8044; 921]); (8101, [8045; 921]); (8102, [8046; 921]); (8103, [8047; 921]);
    (8104, [8040; 921]); (8105, [8041; 921]); (8106, [8042; 921]); (8107, [8043; 921]);
    (8108, [8044; 921]); (8109, [8045; 921]); (8110, [8046; 921]); (8111, [8047; 921]);
    (8114, [8122; 921]); (8115, [913; 921]); (8116, [902; 921]); (8118, [913; 834]);
    (8119, [913; 834; 921]); (8124, [913; 921]); (8130, [8138; 921]); (8131, [919; 921]);
    (8132, [905; 921]); (8134, [919; 834]); (8135, [919; 834; 921]); (8140, [919; 921]);
    (8146, [921; 776; 768]); (8147, [921; 776; 769]); (8150, [921; 834]);
    (8151, [921; 776; 834]); (8162, [933; 776; 768]); (8163, [933; 776; 769]);
    (8164, [929; 787]); (8166, [933; 834]); (8167, [933; 776; 834]); (8178, [8186; 921]);
    (8179, [937; 921]); (8180, [911; 921]); (8182, [937; 834]); (8183, [937; 834; 921]);
    (8188, [937; 921]); (64256, [70; 70]); (64257, [70; 73]); (64258, [70; 76]);
    (64259, [70; 70; 73]); (64260, [70; 70; 76]); (64261, [83; 84]); (64262, [83; 84]);
    (64275, [1348; 1350]); (64276, [1348; 1333]); (64277, [1348; 1339]); (64278, [1358; 1350]);
    (64279, [1348; 1341]) ].

(** The code points whose title-case mapping is one other code point: a run
    [(lo, hi, step, to)] maps [lo], [lo + step], ..., [hi] to [to], [to + step], ... *)
Definition title_runs : list (N * N * N * N) :=
  [ (97, 122, 1, 65); (181, 181, 1, 924); (224, 246, 1, 192); (248, 254, 1, 216);
    (255, 255, 1, 376); (257, 303, 2, 256); (305, 305, 1, 73); (307, 311, 2, 306);
    (314, 328, 2, 313); (331, 375, 2, 330); (378, 382, 2, 377); (383, 383, 1, 83);
    (384, 384, 1, 579); (387, 389, 2, 386); (392, 392, 1, 391); (396, 396, 1, 395);
    (402, 402, 1, 401); (405, 405, 1, 502); (409, 409, 1, 408); (410, 410, 1, 573);
    (414, 414, 1, 544); (417, 421, 2, 416); (424, 424, 1, 423); (429, 429, 1, 428);
    (432, 432, 1, 431); (436, 438, 2, 435); (441, 441, 1, 440); (445, 445, 1, 444);
    (447, 447, 1, 503); (452, 452, 1, 453); (454, 454, 1, 453); (455, 455, 1, 456);
    (457, 457, 1, 456); (458, 458, 1, 459); (460, 476, 2, 459); (477, 477, 1, 398);
    (479, 495, 2, 478); (497, 497, 1, 498); (499, 501, 2, 498); (505, 543, 2, 504);
    (547, 563, 2, 546); (572, 572, 1, 571); (575, 576, 1, 11390); (578, 578, 1, 577);
    (583, 591, 2, 582); (592, 592, 1, 11375); (593, 593, 1, 11373); (594, 594, 1, 11376);
    (595, 595, 1, 385); (596, 596, 1, 390); (598, 599, 1, 393); (601, 601, 1, 399);
    (603, 603, 1, 400); (604, 604, 1, 42923); (608, 608, 1, 403); (609, 609, 1, 42924);
    (611, 611, 1, 404); (613, 613, 1, 42893); (614, 614, 1, 42922); (616, 616, 1, 407);
    (617, 617, 1, 406); (618, 618, 1, 42926); (619, 619, 1, 11362); (620, 620, 1, 42925);
    (623, 623, 1, 412); (625, 625, 1, 11374); (626, 626, 1, 413); (629, 629, 1, 415);
    (637, 637, 1, 11364); (640, 640, 1, 422); (642, 642, 1, 42949); (643, 643, 1, 425);
    (647, 647, 1, 42929); (648, 648, 1, 430); (649, 649, 1, 580); (650, 651, 1, 433);
    (652, 652, 1, 581); (658, 658, 1, 439); (669, 669, 1, 42930); (670, 670, 1, 42928);
    (837, 837, 1, 921); (881, 883, 2, 880); (887, 887, 1, 886); (891, 893, 1, 1021);
    (940, 940, 1, 902); (941, 943, 1, 904); (945, 961, 1, 913); (962, 962, 1, 931);
    (963, 971, 1, 931); (972, 972, 1, 908); (973, 974, 1, 910); (976, 976, 1, 914);
    (977, 977, 1, 920); (981, 981, 1, 934); (982, 982, 1, 928); (983, 983, 1, 975);
    (985, 1007, 2, 984); (1008, 1008, 1, 922); (1009, 1009, 1, 929); (1010, 1010, 1, 1017);
    (1011, 1011, 1, 895); (1013, 1013, 1, 917); (1016, 1016, 1, 1015); (1019, 1019, 1, 1018);
    (1072, 1103, 1, 1040); (1104, 1119, 1, 1024); (1121, 1153, 2, 1120); (1163, 1215, 2, 1162);
    (1218, 1230, 2, 1217); (1231, 1231, 1, 1216); (1233, 1327, 2, 1232); (1377, 1414, 1, 1329);
    (5112, 5117, 1, 5104); (7296, 7296, 1, 1042); (7297, 7297, 1, 1044); (7298, 7298, 1, 1054);
    (7299, 7300, 1, 1057); (7301, 7301, 1, 1058); (7302, 7302, 1, 1066); (7303, 7303, 1, 1122);
    (7304, 7304, 1, 42570); (7545, 7545, 1, 42877); (7549, 7549, 1, 11363);
    (7566, 7566, 1, 42950); (7681, 7829, 2, 7680); (7835, 7835, 1, 7776);
    (7841, 7935, 2, 7840); (7936, 7943, 1, 7944); (7952, 7957, 1, 7960); (7968, 7975, 1, 7976);
    (7984, 7991, 1, 7992); (8000, 8005, 1, 8008); (8017, 8023, 2, 8025); (8032, 8039, 1, 8040);
    (8048, 8049, 1, 8122); (8050, 8053, 1, 8136); (8054, 8055, 1, 8154); (8056, 8057, 1, 8184);
    (8058, 8059, 1, 8170); (8060, 8061, 1, 8186); (8064, 8071, 1, 8072); (8080, 8087, 1, 8088);
    (8096, 8103, 1, 8104); (8112, 8113, 1, 8120); (8115, 8115, 1, 8124); (8126, 8126, 1, 921);
    (8131, 8131, 1, 8140); (8144, 8145, 1, 8152); (8160, 8161, 1, 8168); (8165, 8165, 1, 8172);
    (8179, 8179, 1, 8188); (8526, 8526, 1, 8498); (8560, 8575, 1, 8544); (8580, 8580, 1, 8579);
    (9424, 9449, 1, 9398); (11312, 11359, 1, 11264); (11361, 11361, 1, 11360);
    (11365, 11365, 1, 570); (11366, 11366, 1, 574); (11368, 11372, 2, 11367);
    (11379, 11379, 1, 11378); (11382, 11382, 1, 11381); (11393, 11491, 2, 11392);
    (11500, 11502, 2, 11499); (11507, 11507, 1, 11506); (11520, 11557, 1, 4256);
    (11559, 11559, 1, 4295); (11565, 11565, 1, 4301); (42561, 42605, 2, 42560);
    (42625, 42651, 2, 42624); (42787, 42799, 2, 42786); (42803, 42863, 2, 42802);
    (42874, 42876, 2, 42873); (42879, 42887, 2, 42878); (42892, 42892, 1, 42891);
    (42897, 42899, 2, 42896); (42900, 42900, 1, 42948); (42903, 42921, 2, 42902);
    (42933, 42947, 2, 42932); (42952, 42954, 2, 42951); (42961, 42961, 1, 42960);
    (42967, 42969, 2, 42966); (42998, 42998, 1, 42997); (43859, 43859, 1, 42931);
    (43888, 43967, 1, 5024); (65345, 65370, 1, 65313); (66600, 66639, 1, 66560);
    (66776, 66811, 1, 66736); (66967, 67003, 2, 66928); (66968, 66976, 2, 66929);
    (66980, 66992, 2, 66941); (66996, 67000, 2, 66957); (67004, 67004, 1, 66965);
    (68800, 68850, 1, 68736); (71872, 71903, 1, 71840); (93792, 93823, 1, 93760);
    (125218, 125251, 1, 125184) ].

(** The code points whose title-case mapping is several code points. *)
Definition title_special : list (N * list N) :=
  [ (223, [83; 115]); (329, [700; 78]); (496, [74; 780]); (912, [921; 776; 769]);
    (944, [933; 776; 769]); (1415, [1333; 1410]); (7830, [72; 817]); (7831, [84; 776]);
    (7832, [87; 778]); (7833, [89; 778]); (7834, [65; 702]); (8016, [933; 787]);
    (8018, [933; 787; 768]); (8020, [933; 787; 769]); (8022, [933; 787; 834]);
    (8114, [8122; 837]); (8116, [902; 837]); (8118, [913; 834]); (8119, [913; 834; 837]);
    (8130, [8138; 837]); (8132, [905; 837]); (8134, [919; 834]); (8135, [919; 834; 837]);
    (8146, [921; 776; 768]); (8147, [921; 776; 769]); (8150, [921; 834]);
    (8151, [921; 776; 834]); (8162, [933; 776; 768]); (8163, [933; 776; 769]);
    (8164, [929; 787]); (8166, [933; 834]); (8167, [933; 776; 834]); (8178, [8186; 837]);
    (8180, [911; 837]); (8182, [937; 834]); (8183, [937; 834; 837]); (64256, [70; 102]);
    (64257, [70; 105]); (64258, [70; 108]); (64259, [70; 102; 105]); (64260, [70; 102; 108]);
    (64261, [83; 116]); (64262, [83; 116]); (64275, [1348; 1398]); (64276, [1348; 1381]);
    (64277, [1348; 1387]); (64278, [1358; 1398]); (64279, [1348; 1389]) ].

(** [c] is in one of the ranges, which are in ascending order. *)
Fixpoint in_ranges (ranges : list (N * N)) (c : N) : bool :=
  match ranges with
  | [] => false
  | (lo, hi) :: ranges' =>
      if c <? lo then false
      else if c <=? hi then true
      else in_ranges ranges' c
  end.

(** The image of [c] in the runs, which are in ascending order of their
    first code point. *)
Fixpoint find_run (runs : list (N * N * N * N)) (c : N) : option N :=
  match runs with
  | [] => None
  | (lo, hi, step, to) :: runs' =>
      if c <? lo then None
      else if (c <=? hi) && ((c - lo) mod step =? 0) then Some (to + (c - lo))
      else find_run runs' c
  end.

(** The image of [c] in the table, which is in ascending order. *)
Fixpoint find_special (table : list (N * list N)) (c : N) : option (list N) :=
  match table with
  | [] => None
  | (k, image) :: table' =>
      if c <? k then None
      else if c =? k then Some image
      else find_special table' c
  end.

(** [Py_UNICODE_ISSPACE], [_PyUnicode_IsCased] and
    [_PyUnicode_IsCaseIgnorable]. *)
Definition is_space (c : N) : bool := in_ranges whitespace_ranges c.

Definition is_cased (c : N) : bool := in_ranges cased_ranges c.

Definition is_case_ignorable (c : N) : bool := in_ranges case_ignorable_ranges c.

Definition full_mapping (runs : list (N * N * N * N)) (special : list (N * list N)) (c : N)
  : text :=
  match find_special special c with
  | Some image => image
  | None =>
      match find_run runs c with
      | Some c' => [c']
      | None => [c]
      end
  end.

(** [_PyUnicode_ToLowerFull], [_PyUnicode_ToUpperFull] and
    [_PyUnicode_ToTitleFull]. *)
Definition to_lower_full (c : N) : text := full_mapping lower_runs lower_special c.

Definition to_upper_full (c : N) : text := full_mapping upper_runs upper_special c.

Definition to_title_full (c : N) : text := full_mapping title_runs title_special c.

(** [final_sigma]: the capital sigma at hand is preceded by a cased code
    point and not followed by one, case-ignorable code points skipped.
    [before] holds the code points before it, the nearest first. *)
Fixpoint skip_ignorable (s : text) : text :=
  match s with
  | [] => []
  | c :: s' => if is_case_ignorable c then skip_ignorable s' else s
  end.

Definition final_sigma (before after : text) : bool :=
  match skip_ignorable before with
  | [] => false
  | c :: _ =>
      is_cased c
      && match skip_ignorable after with
         | [] => true
         | c' :: _ => negb (is_cased c')
         end
  end.

(** [lower_ucs4]. *)
Definition lower_ucs4 (before : text) (c : N) (after : text) : text :=
  if c =? 931 then [if final_sigma before after then 962 else 963]
  else to_lower_full c.

(** [s.lower()] and [s.upper()]. *)
Fixpoint lower_from (before : text) (s : text) : text :=
  match s with
  | [] => []
  | c :: s' => lower_ucs4 before c s' ++ lower_from (c :: before) s'
  end.

Definition lower (s : text) : text := lower_from [] s.

Fixpoint upper (s : text) : text :=
  match s with
  | [] => []
  | c :: s' => to_upper_full c ++ upper s'
  end.

(** [s.title()]: a code point is lower-cased when the one before it is cased
    and title-cased when it is not. *)
Fixpoint title_from (before : text) (previous_is_cased : bool) (s : text) : text :=
  match s with
  | [] => []
  | c :: s' =>
      (if previous_is_cased then lower_ucs4 before c s' else to_title_full c)
      ++ title_from (c :: before) (is_cased c) s'
  end.

Definition title (s : text) : text := title_from [] false s.

(** [s.strip()] with no argument. *)
Fixpoint lstrip (s : text) : text :=
  match s with
  | [] => []
  | c :: s' => if is_space c then lstrip s' else s
  end.

Fixpoint rstrip (s : text) : text :=
  match s with
  | [] => []
  | c :: s' =>
      match rstrip s' with
      | [] => if is_space c then [] else [c]
      | r => c :: r
      end
  end.

Definition strip (s : text) : text := lstrip (rstrip s).

(** [s.split(sep)] for a separator of one code point: never empty. *)
Fixpoint split_on (sep : N) (s : text) : list text :=
  match s with
  | [] => [[]]
  | c :: s' =>
      if c =? sep then [] :: split_on sep s'
      else match split_on sep s' with
           | p :: ps => (c :: p) :: ps
           | [] => [[c]]
           end
  end.

(** Does [s] start with a code point that is not whitespace? *)
Definition starts_word (s : text) : bool :=
  match s with
  | [] => false
  | c :: _ => negb (is_space c)
  end.

(** [s.split()] with no argument: the maximal runs of code points that are
    not whitespace. *)
Fixpoint split (s : text) : list text :=
  match s with
  | [] => []
  | c :: s' =>
      if is_space c then split s'
      else if starts_word s' then
        match split s' with
        | t :: ts => (c :: t) :: ts
        | [] => [[c]]
        end
      else [c] :: split s'
  end.

(** [sep.join(l)]. *)
Fixpoint join (sep : text) (l : list text) : text :=
  match l with
  | [] => []
  | [x] => x
  | x :: l' => x ++ sep ++ join sep l'
  end.

(** [a == b]. *)
Fixpoint eqb (a b : text) : bool :=
  match a, b with
  | [], [] => true
  | x :: a', y :: b' => (x =? y) && eqb a' b'
  | _, _ => false
  end.

(** The text of an ASCII literal, and ASCII text as a literal. *)
Definition of_string (s : string) : text :=
  map N_of_ascii (list_ascii_of_string s).

Definition to_string (s : text) : string :=
  string_of_list_ascii (map ascii_of_N s).

(** Every code point of [s] is an ASCII character. *)
Definition is_ascii (s : text) : bool := forallb (fun c => c <? 128) s.

End Unicode.

(** ** Python [float]: the constructor [float(str)] and the format [f] *)

Module PyFloat.
Import PyStr.

Definition digit_val (c : ascii) : N := (N_of_ascii c - 48)%N.

(** The value of a run of decimal digits. *)
Fixpoint digits_val (acc : N) (s : string) : N :=
  match s with
  | EmptyString => acc
  | String c s' => digits_val (10 * acc + digit_val c)%N s'
  end.

(** The longest prefix of digits, and what follows it. *)
Fixpoint span_digits (s : string) : string * string :=
  match s with
  | EmptyString => (EmptyString, EmptyString)
  | String c s' =>
      if is_digit c then let '(d, r) := span_digits s' in (String c d, r)
      else (EmptyString, s)
  end.

(** Digit-group underscores: one is allowed only between two digits. *)
Fixpoint drop_underscores (prev : ascii) (s : string) : option string :=
  match s with
  | EmptyString => if Ascii.eqb prev "_" then None else Some EmptyString
  | String c s' =>
      if Ascii.eqb c "_" then
        if is_digit prev then drop_underscores c s' else None
      else if Ascii.eqb prev "_" && negb (is_digit c) then None
      else option_map (String c) (drop_underscores c s')
  end.

(** An optional sign: is it [-], and what follows. *)
Definition take_sign (s : string) : bool * string :=
  match s with
  | String "-" s' => (true, s')
  | String "+" s' => (false, s')
  | _ => (false, s)
  end.

(** The binary64 number nearest to [(-1)^neg * m * 10^e], ties to even. *)
Definition of_decimal (neg : bool) (m : N) (e : Z) : float :=
  match m with
  | N0 => if neg then neg_zero else zero
  | Npos p =>
      if (0 <=? e)%Z then
        let z := (Zpos p * 10 ^ e)%Z in
        SF2Prim (binary_normalize prec emax (if neg then - z else z)%Z 0 false)
      else
        match (10 ^ (- e))%Z with
        | Zpos d => SF2Prim (SFdiv prec emax (S754_finite neg p 0) (S754_finite false d 0))
        | _ => nan
        end
  end.

(** [float(n)] for an integer. *)
Definition of_int (z : Z) : float :=
  SF2Prim (binary_normalize prec emax z 0 false).

(** The decimal numeral [digits [. digits] [(e|E) [sign] digits]], with at
    least one digit before the exponent. *)
Definition parse_decimal (neg : bool) (s : string) : option float :=
  let '(ip, r1) := span_digits s in
  let '(fp, r2) :=
    match r1 with
    | String "." r => span_digits r
    | _ => (EmptyString, r1)
    end in
  let m := digits_val 0 (ip ++ fp) in
  let scale := Z.of_nat (String.length fp) in
  if (String.length ip + String.length fp =? 0)%nat then None
  else
    match r2 with
    | EmptyString => Some (of_decimal neg m (- scale))
    | String c r3 =>
        if Ascii.eqb c "e" || Ascii.eqb c "E" then
          let '(eneg, r4) := take_sign r3 in
          let '(ed, r5) := span_digits r4 in
          match ed, r5 with
          | String _ _, EmptyString =>
              let x := Z.of_N (digits_val 0 ed) in
              Some (of_decimal neg m ((if eneg then - x else x) - scale))
          | _, _ => None
          end
        else None
    end.

(** [float(s)]: [None] stands for [ValueError]. *)
Definition of_string (s : string) : option float :=
  match drop_underscores Ascii.zero s with
  | None => None
  | Some s1 =>
      let '(neg, body) := take_sign (strip s1) in
      let word := lower body in
      if mem word ["inf"; "infinity"] then Some (if neg then neg_infinity else infinity)
      else if String.eqb word "nan" then Some nan
      else parse_decimal neg body
  end.

(** [n / d] rounded to the nearest integer, ties to even ([0 <= n], [0 < d]). *)
Definition round_half_even (n d : Z) : Z :=
  let q := (n / d)%Z in
  let r := (n mod d)%Z in
  if (2 * r <? d)%Z then q
  else if (d <? 2 * r)%Z then (q + 1)%Z
  else if Z.even q then q else (q + 1)%Z.

(** [m * 2^e * 10^p] rounded to an integer. *)
Definition scaled (m : positive) (e : Z) (p : nat) : Z :=
  let num := (Zpos m * 10 ^ Z.of_nat p)%Z in
  if (0 <=? e)%Z then (num * 2 ^ e)%Z else round_half_even num (2 ^ (- e))%Z.

Definition decimal (n : N) : string := NilZero.string_of_uint (N.to_uint n).

Fixpoint rev_onto (s acc : string) : string :=
  match s with
  | EmptyString => acc
  | String c s' => rev_onto s' (String c acc)
  end.

(** Thousands separators, on the reversed digits: [k] digits until the next
    comma. *)
Fixpoint group_rev (k : nat) (s acc : string) : string :=
  match s with
  | EmptyString => acc
  | String c s' =>
      match k with
      | O => group_rev 2 s' (String c (String "," acc))
      | S k' => group_rev k' s' (String c acc)
      end
  end.

Definition group3 (digits : string) : string :=
  group_rev 3 (rev_onto digits EmptyString) EmptyString.

(** The digits of the scaled integer [n]: the integer part and, when
    [p > 0], a point and [p] decimals. *)
Definition fixed (comma : bool) (p : nat) (n : Z) : string :=
  let unit := (10 ^ Z.of_nat p)%Z in
  let ip := decimal (Z.to_N (n / unit)) in
  let fp := decimal (Z.to_N (n mod unit)) in
  (if comma then group3 ip else ip) ++
  match p with
  | O => EmptyString
  | _ => "." ++ repeat_char "0" (p - String.length fp) ++ fp
  end.

(** [format(x, ",.pf")] ([comma]) and [format(x, ".pf")]. *)
Definition format_f (comma : bool) (p : nat) (x : float) : string :=
  match Prim2SF x with
  | S754_nan => "nan"
  | S754_infinity s => (if s then "-" else "") ++ "inf"
  | S754_zero s => (if s then "-" else "") ++ fixed comma p 0
  | S754_finite s m e => (if s then "-" else "") ++ fixed comma p (scaled m e p)
  end.

End PyFloat.

(** ** [hashlib.md5(bytes).hexdigest()] (RFC 1321) *)

Module MD5.
Local Open Scope Z_scope.

Definition mask32 (x : Z) : Z := Z.land x 0xffffffff.

Definition rotl (x c : Z) : Z :=
  mask32 (Z.lor (Z.shiftl x c) (Z.shiftr x (32 - c))).

Definition K : list Z :=
  [0xd76aa478; 0xe8c7b756; 0x242070db; 0xc1bdceee;
   0xf57c0faf; 0x4787c62a; 0xa8304613; 0xfd469501;
   0x698098d8; 0x8b44f7af; 0xffff5bb1; 0x895cd7be;
   0x6b901122; 0xfd987193; 0xa679438e; 0x49b40821;
   0xf61e2562; 0xc040b340; 0x265e5a51; 0xe9b6c7aa;
   0xd62f105d; 0x02441453; 0xd8a1e681; 0xe7d3fbc8;
   0x21e1cde6; 0xc33707d6; 0xf4d50d87; 0x455a14ed;
   0xa9e3e905; 0xfcefa3f8; 0x676f02d9; 0x8d2a4c8a;
   0xfffa3942; 0x8771f681; 0x6d9d6122; 0xfde5380c;
   0xa4beea44; 0x4bdecfa9; 0xf6bb4b60; 0xbebfbc70;
   0x289b7ec6; 0xeaa127fa; 0xd4ef3085; 0x04881d05;
   0xd9d4d039; 0xe6db99e5; 0x1fa27cf8; 0xc4ac5665;
   0xf4292244; 0x432aff97; 0xab9423a7; 0xfc93a039;
   0x655b59c3; 0x8f0ccc92; 0xffeff47d; 0x85845dd1;
   0x6fa87e4f; 0xfe2ce6e0; 0xa3014314; 0x4e0811a1;
   0xf7537e82; 0xbd3af235; 0x2ad7d2bb; 0xeb86d391]%Z.

Definition shifts : list Z :=
  [7; 12; 17; 22; 7; 12; 17; 22; 7; 12; 17; 22; 7; 12; 17; 22;
   5; 9; 14; 20; 5; 9; 14; 20; 5; 9; 14; 20; 5; 9; 14; 20;
   4; 11; 16; 23; 4; 11; 16; 23; 4; 11; 16; 23; 4; 11; 16; 23;
   6; 10; 15; 21; 6; 10; 15; 21; 6; 10; 15; 21; 6; 10; 15; 21]%Z.

(** The [n] low bytes of [x], least significant first. *)
Fixpoint le_bytes (n : nat) (x : Z) : list Z :=
  match n with
  | O => []
  | S n' => Z.land x 255 :: le_bytes n' (Z.shiftr x 8)
  end.

(** The message followed by the bit 1, zeros up to 56 modulo 64 bytes, and
    its length in bits on 64 bits. *)
Definition pad (msg : list Z) : list Z :=
  let len := length msg in
  let zeros := ((55 + 64 - len mod 64) mod 64)%nat in
  (msg ++ [128] ++ repeat 0 zeros ++ le_bytes 8 (8 * Z.of_nat len))%list.

Fixpoint le_word (bs : list Z) : Z :=
  match bs with
  | [] => 0
  | b :: bs' => b + 256 * le_word bs'
  end.

(** [k] little-endian words of four bytes. *)
Fixpoint words (k : nat) (bs : list Z) : list Z :=
  match k with
  | O => []
  | S k' => le_word (take 4 bs) :: words k' (drop 4 bs)
  end.

Definition state : Type := Z * Z * Z * Z.

Definition round (M : list Z) (st : state) (i : nat) : state :=
  let '(A, B, C, D) := st in
  let nB := Z.lxor B 0xffffffff in
  let nD := Z.lxor D 0xffffffff in
  let '(F, g) :=
    if (i <? 16)%nat then (Z.lor (Z.land B C) (Z.land nB D), i)
    else if (i <? 32)%nat then (Z.lor (Z.land D B) (Z.land nD C), (5 * i + 1) mod 16)%nat
    else if (i <? 48)%nat then (Z.lxor (Z.lxor B C) D, (3 * i + 5) mod 16)%nat
    else (Z.lxor C (Z.lor B nD), (7 * i) mod 16)%nat in
  let F' := mask32 (F + A + nth i K 0 + nth g M 0) in
  (D, mask32 (B + rotl F' (nth i shifts 0)), B, C).

Definition block (st : state) (M : list Z) : state :=
  let '(a0, b0, c0, d0) := st in
  let '(A, B, C, D) := fold_left (round M) (seq 0%nat 64%nat) st in
  (mask32 (a0 + A), mask32 (b0 + B), mask32 (c0 + C), mask32 (d0 + D)).

Fixpoint blocks (n : nat) (st : state) (bs : list Z) : state :=
  match n with
  | O => st
  | S n' => blocks n' (block st (words 16 bs)) (drop 64 bs)
  end.

Definition digest (msg : list Z) : list Z :=
  let bs := pad msg in
  let '(a, b, c, d) :=
    blocks (length bs / 64)%nat (0x67452301, 0xefcdab89, 0x98badcfe, 0x10325476) bs in
  (le_bytes 4 a ++ le_bytes 4 b ++ le_bytes 4 c ++ le_bytes 4 d)%list.

Definition hex_digit (x : Z) : ascii :=
  ascii_of_N (Z.to_N (if (x <? 10)%Z then 48 + x else 87 + x)%Z).

Fixpoint hex (bs : list Z) : string :=
  match bs with
  | [] => EmptyString
  | b :: bs' => String (hex_digit (Z.shiftr b 4)) (String (hex_digit (Z.land b 15)) (hex bs'))
  end.

(** [s.encode()]: the bytes of an ASCII text. *)
Definition encode (s : string) : list Z :=
  map (fun c => Z.of_N (N_of_ascii c)) (list_ascii_of_string s).

(** [hashlib.md5(s.encode()).hexdigest()]. *)
Definition hexdigest (s : string) : string := hex (digest (encode s)).

End MD5.

(** ** Format specifications and [datetime] *)

Module PyFormat.
Import PyStr.

Definition nl : string := String (ascii_of_nat 10) EmptyString.

(** The text [print] writes for the lines [l]: each followed by a newline. *)
Fixpoint unlines (l : list string) : string :=
  match l with
  | [] => EmptyString
  | x :: l' => x ++ nl ++ unlines l'
  end.

(** [format(s, "w")] for a string: left-aligned in [w] columns, never cut. *)
Definition ljust (w : nat) (s : string) : string :=
  s ++ repeat_char " " (w - String.length s).

(** [format(x, "w...")] for a number: right-aligned in [w] columns. *)
Definition rjust (w : nat) (s : string) : string :=
  repeat_char " " (w - String.length s) ++ s.

(** [format(n, "0wd")] for a natural number. *)
Definition zfill (w : nat) (n : nat) : string :=
  let digits := PyFloat.decimal (N.of_nat n) in
  repeat_char "0" (w - String.length digits) ++ digits.

End PyFormat.

Module DateTime.
Import PyFormat.

Record datetime : Type := {
  year : nat; month : nat; day : nat;
  hour : nat; minute : nat; second : nat; microsecond : nat
}.

(** [d.date().isoformat()]. *)
Definition date_isoformat (d : datetime) : string :=
  zfill 4 (year d) ++ "-" ++ zfill 2 (month d) ++ "-" ++ zfill 2 (day d).

(** [d.isoformat()]: the microseconds are left out when they are zero. *)
Definition isoformat (d : datetime) : string :=
  date_isoformat d ++ "T" ++ zfill 2 (hour d) ++ ":" ++ zfill 2 (minute d)
  ++ ":" ++ zfill 2 (second d)
  ++ (if (microsecond d =? 0)%nat then EmptyString else "." ++ zfill 6 (microsecond d)).

End DateTime.

(** ** The program *)

Module Mailroom.
Import PyStr PyFormat DateTime.

(** The exceptions the program can raise and does not catch. *)
Inductive exn : Type := IndexError | ZeroDivisionError.

Inductive result (A : Type) : Type :=
| Ok (a : A)
| Raise (e : exn).
Arguments Ok {A} a.
Arguments Raise {A} e.

(** *** The data model *)

(** One donation: [{"amount": ..., "date": ...}].  The amount is the [float]
    that [get_donation_amount] returned. *)
Record Donation : Type := { amount : float; date : string }.

(** The dictionary [parse_name] returns. *)
Record NameParts : Type := {
  full_name : string;
  informal_name : string;
  suffix : string;
  last_name : string;
  first_name : string
}.

(** One donor record: the keys [created], [user_id] and [donations], and
    the name keys ([**current_donor]). *)
Record Donor : Type := {
  created : string;
  user_id : string;
  donations : list Donation;
  name : NameParts
}.

(** The module-level list [donors], the console and the clock.  [stdin] is
    the script of the lines still to be typed, [stdout] the chunks written so
    far, and [clock k] what the [k]-th call of [utcnow] returns. *)
Record World : Type := {
  donors : list Donor;
  stdin : list string;
  stdout : list string;
  ticks : nat;
  clock : nat -> datetime
}.

Definition set_donors (ds : list Donor) (w : World) : World :=
  {| donors := ds; stdin := stdin w; stdout := stdout w; ticks := ticks w; clock := clock w |}.

Definition set_stdin (ls : list string) (w : World) : World :=
  {| donors := donors w; stdin := ls; stdout := stdout w; ticks := ticks w; clock := clock w |}.

Definition set_stdout (out : list string) (w : World) : World :=
  {| donors := donors w; stdin := stdin w; stdout := out; ticks := ticks w; clock := clock w |}.

(** [datetime.datetime.utcnow()]. *)
Definition utcnow (w : World) : datetime * World :=
  (clock w (ticks w),
   {| donors := donors w; stdin := stdin w; stdout := stdout w;
      ticks := S (ticks w); clock := clock w |}).

(** *** The console *)

(** [print(x)]: the chunk written. *)
Definition print (x : string) : list string := [(x ++ nl)%string].

(** [print_lines(lines)]. *)
Fixpoint print_lines (lines : nat) : list string :=
  match lines with
  | O => []
  | S n => print EmptyString ++ print_lines n
  end.

(** [safe_input(prompt)] on the lines still to be typed: the stripped line,
    or the empty string at the end of the input ([EOFError] is caught). *)
Definition safe_input (lines : list string) : string * list string :=
  match lines with
  | [] => (EmptyString, [])
  | line :: rest => (strip line, rest)
  end.

(** *** [parse_name] *)

Definition parse_name (full_name : string) : result NameParts :=
  let suffix :=
    match split_on "," full_name with
    | _ :: p :: _ => upper (strip p)
    | _ => EmptyString                         (* [except:] *)
    end in
  let informal_name := title (strip (hd EmptyString (split_on "," full_name))) in
  match last (split informal_name) with
  | None => Raise IndexError                   (* [informal_name.split()[-1]] *)
  | Some l =>
      let last_name := title (strip l) in
      let first_name := title (join " " (removelast (split informal_name))) in
      let new_full_name :=
        if negb (String.eqb suffix EmptyString)
        then join ", " [informal_name; suffix]
        else informal_name in
      Ok {| full_name := new_full_name; informal_name := informal_name;
            suffix := suffix; last_name := last_name; first_name := first_name |}
  end.

(** *** [print_report] *)

Definition report_header : string :=
  ljust 5 "ID" ++ " | " ++ ljust 20 "Donor Name" ++ " | " ++ ljust 14 "Total Given"
  ++ " | " ++ ljust 9 "Num Gifts" ++ " | " ++ ljust 12 "Average Gift".

(** [total_donations] after the inner loop, for a donor with a donation: the
    integer [0] is converted when the first amount is added. *)
Definition total_donations (donor : Donor) : float :=
  fold_left (fun total donation => (total + amount donation)%float) (donations donor) 0%float.

(** The line printed for one donor; with no donation, [0 / 0] raises. *)
Definition report_row (donor_index : nat) (donor : Donor) : result string :=
  let num_donations := length (donations donor) in
  match num_donations with
  | O => Raise ZeroDivisionError
  | _ =>
      let average_donation :=
        (total_donations donor / PyFloat.of_int (Z.of_nat num_donations))%float in
      Ok (zfill 5 donor_index ++ "   " ++ ljust 20 (full_name (name donor)) ++ "  $"
          ++ rjust 14 (PyFloat.format_f true 2 (total_donations donor)) ++ "   "
          ++ rjust 9 (PyFloat.format_f false 0 (PyFloat.of_int (Z.of_nat num_donations)))
          ++ "  $" ++ rjust 12 (PyFloat.format_f true 2 average_donation))%string
  end.

(** The loop over [enumerate(donors)]: what is written, and how it ends. *)
Fixpoint report_rows (donor_index : nat) (ds : list Donor) : list string * result unit :=
  match ds with
  | [] => ([], Ok tt)
  | donor :: ds' =>
      match report_row donor_index donor with
      | Raise e => ([], Raise e)
      | Ok row =>
          let '(out, r) := report_rows (S donor_index) ds' in
          (print row ++ out, r)
      end
  end.

Definition print_report (ds : list Donor) : list string * result unit :=
  let '(rows, r) := report_rows 0 ds in
  (print_lines 2 ++ print report_header ++ print (repeat_char "-" 72) ++ rows, r).

(** *** [get_donation_amount] *)

Definition amount_menu (current_donor : NameParts) : string :=
  unlines
    [ EmptyString;
      "GIFT ENTRY (ammount)";
      "-----------------------";
      EmptyString;
      ("Enter the numeric amount " ++ informal_name current_donor ++ " has donated or")%string;
      "(q)uit to return to cancel the donation and";
      "return to the previous menu.";
      EmptyString ].

Definition amount_prompt : string := "Donation amount or (q)uit: ".

Definition not_numeric : string :=
  "The value must be numeric.  Please try again or (q)uit.".

(** How the amount prompt ends: with an amount, with [None], or never (at
    the end of the input every further answer is the empty string, which is
    not numeric). *)
Inductive Amount : Type :=
| Given (amount : float)
| NoAmount
| AmountSpins.

(** What one turn of the loop writes before it reads: two empty lines, the
    menu and the prompt. *)
Definition amount_turn (current_donor : NameParts) : list string :=
  print_lines 2 ++ print (amount_menu current_donor) ++ [amount_prompt].

(** The [while amount==0] loop: [amount] is still [0] whenever the test is
    reached again, since a numeric answer returns from inside the [try].
    The result comes with the lines left to type and the chunks written. *)
Fixpoint get_donation_amount (current_donor : NameParts) (lines : list string)
  : Amount * list string * list string :=
  let shown := amount_turn current_donor in
  match lines with
  | [] => (AmountSpins, [], shown)
  | _ :: rest =>
      let selection := fst (safe_input lines) in
      if mem (lower selection) ["q"; "quit"] then (NoAmount, rest, shown)
      else
        match PyFloat.of_string selection with
        | Some amount => (Given amount, rest, shown)
        | None =>
            let '(r, rest', out) := get_donation_amount current_donor rest in
            (r, rest', shown ++ print_lines 2 ++ print not_numeric ++ out)
        end
  end.

(** *** [print_thank_you] *)

Definition letter (hint : string) (current_donor : NameParts) : string :=
  unlines
    [ EmptyString;
      ("Dearest " ++ full_name current_donor ++ ",")%string;
      EmptyString;
      "We are are grateful for the generious donation on the behalf of";
      ("the " ++ last_name current_donor ++ " family.")%string;
      EmptyString;
      ("It is through the donations of " ++ hint ++ " patrions like yourself that")%string;
      "allows us to continue to support the community.";
      EmptyString;
      "Sincerely,";
      EmptyString;
      "Tux Humboldt";
      "Shark Loss Prevention Institue" ].

Definition print_thank_you (current_donor : NameParts) (hint : string) : list string :=
  print_lines 2 ++ print (repeat_char "-" 80) ++ print (letter hint current_donor)
  ++ print (repeat_char "-" 80) ++ print_lines 2.

(** *** [thank_you_entry] *)

Definition entry_menu : string :=
  unlines
    [ EmptyString;
      "DONATION ENTRY (Donor Name)";
      "---------------------------";
      EmptyString;
      "Enter the full name (first last) of the donor";
      "for whom you would like to enter a donation,";
      "(l)ist to see a list of the existing donors, or";
      "(q)uit to return to the previous menu.";
      EmptyString ].

Definition entry_prompt : string := "Donor Name, (l)ist or (q)uit: ".

Definition need_both_names : string := "You must enter both a first and last name.".

Definition donation_cancelled : string := "Donation cancelled!".

(** The test of the matching loop: the stored first and last name against
    the [full_name] of the current candidate. *)
Definition name_matches (existing_donor : Donor) (current_donor : NameParts) : bool :=
  let existing_full_name :=
    (first_name (name existing_donor) ++ " " ++ last_name (name existing_donor))%string in
  String.eqb (strip (lower existing_full_name)) (strip (lower (full_name current_donor))).

(** The loop over [enumerate(donors)] that looks the name up: on a match
    [current_donor] becomes the stored donor and [donor_id] its index, and
    the loop goes on. *)
Fixpoint find_loop (donor_index : nat) (ds : list Donor)
         (current_donor : NameParts) (donor_id : option nat) : NameParts * option nat :=
  match ds with
  | [] => (current_donor, donor_id)
  | existing_donor :: ds' =>
      if name_matches existing_donor current_donor
      then find_loop (S donor_index) ds' (name existing_donor) (Some donor_index)
      else find_loop (S donor_index) ds' current_donor donor_id
  end.

Definition find_by_name (ds : list Donor) (current_donor : NameParts)
  : NameParts * option nat :=
  find_loop 0 ds current_donor None.

Definition append_donation (d : Donation) (donor : Donor) : Donor :=
  {| created := created donor; user_id := user_id donor;
     donations := donations donor ++ [d]; name := name donor |}.

(** The end of an entry: the donation goes to the donor at [donor_id], or to
    a new record when there is none.  [donor_id] is an index of the loop
    above, hence in range.  The result is the hint of the letter. *)
Definition add_donation (donor_id : option nat) (current_donor : NameParts)
           (new_donation : float) (w : World) : string * World :=
  let '(t, w) := utcnow w in
  let today := (date_isoformat t ++ "Z")%string in
  match donor_id with
  | Some i =>
      ("returning",
       set_donors
         (alter (append_donation {| amount := new_donation; date := today |}) i (donors w)) w)
  | None =>
      let '(t', w) := utcnow w in
      let now := (isoformat t' ++ "Z")%string in
      let id_source := (full_name current_donor ++ now)%string in
      let user_id := MD5.hexdigest id_source in
      ("new",
       set_donors
         (donors w ++
          [ {| created := now; user_id := user_id;
               donations := [ {| amount := new_donation; date := today |} ];
               name := current_donor |} ]) w)
  end.

(** How a call of [thank_you_entry] ends: one of its two [return]s, an
    exception, or never (at the end of the input every further answer is the
    empty string, and the loop goes on). *)
Inductive Exit : Type :=
| Returned
| Cancelled
| Raised (e : exn)
| Spins
| OutOfFuel.

Inductive Step : Type :=
| Continue
| Stop (e : Exit).

Definition write (out : list string) (w : World) : World :=
  set_stdout (stdout w ++ out) w.

(** What a pass writes before it reads. *)
Definition entry_turn : list string :=
  print_lines 2 ++ print entry_menu ++ [entry_prompt].

(** One pass through the body of [while True]. *)
Definition thank_you_pass (w : World) : Step * World :=
  let w := write entry_turn w in
  match stdin w with
  | [] => (Stop Spins, w)
  | _ :: _ =>
      let '(selection, rest) := safe_input (stdin w) in
      let w := set_stdin rest w in
      if mem (lower selection) ["q"; "quit"] then (Stop Returned, w)
      else if mem (lower selection) ["l"; "list"] then
        let '(out, r) := print_report (donors w) in
        match r with
        | Ok _ => (Continue, write out w)
        | Raise e => (Stop (Raised e), write out w)
        end
      else if String.eqb selection EmptyString then (Continue, w)
      else
        match parse_name selection with
        | Raise e => (Stop (Raised e), w)
        | Ok current_donor =>
            if String.eqb (first_name current_donor) EmptyString
               || String.eqb (last_name current_donor) EmptyString
            then (Continue, write (print need_both_names) w)
            else
              let '(current_donor, donor_id) := find_by_name (donors w) current_donor in
              let '(new_donation, rest, out) := get_donation_amount current_donor (stdin w) in
              let w := write out (set_stdin rest w) in
              match new_donation with
              | AmountSpins => (Stop Spins, w)
              | NoAmount => (Stop Cancelled, write (print_lines 2 ++ print donation_cancelled) w)
              | Given new_donation =>
                  let '(hint, w) := add_donation donor_id current_donor new_donation w in
                  (Continue, write (print_thank_you current_donor hint) w)
              end
        end
  end.

Fixpoint thank_you_loop (fuel : nat) (w : World) : Exit * World :=
  match fuel with
  | O => (OutOfFuel, w)
  | S fuel' =>
      match thank_you_pass w with
      | (Continue, w') => thank_you_loop fuel' w'
      | (Stop e, w') => (e, w')
      end
  end.

(** Every pass that goes on has read a line, so one pass more than there are
    lines is enough. *)
Definition thank_you_entry (w : World) : Exit * World :=
  thank_you_loop (S (length (stdin w))) w.

End Mailroom.

(** ** Notions of the specification

    The contract of the name parser and the rows of the report as the
    specification words them, to be compared with [Mailroom.parse_name] and
    [Mailroom.print_report], and the notions in which the properties of the
    entry flow are stated. *)

Module Spec.
Import PyStr Mailroom.

(** The part after the comma, stripped and upper-cased, is the suffix (empty
    when there is no comma); the part before it, stripped and title-cased, is
    the remainder; its last token is the last name, the tokens before it,
    joined by single blanks, the first name; the full name is the remainder,
    followed by a comma, a blank and the suffix when there is one. *)
Definition parse (raw : string) : NameParts :=
  let pieces := split_on "," raw in
  let suffix :=
    match pieces with
    | _ :: after :: _ => upper (strip after)
    | _ => EmptyString
    end in
  let remainder := title (strip (hd EmptyString pieces)) in
  let tokens := split remainder in
  {| full_name :=
       if String.eqb suffix EmptyString then remainder
       else (remainder ++ ", " ++ suffix)%string;
     informal_name := remainder;
     suffix := suffix;
     last_name := default EmptyString (last tokens);
     first_name := join " " (removelast tokens) |}.

Definition is_Some_float (o : option float) : bool :=
  match o with
  | Some _ => true
  | None => false
  end.

(** An input is accepted when [parse_name] returns and neither the first nor
    the last name is empty (the test of [thank_you_entry]). *)
Definition accepted (p : NameParts) : bool :=
  negb (String.eqb (first_name p) EmptyString || String.eqb (last_name p) EmptyString).

(** The greatest index, counted from [k], of a donor of [ds] whose name
    matches the candidate [c]. *)
Fixpoint last_match (k : nat) (ds : list Donor) (c : NameParts) : option nat :=
  match ds with
  | [] => None
  | d :: ds' =>
      match last_match (S k) ds' c with
      | Some i => Some i
      | None => if name_matches d c then Some k else None
      end
  end.

(** A donor whose stored [full_name] matches its own first and last name. *)
Definition self_matching (d : Donor) : bool := name_matches d (name d).

(** The key of the specification: [first_name + " " + last_name], trimmed and
    case-folded. *)
Definition key (p : NameParts) : string :=
  strip (lower (first_name p ++ " " ++ last_name p)).

(** The stored donor [d] and the candidate [c] have the same key. *)
Definition same_key (d : Donor) (c : NameParts) : bool :=
  String.eqb (key (name d)) (key c).

(** Name parts whose [full_name], trimmed and case-folded, is their key: the
    full name is the first and the last name with a blank between them, up
    to case and outer whitespace. *)
Definition plain (p : NameParts) : bool :=
  String.eqb (strip (lower (full_name p))) (key p).

(** The greatest index, counted from [k], of a donor of [ds] that has the
    key of the candidate [c]. *)
Fixpoint last_same_key (k : nat) (ds : list Donor) (c : NameParts) : option nat :=
  match ds with
  | [] => None
  | d :: ds' =>
      match last_same_key (S k) ds' c with
      | Some i => Some i
      | None => if same_key d c then Some k else None
      end
  end.

(** A line typed at the name prompt that leads to the amount prompt with the
    parts [p]: it is no directive, it is not empty, and [parse_name] accepts
    it. *)
Definition names (line : string) (p : NameParts) : Prop :=
  let selection := strip line in
  mem (lower selection) ["q"; "quit"] = false
  /\ mem (lower selection) ["l"; "list"] = false
  /\ String.eqb selection EmptyString = false
  /\ parse_name selection = Ok p
  /\ accepted p = true.

(** A line typed at the amount prompt that asks to quit. *)
Definition quits (line : string) : bool := mem (lower (strip line)) ["q"; "quit"].

(** A line typed at the amount prompt that is neither a quit directive nor a
    number. *)
Definition not_a_number (line : string) : bool :=
  negb (quits line) && negb (is_Some_float (PyFloat.of_string (strip line))).

(** A line typed at the amount prompt that is read as the number [a]. *)
Definition reads_as (line : string) (a : float) : Prop :=
  quits line = false /\ PyFloat.of_string (strip line) = Some a.

(** The donation an entry records for the amount [a] in the world [w]. *)
Definition donation_at (w : World) (a : float) : Donation :=
  {| amount := a; date := (DateTime.date_isoformat (clock w (ticks w)) ++ "Z")%string |}.

(** The donations that the amounts [amounts] are recorded as, one clock
    reading each from the [t]-th on, in the order of entry. *)
Fixpoint stamped (clk : nat -> DateTime.datetime) (t : nat) (amounts : list float)
  : list Donation :=
  match amounts with
  | [] => []
  | a :: amounts' =>
      {| amount := a; date := (DateTime.date_isoformat (clk t) ++ "Z")%string |}
      :: stamped clk (S t) amounts'
  end.

(** Successive entries of the amounts [amounts] for the donor at index [i]. *)
Fixpoint enter_all (i : nat) (cur : NameParts) (amounts : list float) (w : World) : World :=
  match amounts with
  | [] => w
  | a :: amounts' => enter_all i cur amounts' (snd (add_donation (Some i) cur a w))
  end.

(** [d'] is the record [d] with donations added at the end, if any. *)
Definition grows_from (d d' : Donor) : Prop :=
  created d' = created d /\ user_id d' = user_id d /\ name d' = name d
  /\ donations d `prefix_of` donations d'.

(** The store [ds'] keeps every donor of [ds] at its index, with its
    donations and possibly more after them. *)
Definition store_extends (ds ds' : list Donor) : Prop :=
  length ds <= length ds'
  /\ forall i d, ds !! i = Some d -> exists d', ds' !! i = Some d' /\ grows_from d d'.

(** The store after the amount [a] has been recorded for the parsed name [p]
    in the world [w]: the donation is added to the donations of the donor the
    lookup returns, or a record with that one donation is added to the store. *)
Definition recorded (w : World) (p : NameParts) (a : float) : list Donor :=
  match snd (find_by_name (donors w) p) with
  | Some i => alter (append_donation (donation_at w a)) i (donors w)
  | None =>
      let now := (DateTime.isoformat (clock w (S (ticks w))) ++ "Z")%string in
      donors w ++
      [ {| created := now; user_id := MD5.hexdigest (full_name p ++ now);
           donations := [donation_at w a]; name := p |} ]
  end.

(** *** The report, as the specification words it *)

(** Total given: the sum of the amounts, added in the order of the donations
    (in binary64 arithmetic). *)
Definition total (d : Donor) : float :=
  fold_left PrimFloat.add (map amount (donations d)) 0%float.

(** The count of donations. *)
Definition count (d : Donor) : nat := length (donations d).

(** Average: the total divided by the count. *)
Definition average (d : Donor) : float :=
  (total d / PyFloat.of_int (Z.of_nat (count d)))%float.

(** A currency field: the dollar sign, then the amount with two decimals and
    thousands separators, right-aligned in [width] columns. *)
Definition money (width : nat) (x : float) : string :=
  ("$" ++ PyFormat.rjust width (PyFloat.format_f true 2 x))%string.

(** The row of the donor [d] at the index [index]: the index padded with
    zeros to five digits, the display name, the total, the count (as a number
    without decimals) and the average. *)
Definition row (index : nat) (d : Donor) : string :=
  (PyFormat.zfill 5 index ++ "   " ++ PyFormat.ljust 20 (full_name (name d)) ++ "  "
   ++ money 14 (total d) ++ "   "
   ++ PyFormat.rjust 9 (PyFloat.format_f false 0 (PyFloat.of_int (Z.of_nat (count d))))
   ++ "  " ++ money 12 (average d))%string.

(** One printed row per donor, in store order, numbered from [index]. *)
Fixpoint rows (index : nat) (ds : list Donor) : list string :=
  match ds with
  | [] => []
  | d :: ds' => print (row index d) ++ rows (S index) ds'
  end.

(** The invariant of the data model: a donor has at least one donation. *)
Definition has_donation (d : Donor) : bool :=
  match donations d with
  | [] => false
  | _ :: _ => true
  end.

(** The ways [thank_you_entry] can end: all but the exhaustion of the passes
    granted to the loop. *)
Definition ends (e : Exit) : bool :=
  match e with
  | OutOfFuel => false
  | _ => true
  end.

(** The lines typed to enter the amounts [amount_lines], one entry each,
    under the name [name_line]. *)
Definition entry_lines (name_line : string) (amount_lines : list string) : list string :=
  flat_map (fun l => [name_line; l]) amount_lines.

(** Name parts whose full name matches their own first and last name. *)
Definition matches_itself (p : NameParts) : bool :=
  String.eqb (strip (lower (first_name p ++ " " ++ last_name p)))
             (strip (lower (full_name p))).

(** The record that the entries of the amounts [a :: amounts'] under a new
    name [p] leave, the first of them made in the world [w]. *)
Definition new_donor (w : World) (p : NameParts) (a : float) (amounts' : list float) : Donor :=
  let now := (DateTime.isoformat (clock w (S (ticks w))) ++ "Z")%string in
  {| created := now; user_id := MD5.hexdigest (full_name p ++ now);
     donations := donation_at w a :: stamped (clock w) (S (S (ticks w))) amounts';
     name := p |}.

End Spec.

(** ** [parse_name] on any text

    The function of lines 100-125 once more, on sequences of code points
    with the methods of [Unicode].  On ASCII text it returns what
    [Mailroom.parse_name] returns (lemma [parse_name_ascii]). *)

Module UnicodeName.
Import Unicode.

Record NameParts : Type := {
  full_name : text;
  informal_name : text;
  suffix : text;
  last_name : text;
  first_name : text
}.

Definition comma : N := 44%N.

Definition parse_name (full_name : text) : Mailroom.result NameParts :=
  let suffix :=
    match split_on comma full_name with
    | _ :: p :: _ => upper (strip p)
    | _ => []                                  (* [except:] *)
    end in
  let informal_name := title (strip (hd [] (split_on comma full_name))) in
  match last (split informal_name) with
  | None => Mailroom.Raise Mailroom.IndexError (* [informal_name.split()[-1]] *)
  | Some l =>
      let last_name := title (strip l) in
      let first_name := title (join (of_string " ") (removelast (split informal_name))) in
      let new_full_name :=
        if negb (eqb suffix [])
        then join (of_string ", ") [informal_name; suffix]
        else informal_name in
      Mailroom.Ok {| full_name := new_full_name; informal_name := informal_name;
                     suffix := suffix; last_name := last_name; first_name := first_name |}
  end.

(** The parser as the specification words it: the part after the comma,
    stripped and upper-cased, is the suffix (empty when there is no comma);
    the part before it, stripped and title-cased, is the remainder; its last
    token is the last name, the tokens before it, joined by single blanks,
    the first name; the full name is the remainder, followed by a comma, a
    blank and the suffix when there is one. *)
Definition parse (raw : text) : NameParts :=
  let pieces := split_on comma raw in
  let suffix :=
    match pieces with
    | _ :: after :: _ => upper (strip after)
    | _ => []
    end in
  let remainder := title (strip (hd [] pieces)) in
  let tokens := split remainder in
  {| full_name :=
       if eqb suffix [] then remainder
       else remainder ++ of_string ", " ++ suffix;
     informal_name := remainder;
     suffix := suffix;
     last_name := default [] (last tokens);
     first_name := join (of_string " ") (removelast tokens) |}.

(** The test of [thank_you_entry]: neither the first nor the last name is
    empty. *)
Definition accepted (p : NameParts) : bool :=
  negb (eqb (first_name p) [] || eqb (last_name p) []).

(** The parts of an ASCII name as texts. *)
Definition of_parts (p : Mailroom.NameParts) : NameParts :=
  {| full_name := of_string (Mailroom.full_name p);
     informal_name := of_string (Mailroom.informal_name p);
     suffix := of_string (Mailroom.suffix p);
     last_name := of_string (Mailroom.last_name p);
     first_name := of_string (Mailroom.first_name p) |}.

(** An ASCII character, and a string of ASCII characters. *)
Definition ascii7 (c : ascii) : bool := (N_of_ascii c <? 128)%N.

Definition ascii_string (s : string) : bool := PyStr.all_chars ascii7 s.

(** The name typed with a dotted capital I (U+0130) between [ali DEM] and
    [R]. *)
Definition ali_demir : text := of_string "ali DEM" ++ [304%N] ++ of_string "R".

End UnicodeName.


(** ** Sample sessions *)

Module Demo.
Import Mailroom DateTime.

(** A clock: the [k]-th reading is [k + 1] microseconds after noon. *)
Definition noon (k : nat) : datetime :=
  {| year := 2017; month := 5; day := 9; hour := 12; minute := 0; second := 0;
     microsecond := S k |}.

(** The world in which the lines [lines] are typed at the store [ds]. *)
Definition session (ds : list Donor) (lines : list string) : World :=
  {| donors := ds; stdin := lines; stdout := []; ticks := 0; clock := noon |}.

(** The store after [thank_you_entry] has run on these lines. *)
Definition store_after (ds : list Donor) (lines : list string) : list Donor :=
  donors (snd (thank_you_entry (session ds lines))).

(** The full name and the amounts of every donor, in store order. *)
Definition ledger (ds : list Donor) : list (string * list float) :=
  map (fun d => (full_name (name d), map amount (donations d))) ds.

End Demo.

(** ** The files, the letters, the main menu and the program

    [load_donor_file], [save_donor_file], [thank_all_donors], [main] and the
    entry point of the module.  The file system is the text of each file
    together with the paths that [open] refuses; [json.dumps], [json.load]
    and [repr] are the interpreter's and are taken as they come. *)

Module Program.
Import PyStr PyFormat Mailroom.

(** The exceptions that leave the program: those of the entry loop and of the
    report, [OSError] ([PermissionError] is one) from [open] with its message,
    and [NameError] with the name that is not defined. *)
Inductive error : Type :=
| Entry (e : exn)
| OSError (message : string)
| NameError (name : string).

(** The text of each file, the paths that [open(path, "w")] refuses with the
    message of its [OSError], and the paths of files that [open(path, "r")]
    refuses with [PermissionError].  A path is refused by [open] or written
    whole: a write that fails after [open] has truncated the file (a full
    disk) is left out, and every statement about a save or a letter says
    which of the two cases it is about. *)
Record Disk : Type := {
  files : gmap string string;
  denied : string -> option string;
  unreadable : string -> bool
}.

(** [open(path, "w")], [write(text)] and [close()] on a path that is not
    refused. *)
Definition write_file (path text : string) (d : Disk) : Disk :=
  {| files := <[path := text]> (files d); denied := denied d;
     unreadable := unreadable d |}.

(** [s.replace(a, b)] for two characters. *)
Fixpoint replace_char (a b : ascii) (s : string) : string :=
  match s with
  | EmptyString => EmptyString
  | String c s' => String (if Ascii.eqb c a then b else c) (replace_char a b s')
  end.

(** [sub in s] for two strings. *)
Fixpoint starts_with (sub s : string) : bool :=
  match sub, s with
  | EmptyString, _ => true
  | String a sub', String c s' => Ascii.eqb a c && starts_with sub' s'
  | String _ _, EmptyString => false
  end.

Fixpoint contains (sub s : string) : bool :=
  starts_with sub s
  || match s with
     | EmptyString => false
     | String _ s' => contains sub s'
     end.

(** [filter(None, l)] for a list of strings: the ones that are not empty. *)
Definition non_empty (l : list string) : list string :=
  List.filter (fun s => negb (String.eqb s EmptyString)) l.

(** *** [thank_all_donors] *)

(** The name of the file that receives the letter of a donor. *)
Definition letter_file (donor : Donor) : string :=
  replace_char " " "_"
    (lower (join "_" (non_empty [ "thank_you"; last_name (name donor);
                                  suffix (name donor); first_name (name donor) ]))).

(** What [print_thank_you(donor, "wonderful", dest)] writes to [dest]. *)
Definition letter_text (donor : Donor) : string :=
  String.concat EmptyString (print_thank_you (name donor) "wonderful").

(** The loop over the donors: it ends when an [open] is refused. *)
Fixpoint thank_all_donors (ds : list Donor) (d : Disk) : option error * Disk :=
  match ds with
  | [] => (None, d)
  | donor :: ds' =>
      let file_name := letter_file donor in
      match denied d file_name with
      | Some message => (Some (OSError message), d)
      | None => thank_all_donors ds' (write_file file_name (letter_text donor) d)
      end
  end.

(** *** The donor file *)

Section Library.

(** [json.dumps] and [json.load] on a list of donor records ([inl]: the
    message of a [JSONDecodeError]), and [repr] of that list. *)
Variable dumps : list Donor -> string.
Variable loads : string -> string + list Donor.
Variable repr : list Donor -> string.

(** How [load_donor_file] ends: with the donors, or with [sys.exit]. *)
Inductive loaded : Type :=
| Donors (ds : list Donor)
| SysExit (code : nat).

(** [load_donor_file(donor_file)]: what it prints and how it ends. *)
Definition load_donor_file (donor_file : string) (d : Disk) : list string * loaded :=
  match files d !! donor_file with
  | None => ([], Donors [])                           (* [FileNotFoundError] *)
  | Some text =>
      if unreadable d donor_file then                 (* [PermissionError] *)
        (print "Insufficent permission to access the donor file!"
         ++ print "Please correct the permissions.", SysExit 1)
      else
        match loads text with
        | inl e =>
            (print "The donors file is corrupt!" ++ print e
             ++ print "Please correct or delete the file.", SysExit 1)
        | inr ds => ([], Donors ds)
        end
  end.

(** [save_donor_file(donors, donor_file)]: what it prints, what it returns
    and the disk it leaves. *)
Definition save_donor_file (ds : list Donor) (donor_file : string) (d : Disk)
  : list string * bool * Disk :=
  match denied d donor_file with
  | Some e => (print "Sorry, couldn't write the donor file!" ++ print e, false, d)
  | None => ([], true, write_file donor_file (dumps ds) d)
  end.

(** *** [main] *)

(** The world, the disk and the module global [mock], which the module
    itself never defines ([None]: the name is not defined). *)
Record Machine : Type := {
  world : World;
  disk : Disk;
  mock : option bool
}.

(** The machine and the local variable [selection] of [main]. *)
Record Frame : Type := {
  machine : Machine;
  selection : option string
}.

(** How the program ends: after the farewell, by [sys.exit], by an
    exception, or never (at the end of the input). *)
Inductive Halt : Type :=
| Finished
| Exited (code : nat)
| Failed (e : error)
| Spinning
| NoFuel.

Definition set_world (w : World) (m : Machine) : Machine :=
  {| world := w; disk := disk m; mock := mock m |}.

Definition set_disk (d : Disk) (m : Machine) : Machine :=
  {| world := world m; disk := d; mock := mock m |}.

Definition emit (out : list string) (m : Machine) : Machine :=
  set_world (write out (world m)) m.

(** A statement of the loop body: it goes on ([None]) or ends the program. *)
Definition statement : Type := Frame -> option Halt * Frame.

Definition and_then (a b : statement) : statement :=
  fun f =>
    match a f with
    | (None, f') => b f'
    | (Some h, f') => (Some h, f')
    end.

Definition when (c : bool) (a : statement) : statement :=
  if c then a else fun f => (None, f).

Definition on_machine (g : Machine -> Machine) (f : Frame) : Frame :=
  {| machine := g (machine f); selection := selection f |}.

(** [print_report()]. *)
Definition do_report : statement :=
  fun f =>
    let '(out, r) := print_report (donors (world (machine f))) in
    match r with
    | Ok _ => (None, on_machine (emit out) f)
    | Raise e => (Some (Failed (Entry e)), on_machine (emit out) f)
    end.

(** [thank_all_donors()]. *)
Definition do_letters : statement :=
  fun f =>
    let '(r, d) := thank_all_donors (donors (world (machine f))) (disk (machine f)) in
    match r with
    | None => (None, on_machine (set_disk d) f)
    | Some e => (Some (Failed e), on_machine (set_disk d) f)
    end.

(** [thank_you_entry()]. *)
Definition do_entry : statement :=
  fun f =>
    let '(e, w) := thank_you_entry (world (machine f)) in
    let f' := on_machine (set_world w) f in
    match e with
    | Returned | Cancelled => (None, f')
    | Raised x => (Some (Failed (Entry x)), f')
    | Spins => (Some Spinning, f')
    | OutOfFuel => (Some NoFuel, f')
    end.

(** [print_lines(); print("Donors:", donors)]. *)
Definition do_debug : statement :=
  fun f =>
    (None,
     on_machine
       (emit (print_lines 2 ++ print ("Donors: " ++ repr (donors (world (machine f))))%string))
       f).

Definition abandon_prompt : string := "Enter 'exit' to quit anyways and abandon changes:".

(** The branch of [q] and [quit]. *)
Definition do_quit : statement :=
  fun f =>
    let m := machine f in
    let '(out, saved, d) := save_donor_file (donors (world m)) "donors.json" (disk m) in
    let m := set_disk d (emit out m) in
    if saved then
      (None,
       {| machine :=
            emit (print (PyFloat.decimal (N.of_nat (length (donors (world m))))
                         ++ " donor records saved.")%string) m;
          selection := selection f |})
    else
      let m := emit (print "Please resolve the issues with the donor file before exiting.") m in
      match mock m with
      | None => (Some (Failed (NameError "mock")), {| machine := m; selection := selection f |})
      | Some is_mock =>
          (* [mock_in = "exit"] binds a local that is not used; [safe_input]
             is called with its default [mock_in], the empty string *)
          let '(shall_abort, m) :=
            if is_mock then (EmptyString, m)
            else
              let '(line, rest) := safe_input (stdin (world m)) in
              (line, set_world (set_stdin rest (write [abandon_prompt] (world m))) m) in
          (None,
           {| machine := m;
              selection := if negb (contains "exit" shall_abort) then None else selection f |})
      end.

Definition main_menu : string :=
  unlines
    [ EmptyString;
      "DONATION WIZARD MAIN MENU";
      "-------------------------";
      EmptyString;
      "Select from the following:";
      EmptyString;
      "(L)ist Donors";
      "(E)nter/(A)dd Donation";
      "(P)rint Donor Letters";
      "(Q)uit";
      EmptyString ].

Definition main_prompt : string := "(l)ist, (e)nter, (q)uit: ".

(** What a pass of the main loop writes before it reads. *)
Definition main_turn : list string :=
  print_lines 2 ++ print main_menu ++ [main_prompt].

(** One pass through the body of the loop of [main]. *)
Definition main_pass (f : Frame) : option Halt * Frame :=
  let m := emit main_turn (machine f) in
  match stdin (world m) with
  | [] => (Some Spinning, {| machine := m; selection := Some EmptyString |})
  | _ :: _ =>
      let '(line, rest) := safe_input (stdin (world m)) in
      let choice := lower line in
      (and_then (when (mem choice ["l"; "list"]) do_report)
      (and_then (when (mem choice ["p"; "print"]) do_letters)
      (and_then (when (mem choice ["s"; "send"; "e"; "enter"; "a"; "add"]) do_entry)
      (and_then (when (mem choice ["d"; "debug"]) do_debug)
                (when (mem choice ["q"; "quit"]) do_quit)))))
        {| machine := set_world (set_stdin rest (world m)) m; selection := Some choice |}
  end.

(** The test of the loop: [selection not in ["0", "quit", "q"]]. *)
Definition stays (selection : option string) : bool :=
  match selection with
  | None => true
  | Some s => negb (mem s ["0"; "quit"; "q"])
  end.

Definition farewell : list string :=
  print_lines 2 ++ print "Thank you for using Donation Wizard!" ++ print_lines 2.

Fixpoint main_loop (fuel : nat) (f : Frame) : Halt * Machine :=
  if stays (selection f) then
    match fuel with
    | O => (NoFuel, machine f)
    | S fuel' =>
        match main_pass f with
        | (None, f') => main_loop fuel' f'
        | (Some h, f') => (h, machine f')
        end
    end
  else (Finished, emit farewell (machine f)).

(** [main()]: every pass reads a line, so two passes more than there are
    lines is enough. *)
Definition main (m : Machine) : Halt * Machine :=
  main_loop (S (S (length (stdin (world m))))) {| machine := m; selection := None |}.

(** The module run as a script: [donors = load_donor_file()], then [main()]. *)
Definition run (d : Disk) (lines : list string) (clk : nat -> DateTime.datetime)
           (global_mock : option bool) : Halt * Machine :=
  let '(out, r) := load_donor_file "donors.json" d in
  let start ds :=
    {| world := {| donors := ds; stdin := lines; stdout := out; ticks := 0; clock := clk |};
       disk := d; mock := global_mock |} in
  match r with
  | SysExit code => (Exited code, start [])
  | Donors ds => main (start ds)
  end.

End Library.

End Program.

(** ** Notions for the letters and the main menu *)

Module ProgramSpec.
Import PyStr Mailroom Program.

(** The letter that the file [path] holds after [thank_all_donors]: that of
    the last donor of [ds] whose letter goes to this file, if any. *)
Fixpoint last_letter (path : string) (ds : list Donor) : option string :=
  match ds with
  | [] => None
  | d :: ds' =>
      match last_letter path ds' with
      | Some text => Some text
      | None => if String.eqb (letter_file d) path then Some (letter_text d) else None
      end
  end.

(** A character of a file name: no blank and no upper-case letter. *)
Definition plain_char (c : ascii) : bool :=
  negb (Ascii.eqb c " ") && negb (is_upper c).

(** The letter of every donor of [ds] can be written. *)
Definition letters_allowed (d : Disk) (ds : list Donor) : Prop :=
  Forall (fun donor => denied d (letter_file donor) = None) ds.

(** Every donor of the store has a donation. *)
Definition healthy (ds : list Donor) : Prop :=
  Forall (fun d => Spec.has_donation d = true) ds.

(** The program did not end by a division by zero. *)
Definition division_free (h : Halt) : bool :=
  match h with
  | Failed (Entry ZeroDivisionError) => false
  | _ => true
  end.

(** The ways [main] itself can end. *)
Definition main_ends (h : Halt) : bool :=
  match h with
  | NoFuel | Exited _ => false
  | _ => true
  end.

(** From the machine [m] to the machine [m'] the store is extended and stays
    healthy if it was, lines are read from the front of the input only, and
    the paths that cannot be written, those that cannot be read and the
    global [mock] are the same. *)
Definition advances (m m' : Machine) : Prop :=
  Spec.store_extends (donors (world m)) (donors (world m'))
  /\ (healthy (donors (world m)) -> healthy (donors (world m')))
  /\ stdin (world m') `suffix_of` stdin (world m)
  /\ denied (disk m') = denied (disk m)
  /\ unreadable (disk m') = unreadable (disk m)
  /\ mock m' = mock m.

(** A way to end that [main] has, and that is not a division by zero when
    the store [ds] is healthy. *)
Definition fine (ds : list Donor) (h : Halt) : Prop :=
  main_ends h = true /\ (healthy ds -> division_free h = true).

(** The frame in which the branches of a pass of [main] run: the menu is
    written and the line is read. *)
Definition chosen (f : Frame) (line : string) (rest : list string) : Frame :=
  {| machine :=
       set_world (set_stdin rest (world (emit main_turn (machine f))))
                 (emit main_turn (machine f));
     selection := Some (lower (strip line)) |}.

(** A line typed at the main menu that is not [0]. *)
Definition not_zero (line : string) : bool := negb (String.eqb (lower (strip line)) "0").

(** The text of the donor file. *)
Definition donor_file (m : Machine) : option string := files (disk m) !! "donors.json".

End ProgramSpec.

(** ** Sample disks and a stand-in for [json] *)

Module ProgramDemo.
Import Mailroom Program.

Definition jane_doe : NameParts :=
  {| full_name := "Jane Doe"; informal_name := "Jane Doe"; suffix := EmptyString;
     last_name := "Doe"; first_name := "Jane" |}.

Definition john_smith_jr : NameParts :=
  {| full_name := "John Smith, JR"; informal_name := "John Smith"; suffix := "JR";
     last_name := "Smith"; first_name := "John" |}.

(** A donor of that name with donations of these amounts. *)
Definition donor_of (p : NameParts) (amounts : list float) : Donor :=
  {| created := "2017-05-09T12:00:00.000001Z"; user_id := "0";
     donations := map (fun a => {| amount := a; date := "2017-05-09Z" |}) amounts;
     name := p |}.

Definition two_donors : list Donor :=
  [ donor_of john_smith_jr [10%float]; donor_of jane_doe [5%float] ].

(** A disk with these files on which every path can be opened. *)
Definition open_disk (fs : gmap string string) : Disk :=
  {| files := fs; denied := fun _ => None; unreadable := fun _ => false |}.

(** A disk with these files on which the path [locked] is refused. *)
Definition locked_disk (fs : gmap string string) (locked : string) : Disk :=
  {| files := fs;
     denied := fun path =>
       if String.eqb path locked then Some "[Errno 13] Permission denied" else None;
     unreadable := fun _ => false |}.

(** A stand-in for [json.dumps] and [json.load] on the stores of the sample
    sessions: a store is written as the number of its records, and the texts
    [0] and [1] are read back as the empty store and as the store of Jane Doe
    with one donation of 10. *)
Definition dumps (ds : list Donor) : string := PyFloat.decimal (N.of_nat (length ds)).

Definition loads (text : string) : string + list Donor :=
  if String.eqb text "0" then inr []
  else if String.eqb text "1" then inr [donor_of jane_doe [10%float]]
  else inl "Expecting value: line 1 column 1 (char 0)".

Definition repr (ds : list Donor) : string := dumps ds.

(** A donor file that is not valid JSON. *)
Definition corrupt_disk : Disk := open_disk {[ "donors.json" := "{" ]}.

(** The machine on which the lines [lines] are typed. *)
Definition machine_of (ds : list Donor) (d : Disk) (global_mock : option bool)
           (lines : list string) : Machine :=
  {| world := Demo.session ds lines; disk := d; mock := global_mock |}.

(** The two sample donors at the main menu, with an empty disk on which
    every file can be written, and with one on which the donor file cannot. *)
Definition at_menu (lines : list string) : Machine :=
  machine_of two_donors (open_disk ∅) None lines.

Definition at_menu_locked (global_mock : option bool) (lines : list string) : Machine :=
  machine_of two_donors (locked_disk ∅ "donors.json") global_mock lines.

End ProgramDemo.

(** * Properties *)

(** ** Checks of the embedding

    The embedded methods evaluated on sample inputs, with the results the
    interpreter gives. *)

Example title_ex : PyStr.title "jane o'neil-smith 3rd" = "Jane O'Neil-Smith 3Rd".
Proof. reflexivity. Qed.

Example strip_ex : PyStr.strip "  jane  doe   " = "jane  doe".
Proof. reflexivity. Qed.

Example split_ex : PyStr.split "  jane  van der   doe " = ["jane"; "van"; "der"; "doe"].
Proof. reflexivity. Qed.

Example split_on_ex : PyStr.split_on "," "a, b,,c" = ["a"; " b"; ""; "c"].
Proof. reflexivity. Qed.

Example join_ex : PyStr.join " " ["a"; "b"; "c"] = "a b c".
Proof. reflexivity. Qed.

Example float_ex1 : PyFloat.of_string "20.50" = Some 20.5%float.
Proof. vm_compute. reflexivity. Qed.

Example float_ex2 : PyFloat.of_string "0.1" = Some 0x1.999999999999ap-4%float.
Proof. vm_compute. reflexivity. Qed.

Example float_ex3 :
  map PyFloat.of_string ["-5"; "0"; "1_000.5e1"; "-inf"; "NaN"; ".5"; "1."; "1e400"]
  = map Some [(-5)%float; 0%float; 10005%float; neg_infinity; nan;
              0.5%float; 1%float; infinity].
Proof. vm_compute. reflexivity. Qed.

Example float_ex4 :
  map PyFloat.of_string [""; "abc"; "1_"; "_1"; "1e"; "."; "1,000"; "10 dollars"; "--1"; "1__0"]
  = map (fun _ => None) [0; 1; 2; 3; 4; 5; 6; 7; 8; 9].
Proof. vm_compute. reflexivity. Qed.

Example format_ex1 :
  map (fun s => option_map (PyFloat.format_f true 2) (PyFloat.of_string s))
      ["30.5"; "15.25"; "1234567.891"; "0.125"; "0.375"; "-0.001"; "999.995";
       "1e21"; "nan"; "-inf"; "2.675"; "-0"]
  = map Some
      ["30.50"; "15.25"; "1,234,567.89"; "0.12"; "0.38"; "-0.00"; "1,000.00";
       "1,000,000,000,000,000,000,000.00"; "nan"; "-inf"; "2.67"; "-0.00"].
Proof. vm_compute. reflexivity. Qed.

Example format_ex2 :
  map (fun n => PyFloat.format_f false 0 (PyFloat.of_int n)) [0; 2; 12345; 1000000]%Z
  = ["0"; "2"; "12345"; "1000000"].
Proof. vm_compute. reflexivity. Qed.

Example md5_empty : MD5.hexdigest "" = "d41d8cd98f00b204e9800998ecf8427e".
Proof. vm_compute. reflexivity. Qed.

Example md5_abc : MD5.hexdigest "abc" = "900150983cd24fb0d6963f7d28e17f72".
Proof. vm_compute. reflexivity. Qed.

Example md5_two_blocks :
  MD5.hexdigest "12345678901234567890123456789012345678901234567890123456789012345678901234567890"
  = "57edf4a22be3c955ac49da2e2107b67a".
Proof. vm_compute. reflexivity. Qed.

Example isoformat_ex :
  DateTime.isoformat
    {| DateTime.year := 2017; DateTime.month := 5; DateTime.day := 9; DateTime.hour := 7;
       DateTime.minute := 3; DateTime.second := 0; DateTime.microsecond := 1234 |}
  = "2017-05-09T07:03:00.001234".
Proof. reflexivity. Qed.

Example report_header_ex :
  Mailroom.report_header
  = "ID    | Donor Name           | Total Given    | Num Gifts | Average Gift".
Proof. reflexivity. Qed.

Example report_row_ex :
  Mailroom.report_row 12
    {| Mailroom.created := "2017-05-09T12:00:00Z"; Mailroom.user_id := "0";
       Mailroom.donations :=
         [ {| Mailroom.amount := 1000000; Mailroom.date := "2017-05-09Z" |};
           {| Mailroom.amount := 234567.5; Mailroom.date := "2017-05-10Z" |};
           {| Mailroom.amount := 0.25; Mailroom.date := "2017-05-11Z" |} ];
       Mailroom.name :=
         {| Mailroom.full_name := "Mary Ann O'Neil, III"; Mailroom.informal_name := "Mary Ann O'Neil";
            Mailroom.suffix := "III"; Mailroom.last_name := "O'Neil";
            Mailroom.first_name := "Mary Ann" |} |}
  = Mailroom.Ok "00012   Mary Ann O'Neil, III  $  1,234,567.75           3  $  411,522.58".
Proof. vm_compute. reflexivity. Qed.


(** ** The string methods *)

Section StringFacts.
Import PyStr.

(** A property of one character is checked on the 256 of them. *)
Ltac each_ascii c := destruct c as [[] [] [] [] [] [] [] []]; reflexivity.

Lemma is_space_to_upper c : is_space (to_upper c) = is_space c.
Proof. each_ascii c. Qed.

Lemma is_space_to_lower c : is_space (to_lower c) = is_space c.
Proof. each_ascii c. Qed.

Lemma is_cased_to_upper c : is_cased (to_upper c) = is_cased c.
Proof. each_ascii c. Qed.

Lemma is_cased_to_lower c : is_cased (to_lower c) = is_cased c.
Proof. each_ascii c. Qed.

Lemma to_upper_idem c : to_upper (to_upper c) = to_upper c.
Proof. each_ascii c. Qed.

Lemma to_lower_idem c : to_lower (to_lower c) = to_lower c.
Proof. each_ascii c. Qed.

Lemma to_lower_to_upper c : to_lower (to_upper c) = to_lower c.
Proof. each_ascii c. Qed.

Lemma space_not_cased c : is_space c = true -> is_cased c = false.
Proof. destruct c as [[] [] [] [] [] [] [] []]; (reflexivity || discriminate). Qed.


Lemma comma_to_lower c : Ascii.eqb (to_lower c) "," = Ascii.eqb c ",".
Proof. each_ascii c. Qed.

Lemma is_space_title_char b c : is_space (title_char b c) = is_space c.
Proof. destruct b; [apply is_space_to_lower | apply is_space_to_upper]. Qed.

Lemma is_cased_title_char b c : is_cased (title_char b c) = is_cased c.
Proof. destruct b; [apply is_cased_to_lower | apply is_cased_to_upper]. Qed.

Lemma title_char_idem b c : title_char b (title_char b c) = title_char b c.
Proof. destruct b; [apply to_lower_idem | apply to_upper_idem]. Qed.

Lemma title_from_cons b c s :
  title_from b (String c s) = String (title_char b c) (title_from (is_cased c) s).
Proof. reflexivity. Qed.

Lemma title_from_idem s : forall b, title_from b (title_from b s) = title_from b s.
Proof.
  induction s as [|c s IH]; intros b; [reflexivity|].
  rewrite !title_from_cons, title_char_idem, is_cased_title_char, IH.
  reflexivity.
Qed.

Lemma title_idem s : title (title s) = title s.
Proof. apply title_from_idem. Qed.


(** *** [strip] *)


Lemma rstrip_cons c s :
  rstrip (String c s) =
  match rstrip s with
  | EmptyString => if is_space c then EmptyString else String c EmptyString
  | r => String c r
  end.
Proof. reflexivity. Qed.






Lemma title_from_empty b s : title_from b s = EmptyString -> s = EmptyString.
Proof. destruct s; [reflexivity | discriminate]. Qed.






End StringFacts.

(** ** Tokens *)

Section TokenFacts.
Import PyStr.

Lemma starts_word_title_from b s : starts_word (title_from b s) = starts_word s.
Proof. destruct s as [|c s]; [reflexivity|]. simpl. now rewrite is_space_title_char. Qed.

Lemma split_cons c s :
  split (String c s) =
  if is_space c then split s
  else if starts_word s then
         match split s with
         | t :: ts => String c t :: ts
         | [] => [String c EmptyString]
         end
       else String c EmptyString :: split s.
Proof. reflexivity. Qed.

(** The tokens of [split] are words. *)
Lemma split_words s : Forall (fun t => is_word t = true) (split s).
Proof.
  induction s as [|c s IH]; [constructor|].
  rewrite split_cons.
  destruct (is_space c) eqn:Ec; [exact IH|].
  assert (Hc : forall t, no_blank t = true -> is_word (String c t) = true).
  { intros t Ht. unfold is_word, no_blank in *. simpl. now rewrite Ec, Ht. }
  destruct (starts_word s).
  - destruct (split s) as [|t ts].
    + constructor; [now apply Hc | constructor].
    + inversion IH as [|? ? Ht Hts]; subst.
      constructor; [|exact Hts].
      apply Hc. destruct t; [discriminate | exact Ht].
  - constructor; [now apply Hc | exact IH].
Qed.

Lemma starts_word_split s : starts_word s = true -> split s <> [].
Proof.
  destruct s as [|c s]; [discriminate|].
  simpl starts_word. intros Ec. rewrite split_cons.
  destruct (is_space c); [discriminate|].
  destruct (starts_word s); [destruct (split s)|]; discriminate.
Qed.

Lemma rstrip_no_blank t : no_blank t = true -> rstrip t = t.
Proof.
  induction t as [|c t IH]; [reflexivity|].
  unfold no_blank. simpl. intros H.
  apply andb_prop in H as [Hc Ht]. apply negb_true_iff in Hc.
  rewrite (IH Ht). destruct t; [now rewrite Hc | reflexivity].
Qed.

Lemma strip_word t : is_word t = true -> strip t = t.
Proof.
  destruct t as [|c t]; [discriminate|].
  unfold is_word. intros H. unfold strip. rewrite (rstrip_no_blank _ H).
  unfold no_blank in H. simpl in H. apply andb_prop in H as [Hc _].
  apply negb_true_iff in Hc. simpl. now rewrite Hc.
Qed.

Lemma title_tokens_false l : title_tokens false l = map title l.
Proof. now destruct l. Qed.

Lemma split_title_from s :
  forall b,
    split (title_from b s) =
    if starts_word s then title_tokens b (split s) else map title (split s).
Proof.
  induction s as [|c s IH]; intros b; [reflexivity|].
  rewrite title_from_cons, !split_cons, is_space_title_char, starts_word_title_from.
  simpl starts_word.
  destruct (is_space c) eqn:Ec; simpl negb; cbv iota.
  - rewrite (space_not_cased _ Ec), IH, title_tokens_false.
    now destruct (starts_word s).
  - rewrite IH. destruct (starts_word s) eqn:Es.
    + destruct (split s) as [|t ts] eqn:Et.
      * now apply starts_word_split in Es.
      * reflexivity.
    + reflexivity.
Qed.

Lemma split_title s : split (title s) = map title (split s).
Proof.
  unfold title at 1. rewrite split_title_from, title_tokens_false.
  now destruct (starts_word s).
Qed.

(** [title] goes through a blank separator. *)
Lemma title_from_app_blank x r :
  forall b,
    title_from b (x ++ String " " r) = (title_from b x ++ String " " (title_from false r))%string.
Proof.
  induction x as [|c x IH]; intros b.
  - simpl. now destruct b.
  - simpl. now rewrite IH.
Qed.

Lemma title_join l : title (join " " l) = join " " (map title l).
Proof.
  induction l as [|x l IH]; [reflexivity|].
  destruct l as [|y l]; [reflexivity|].
  change (join " " (x :: y :: l)) with (x ++ String " " (join " " (y :: l)))%string.
  unfold title at 1. rewrite title_from_app_blank.
  fold (title (join " " (y :: l))). rewrite IH. reflexivity.
Qed.

Lemma removelast_map {A B} (f : A -> B) l : removelast (map f l) = map f (removelast l).
Proof.
  induction l as [|x l IH]; [reflexivity|].
  destruct l as [|y l]; [reflexivity|].
  simpl in *. now rewrite IH.
Qed.

Lemma map_title_idem l : map title (map title l) = map title l.
Proof. rewrite map_map. apply map_ext. intros. apply title_idem. Qed.

End TokenFacts.

(** ** [parse_name] *)

Section ParseFacts.
Import PyStr Mailroom.

(** The suffix and the remainder [parse_name] works with. *)
Lemma parse_name_eq raw :
  parse_name raw =
  let informal := informal_name (Spec.parse raw) in
  let suffix := suffix (Spec.parse raw) in
  match last (split informal) with
  | None => Raise IndexError
  | Some l =>
      Ok {| full_name := if negb (String.eqb suffix EmptyString)
                         then join ", " [informal; suffix] else informal;
            informal_name := informal;
            suffix := suffix;
            last_name := title (strip l);
            first_name := title (join " " (removelast (split informal))) |}
  end.
Proof. reflexivity. Qed.

(** The second [.strip().title()] on the last token changes nothing. *)
Lemma last_token_fixed x l :
  last (split (title x)) = Some l -> title (strip l) = l.
Proof.
  intros Hl.
  assert (Hw : is_word l = true).
  { pose proof (split_words (title x)) as Hall.
    rewrite Forall_forall in Hall. apply Hall.
    eapply last_Some_elem_of. exact Hl. }
  rewrite (strip_word _ Hw).
  rewrite split_title, fmap_last in Hl.
  destruct (last (split x)) as [t|]; [|discriminate].
  injection Hl as <-. apply title_idem.
Qed.

(** The second [.title()] on the joined first names changes nothing. *)
Lemma first_names_fixed x :
  title (join " " (removelast (split (title x)))) = join " " (removelast (split (title x))).
Proof.
  rewrite title_join, split_title, removelast_map, map_title_idem.
  reflexivity.
Qed.

Lemma parse_name_refines raw p : parse_name raw = Ok p -> p = Spec.parse raw.
Proof.
  rewrite parse_name_eq. cbv zeta.
  destruct (last (split (informal_name (Spec.parse raw)))) as [l|] eqn:Hl; [|discriminate].
  intros [= <-].
  unfold Spec.parse in *. cbn [informal_name suffix] in *.
  rewrite Hl, first_names_fixed, (last_token_fixed _ _ Hl). cbn [default].
  f_equal.
  now destruct (String.eqb _ EmptyString).
Qed.

End ParseFacts.

(** ** Commas *)

Section CommaFacts.
Import PyStr Mailroom.







Lemma split_on_cons c s :
  split_on "," (String c s) =
  if Ascii.eqb c "," then EmptyString :: split_on "," s
  else match split_on "," s with
       | p :: ps => String c p :: ps
       | [] => [String c EmptyString]
       end.
Proof. reflexivity. Qed.








End CommaFacts.

(** ** The name parser: claims C4 and C10 *)

Section ParseFixedPoint.
Import PyStr Mailroom.


End ParseFixedPoint.

(** ** The lookup *)

Section LookupFacts.
Import PyStr Mailroom.

Lemma find_loop_cons k d ds c id :
  find_loop k (d :: ds) c id =
  if name_matches d c then find_loop (S k) ds (name d) (Some k)
  else find_loop (S k) ds c id.
Proof. reflexivity. Qed.

(** Without a match nothing changes. *)
Lemma find_loop_no_match ds :
  forall k c id,
    Forall (fun d => name_matches d c = false) ds -> find_loop k ds c id = (c, id).
Proof.
  induction ds as [|d ds IH]; intros k c id H; [reflexivity|].
  inversion H as [|? ? Hd Hds]; subst.
  rewrite find_loop_cons, Hd. now apply IH.
Qed.

(** The scan, step by step: either no donor matched, or the result is a
    donor that matched the candidate of that moment (the entered one or an
    earlier match), and no donor after it matches it. *)
Lemma find_loop_spec ds :
  forall k c id c' r,
    find_loop k ds c id = (c', r) ->
    (r = id /\ c' = c /\ Forall (fun d => name_matches d c = false) ds)
    \/ (exists i d,
          r = Some (k + i) /\ ds !! i = Some d /\ c' = name d
          /\ (exists c0, name_matches d c0 = true
                         /\ (c0 = c \/ exists j d0, j < i /\ ds !! j = Some d0 /\ c0 = name d0))
          /\ (forall j d', i < j -> ds !! j = Some d' -> name_matches d' (name d) = false)).
Proof.
  induction ds as [|d ds IH]; intros k c id c' r H.
  - injection H as <- <-. left. repeat split. constructor.
  - rewrite find_loop_cons in H. destruct (name_matches d c) eqn:Hm.
    + right. apply IH in H as [(-> & -> & Hall) | (i & d1 & -> & Hi & -> & (c0 & Hc0 & Hsrc) & Hafter)].
      * exists 0, d. rewrite Nat.add_0_r. repeat split; try reflexivity.
        -- exists c. now split; [|left].
        -- intros [|j] d' Hj Hd'; [lia|]. simpl in Hd'.
           rewrite Forall_forall in Hall. apply Hall.
           eapply list_elem_of_lookup_2. exact Hd'.
      * exists (S i), d1. rewrite Nat.add_succ_r. repeat split; try reflexivity; [exact Hi| |].
        -- exists c0. split; [exact Hc0|]. right.
           destruct Hsrc as [-> | (j & d0 & Hj & Hd0 & ->)].
           ++ exists 0, d. repeat split; lia.
           ++ exists (S j), d0. repeat split; [lia | exact Hd0].
        -- intros [|j] d' Hj Hd'; [lia|]. simpl in Hd'. apply (Hafter j); [lia | exact Hd'].
    + apply IH in H as [(-> & -> & Hall) | (i & d1 & -> & Hi & -> & (c0 & Hc0 & Hsrc) & Hafter)].
      * left. repeat split. now constructor.
      * right. exists (S i), d1. rewrite Nat.add_succ_r. repeat split; try reflexivity; [exact Hi| |].
        -- exists c0. split; [exact Hc0|].
           destruct Hsrc as [-> | (j & d0 & Hj & Hd0 & ->)]; [now left | right].
           exists (S j), d0. repeat split; [lia | exact Hd0].
        -- intros [|j] d' Hj Hd'; [lia|]. simpl in Hd'. apply (Hafter j); [lia | exact Hd'].
Qed.

(** When a donor matches a candidate and its own full name, the candidate
    it is rebound to matches the same donors. *)
Lemma rebind_same_matches d c d' :
  name_matches d c = true -> Spec.self_matching d = true ->
  name_matches d' (name d) = name_matches d' c.
Proof.
  unfold Spec.self_matching, name_matches. intros H1 H2.
  apply String.eqb_eq in H1, H2. now rewrite <- H2, H1.
Qed.

(** Among donors that match their own full name the last match wins. *)
Lemma find_loop_last_match ds :
  forall k c id,
    Forall (fun d => Spec.self_matching d = true) ds ->
    snd (find_loop k ds c id) =
    match Spec.last_match k ds c with
    | Some i => Some i
    | None => id
    end.
Proof.
  induction ds as [|d ds IH]; intros k c id H; [reflexivity|].
  inversion H as [|? ? Hd Hds]; subst.
  rewrite find_loop_cons. simpl Spec.last_match.
  destruct (name_matches d c) eqn:Hm.
  - rewrite (IH _ _ _ Hds).
    assert (E : Spec.last_match (S k) ds (name d) = Spec.last_match (S k) ds c).
    { clear IH H Hds. generalize (S k). induction ds as [|d' ds IH']; intros n; [reflexivity|].
      simpl. now rewrite IH', (rebind_same_matches d c d' Hm Hd). }
    rewrite E. now destruct (Spec.last_match (S k) ds c).
  - rewrite (IH _ _ _ Hds). now destruct (Spec.last_match (S k) ds c).
Qed.

(** An entered name that matches no donor stays the candidate. *)
Lemma find_by_name_none ds p :
  snd (find_by_name ds p) = None -> find_by_name ds p = (p, None).
Proof.
  unfold find_by_name.
  destruct (find_loop 0 ds p None) as [c r] eqn:E. cbn [snd]. intros ->.
  apply find_loop_spec in E as [(_ & -> & _) | (i & d & Hr & _)];
    [reflexivity | discriminate].
Qed.

End LookupFacts.

(** ** The amount prompt *)

Section AmountFacts.
Import PyStr PyFormat Mailroom.

Lemma get_donation_amount_cons cur line rest :
  get_donation_amount cur (line :: rest) =
  if Spec.quits line then (NoAmount, rest, amount_turn cur)
  else
    match PyFloat.of_string (strip line) with
    | Some amount => (Given amount, rest, amount_turn cur)
    | None =>
        let '(r, rest', out) := get_donation_amount cur rest in
        (r, rest', amount_turn cur ++ print_lines 2 ++ print not_numeric ++ out)
    end.
Proof. reflexivity. Qed.

Lemma not_a_number_inv line :
  Spec.not_a_number line = true ->
  Spec.quits line = false /\ PyFloat.of_string (strip line) = None.
Proof.
  unfold Spec.not_a_number. intros H. apply andb_prop in H as [Hq Hn].
  apply negb_true_iff in Hq, Hn. split; [exact Hq|].
  destruct (PyFloat.of_string (strip line)); [discriminate | reflexivity].
Qed.

(** A line that is not a number is answered by the error message and a new
    turn. *)
Lemma amount_rejected cur line rest :
  Spec.not_a_number line = true ->
  get_donation_amount cur (line :: rest) =
  let '(r, rest', out) := get_donation_amount cur rest in
  (r, rest', amount_turn cur ++ print_lines 2 ++ print not_numeric ++ out).
Proof.
  intros H. apply not_a_number_inv in H as [Hq Hn].
  now rewrite get_donation_amount_cons, Hq, Hn.
Qed.

Lemma amount_read cur line rest a :
  Spec.reads_as line a ->
  get_donation_amount cur (line :: rest) = (Given a, rest, amount_turn cur).
Proof. intros [Hq Ha]. now rewrite get_donation_amount_cons, Hq, Ha. Qed.

Lemma amount_quit cur line rest :
  Spec.quits line = true ->
  get_donation_amount cur (line :: rest) = (NoAmount, rest, amount_turn cur).
Proof. intros Hq. now rewrite get_donation_amount_cons, Hq. Qed.

(** Lines that are not numbers are skipped. *)
Lemma amount_skips cur junk :
  forall lines,
    Forall (fun l => Spec.not_a_number l = true) junk ->
    exists out,
      get_donation_amount cur (junk ++ lines) =
      let '(r, rest, out') := get_donation_amount cur lines in (r, rest, out ++ out').
Proof.
  induction junk as [|l junk IH]; intros lines H.
  - exists []. simpl. now destruct (get_donation_amount cur lines) as [[? ?] ?].
  - inversion H as [|? ? Hl Hj]; subst.
    destruct (IH lines Hj) as [out Hout].
    exists (amount_turn cur ++ print_lines 2 ++ print not_numeric ++ out).
    change ((l :: junk) ++ lines) with (l :: (junk ++ lines)).
    rewrite (amount_rejected _ _ _ Hl), Hout.
    destruct (get_donation_amount cur lines) as [[r rest] out'].
    now rewrite <- !app_assoc.
Qed.

(** An amount that is returned is a number that was typed. *)
Lemma amount_given_inv cur lines :
  forall a rest out,
    get_donation_amount cur lines = (Given a, rest, out) ->
    exists junk l,
      lines = junk ++ l :: rest
      /\ Forall (fun j => Spec.not_a_number j = true) junk
      /\ Spec.reads_as l a.
Proof.
  induction lines as [|l lines IH]; intros a rest out H; [discriminate|].
  rewrite get_donation_amount_cons in H.
  destruct (Spec.quits l) eqn:Hq; [discriminate|].
  destruct (PyFloat.of_string (strip l)) as [x|] eqn:Hx.
  - injection H as <- <- <-. exists [], l. repeat split; [constructor | exact Hq | exact Hx].
  - destruct (get_donation_amount cur lines) as [[r rest'] out'] eqn:E.
    injection H as -> -> _.
    destruct (IH _ _ _ eq_refl) as (junk & l' & -> & Hj & Hr).
    exists (l :: junk), l'. repeat split; [|apply Hr|apply Hr].
    constructor; [|exact Hj].
    unfold Spec.not_a_number. now rewrite Hq, Hx.
Qed.

End AmountFacts.

(** ** One pass of [thank_you_entry] *)

Section PassFacts.
Import PyStr PyFormat Mailroom.

(** The pass that a name opens: look the donor up, ask for the amount, and
    record it unless the prompt is left. *)
Lemma thank_you_pass_named w line rest p :
  stdin w = line :: rest ->
  Spec.names line p ->
  thank_you_pass w =
  let w1 := set_stdin rest (write entry_turn w) in
  let '(cur, donor_id) := find_by_name (donors w) p in
  let '(new_donation, rest', out) := get_donation_amount cur rest in
  let w2 := write out (set_stdin rest' w1) in
  match new_donation with
  | AmountSpins => (Stop Spins, w2)
  | NoAmount => (Stop Cancelled, write (print_lines 2 ++ print donation_cancelled) w2)
  | Given a =>
      let '(hint, w3) := add_donation donor_id cur a w2 in
      (Continue, write (print_thank_you cur hint) w3)
  end.
Proof.
  intros Hin (Hq & Hl & He & Hp & Ha).
  unfold thank_you_pass.
  cbn [stdin write set_stdout]. rewrite Hin.
  cbn [safe_input]. rewrite Hq, Hl, He, Hp.
  unfold Spec.accepted in Ha. apply negb_true_iff in Ha. rewrite Ha.
  reflexivity.
Qed.

End PassFacts.

(** ** Recording a donation *)

Section StoreFacts.
Import PyStr PyFormat Mailroom.

Lemma add_donation_existing i cur a w :
  add_donation (Some i) cur a w =
  ("returning",
   {| donors := alter (append_donation (Spec.donation_at w a)) i (donors w);
      stdin := stdin w; stdout := stdout w; ticks := S (ticks w); clock := clock w |}).
Proof. reflexivity. Qed.

Lemma add_donation_new cur a w :
  add_donation None cur a w =
  let now := (DateTime.isoformat (clock w (S (ticks w))) ++ "Z")%string in
  ("new",
   {| donors :=
        donors w ++
        [ {| created := now; user_id := MD5.hexdigest (full_name cur ++ now);
             donations := [Spec.donation_at w a]; name := cur |} ];
      stdin := stdin w; stdout := stdout w; ticks := S (S (ticks w)); clock := clock w |}).
Proof. reflexivity. Qed.

Lemma grows_from_refl d : Spec.grows_from d d.
Proof. repeat split; reflexivity. Qed.

Lemma grows_from_trans d1 d2 d3 :
  Spec.grows_from d1 d2 -> Spec.grows_from d2 d3 -> Spec.grows_from d1 d3.
Proof.
  intros (A1 & B1 & C1 & D1) (A2 & B2 & C2 & D2).
  repeat split; try congruence. now transitivity (donations d2).
Qed.

Lemma store_extends_refl ds : Spec.store_extends ds ds.
Proof.
  split; [lia|]. intros i d H. exists d. split; [exact H | apply grows_from_refl].
Qed.

Lemma store_extends_trans ds1 ds2 ds3 :
  Spec.store_extends ds1 ds2 -> Spec.store_extends ds2 ds3 -> Spec.store_extends ds1 ds3.
Proof.
  intros [L1 H1] [L2 H2]. split; [lia|].
  intros i d Hd. destruct (H1 _ _ Hd) as (d2 & Hd2 & G1).
  destruct (H2 _ _ Hd2) as (d3 & Hd3 & G2).
  exists d3. split; [exact Hd3 | eapply grows_from_trans; eassumption].
Qed.

Lemma grows_from_append dn d : Spec.grows_from d (append_donation dn d).
Proof. repeat split. simpl. now apply prefix_app_r. Qed.

(** However it ends, recording a donation keeps the store. *)
Lemma add_donation_extends id cur a w :
  Spec.store_extends (donors w) (donors (snd (add_donation id cur a w))).
Proof.
  destruct id as [i|].
  - rewrite add_donation_existing. cbn [snd donors].
    split; [now rewrite length_alter|].
    intros j d Hd. destruct (decide (i = j)) as [<-|Hne].
    + exists (append_donation (Spec.donation_at w a) d).
      split; [|apply grows_from_append].
      now rewrite list_lookup_alter_eq, Hd.
    + exists d. split; [|apply grows_from_refl].
      now rewrite list_lookup_alter_ne.
  - rewrite add_donation_new. cbn [snd donors].
    split; [rewrite length_app; lia|].
    intros j d Hd. exists d. split; [|apply grows_from_refl].
    now apply lookup_app_l_Some.
Qed.

(** A pass changes the store through [add_donation] only. *)
Lemma thank_you_pass_store w :
  donors (snd (thank_you_pass w)) = donors w
  \/ exists id cur a w0,
       donors w0 = donors w
       /\ donors (snd (thank_you_pass w)) = donors (snd (add_donation id cur a w0)).
Proof.
  unfold thank_you_pass.
  cbn [stdin write set_stdout].
  destruct (stdin w) as [|line rest]; [left; reflexivity|].
  cbn [safe_input].
  destruct (mem (lower (strip line)) ["q"; "quit"]); [left; reflexivity|].
  destruct (mem (lower (strip line)) ["l"; "list"]).
  { destruct (print_report _) as [out [[]|e]]; left; reflexivity. }
  destruct (String.eqb (strip line) EmptyString); [left; reflexivity|].
  destruct (parse_name (strip line)) as [p|e]; [|left; reflexivity].
  destruct (_ || _); [left; reflexivity|].
  change (donors (set_stdin rest (write entry_turn w))) with (donors w).
  change (stdin (set_stdin rest (write entry_turn w))) with rest.
  destruct (find_by_name (donors w) p) as [cur id].
  destruct (get_donation_amount cur rest) as [[[a| |] rest'] out]; [|left; reflexivity|left; reflexivity].
  right.
  match goal with
  | |- context [add_donation id cur a ?w0] => exists id, cur, a, w0
  end.
  split; [reflexivity|].
  destruct (add_donation id cur a _) as [hint w3]. reflexivity.
Qed.

Lemma thank_you_pass_extends w :
  Spec.store_extends (donors w) (donors (snd (thank_you_pass w))).
Proof.
  destruct (thank_you_pass_store w) as [-> | (id & cur & a & w0 & <- & ->)].
  - apply store_extends_refl.
  - apply add_donation_extends.
Qed.

Lemma thank_you_loop_extends fuel :
  forall w, Spec.store_extends (donors w) (donors (snd (thank_you_loop fuel w))).
Proof.
  induction fuel as [|fuel IH]; intros w; [apply store_extends_refl|].
  simpl. pose proof (thank_you_pass_extends w) as H.
  destruct (thank_you_pass w) as [[|e] w']; cbn [snd] in *.
  - eapply store_extends_trans; [exact H | apply IH].
  - exact H.
Qed.

End StoreFacts.

(** ** Sessions of entries under one name *)

Section SessionFacts.
Import PyStr PyFormat Mailroom.

Lemma find_loop_app ds l :
  forall k c id,
    Forall (fun d => name_matches d c = false) ds ->
    find_loop k (ds ++ l) c id = find_loop (k + length ds) l c id.
Proof.
  induction ds as [|d ds IH]; intros k c id H.
  - simpl. now rewrite Nat.add_0_r.
  - inversion H as [|? ? Hd Hds]; subst.
    change ((d :: ds) ++ l) with (d :: (ds ++ l)).
    rewrite find_loop_cons, Hd, (IH _ _ _ Hds). simpl. f_equal. lia.
Qed.

(** The donor at the end of the store is found when no donor before it
    matches. *)
Lemma find_by_name_last ds d p :
  Forall (fun d => name_matches d p = false) ds ->
  name_matches d p = true ->
  find_by_name (ds ++ [d]) p = (name d, Some (length ds)).
Proof.
  intros Hds Hd. unfold find_by_name.
  rewrite (find_loop_app _ _ _ _ _ Hds), find_loop_cons, Hd. reflexivity.
Qed.

Lemma thank_you_pass_quit w q rest :
  stdin w = q :: rest ->
  Spec.quits q = true ->
  thank_you_pass w = (Stop Returned, set_stdin rest (write entry_turn w)).
Proof.
  intros Hin Hq. unfold thank_you_pass.
  cbn [stdin write set_stdout]. rewrite Hin. cbn [safe_input].
  unfold Spec.quits in Hq. now rewrite Hq.
Qed.

Lemma thank_you_loop_S fuel w :
  thank_you_loop (S fuel) w =
  match thank_you_pass w with
  | (Continue, w') => thank_you_loop fuel w'
  | (Stop e, w') => (e, w')
  end.
Proof. reflexivity. Qed.

Lemma entry_lines_length line ls : length (Spec.entry_lines line ls) = 2 * length ls.
Proof. induction ls as [|l ls IH]; [reflexivity|]. simpl in *. lia. Qed.

Lemma append_stamped d dn clk t amounts :
  {| created := created (append_donation dn d); user_id := user_id (append_donation dn d);
     donations := donations (append_donation dn d) ++ Spec.stamped clk t amounts;
     name := name (append_donation dn d) |}
  = {| created := created d; user_id := user_id d;
       donations := donations d ++ dn :: Spec.stamped clk t amounts; name := name d |}.
Proof. simpl. now rewrite <- app_assoc. Qed.

(** Entries under the name of the donor at the end of the store, then a
    directive to quit: every amount is added to that donor, in order. *)
Lemma entries_for_last_donor line p q rest ls amounts :
  Spec.names line p ->
  Spec.matches_itself p = true ->
  Spec.quits q = true ->
  Forall2 Spec.reads_as ls amounts ->
  forall fuel w ds d,
    length ls < fuel ->
    stdin w = Spec.entry_lines line ls ++ q :: rest ->
    donors w = ds ++ [d] ->
    name d = p ->
    Forall (fun d => name_matches d p = false) ds ->
    exists w',
      thank_you_loop fuel w = (Returned, w')
      /\ stdin w' = rest
      /\ donors w' =
         ds ++ [ {| created := created d; user_id := user_id d;
                    donations := donations d ++ Spec.stamped (clock w) (ticks w) amounts;
                    name := name d |} ].
Proof.
  intros Hname Hself Hq Hls.
  induction Hls as [|l a ls amounts Hl Hls IH]; intros fuel w ds d Hfuel Hin Hds Hd Hno.
  - destruct fuel as [|fuel]; [simpl in Hfuel; lia|].
    cbn [Spec.entry_lines flat_map app] in Hin.
    cbn [thank_you_loop]. rewrite (thank_you_pass_quit _ _ _ Hin Hq).
    eexists. split; [reflexivity|]. split; [reflexivity|].
    cbn [donors set_stdin write set_stdout Spec.stamped].
    rewrite Hds, app_nil_r. now destruct d.
  - destruct fuel as [|fuel]; [simpl in Hfuel; lia|].
    change (Spec.entry_lines line (l :: ls))
      with (line :: l :: Spec.entry_lines line ls) in Hin.
    cbn [app] in Hin.
    assert (Hin' : stdin w = line :: [] ++ l :: (Spec.entry_lines line ls ++ q :: rest))
      by exact Hin.
    cbn [thank_you_loop].
    rewrite (thank_you_pass_named _ _ _ _ Hin Hname). cbv zeta.
    rewrite Hds, find_by_name_last; [|exact Hno|].
    2:{ unfold name_matches. rewrite Hd. exact Hself. }
    rewrite (amount_read _ _ _ _ Hl), add_donation_existing.
    match goal with
    | |- context [thank_you_loop fuel ?w1] =>
        destruct (IH fuel w1 ds (append_donation (Spec.donation_at w a) d))
          as (w' & Hrun & Hrest & Hdon)
    end.
    + simpl in Hfuel. lia.
    + reflexivity.
    + cbn [donors write set_stdout set_stdin]. rewrite Hds.
      rewrite alter_app_r_alt by lia. rewrite Nat.sub_diag. reflexivity.
    + exact Hd.
    + exact Hno.
    + exists w'. split; [exact Hrun|]. split; [exact Hrest|].
      rewrite Hdon. cbn [clock ticks write set_stdout set_stdin].
      rewrite append_stamped. reflexivity.
Qed.

(** Entries under a name that no donor matches, then a directive to quit:
    one record is added, with the amounts in the order of entry. *)
Lemma entries_for_new_donor line p q rest ls amounts w :
  Spec.names line p ->
  Spec.matches_itself p = true ->
  Spec.quits q = true ->
  Forall2 Spec.reads_as ls amounts ->
  stdin w = Spec.entry_lines line ls ++ q :: rest ->
  Forall (fun d => name_matches d p = false) (donors w) ->
  exists w',
    thank_you_entry w = (Returned, w')
    /\ stdin w' = rest
    /\ donors w' =
       donors w ++
       match amounts with
       | [] => []
       | a :: amounts' => [Spec.new_donor w p a amounts']
       end.
Proof.
  intros Hname Hself Hq Hls Hin Hno.
  unfold thank_you_entry.
  destruct Hls as [|l a ls amounts Hl Hls].
  - cbn [Spec.entry_lines flat_map app] in Hin.
    cbn [thank_you_loop]. rewrite (thank_you_pass_quit _ _ _ Hin Hq).
    eexists. split; [reflexivity|]. split; [reflexivity|].
    cbn [donors set_stdin write set_stdout]. now rewrite app_nil_r.
  - change (Spec.entry_lines line (l :: ls))
      with (line :: l :: Spec.entry_lines line ls) in Hin.
    cbn [app] in Hin.
    rewrite thank_you_loop_S.
    rewrite (thank_you_pass_named _ _ _ _ Hin Hname). cbv zeta.
    rewrite (find_loop_no_match _ 0 p None Hno : find_by_name (donors w) p = (p, None)).
    rewrite (amount_read _ _ _ _ Hl), add_donation_new. cbv zeta beta iota.
    match goal with
    | |- context [thank_you_loop ?fuel ?w1] =>
        destruct (entries_for_last_donor line p q rest ls amounts Hname Hself Hq Hls
                    fuel w1 (donors w)
                    {| created := (DateTime.isoformat (clock w (S (ticks w))) ++ "Z")%string;
                       user_id := MD5.hexdigest
                                    (full_name p
                                     ++ (DateTime.isoformat (clock w (S (ticks w))) ++ "Z"));
                       donations := [Spec.donation_at w a]; name := p |})
          as (w' & Hrun & Hrest & Hdon)
    end.
    + rewrite Hin. cbn [length]. rewrite length_app, entry_lines_length. lia.
    + reflexivity.
    + reflexivity.
    + reflexivity.
    + exact Hno.
    + exists w'. split; [exact Hrun|]. split; [exact Hrest|].
      rewrite Hdon. reflexivity.
Qed.

(** The lookup reads the names of the store only. *)
Lemma find_loop_names ds :
  forall ds' k c id,
    map name ds = map name ds' -> find_loop k ds c id = find_loop k ds' c id.
Proof.
  induction ds as [|d ds IH]; intros [|d' ds'] k c id H; try discriminate; [reflexivity|].
  injection H as Hd Hds. rewrite !find_loop_cons.
  unfold name_matches. rewrite Hd.
  destruct (String.eqb _ _); now apply IH.
Qed.

Lemma alter_append_names dn i ds :
  map name (alter (append_donation dn) i ds) = map name ds.
Proof.
  revert i. induction ds as [|d ds IH]; intros [|i]; try reflexivity.
  change (alter (append_donation dn) (S i) (d :: ds))
    with (d :: alter (append_donation dn) i ds).
  cbn [map]. now rewrite IH.
Qed.

(** Entries under a name that the lookup resolves to the donor at index
    [i], then a directive to quit: every amount is added to that donor, in
    order, and nothing else changes. *)
Lemma entries_for_found_donor line p q rest ls amounts :
  Spec.names line p ->
  Spec.quits q = true ->
  Forall2 Spec.reads_as ls amounts ->
  forall fuel w cur i d,
    length ls < fuel ->
    stdin w = Spec.entry_lines line ls ++ q :: rest ->
    find_by_name (donors w) p = (cur, Some i) ->
    donors w !! i = Some d ->
    exists w',
      thank_you_loop fuel w = (Returned, w')
      /\ stdin w' = rest
      /\ donors w' =
         <[i := {| created := created d; user_id := user_id d;
                   donations := donations d ++ Spec.stamped (clock w) (ticks w) amounts;
                   name := name d |}]> (donors w).
Proof.
  intros Hname Hq Hls.
  induction Hls as [|l a ls amounts Hl Hls IH]; intros fuel w cur i d Hfuel Hin Hfind Hd.
  - destruct fuel as [|fuel]; [simpl in Hfuel; lia|].
    cbn [Spec.entry_lines flat_map app] in Hin.
    cbn [thank_you_loop]. rewrite (thank_you_pass_quit _ _ _ Hin Hq).
    eexists. split; [reflexivity|]. split; [reflexivity|].
    cbn [donors set_stdin write set_stdout Spec.stamped].
    rewrite app_nil_r. symmetry. apply list_insert_id. rewrite Hd. now destruct d.
  - destruct fuel as [|fuel]; [simpl in Hfuel; lia|].
    change (Spec.entry_lines line (l :: ls))
      with (line :: l :: Spec.entry_lines line ls) in Hin.
    cbn [app] in Hin.
    cbn [thank_you_loop].
    rewrite (thank_you_pass_named _ _ _ _ Hin Hname). cbv zeta.
    rewrite Hfind.
    rewrite (amount_read _ _ _ _ Hl), add_donation_existing.
    match goal with
    | |- context [thank_you_loop fuel ?w1] =>
        destruct (IH fuel w1 cur i (append_donation (Spec.donation_at w a) d))
          as (w' & Hrun & Hrest & Hdon)
    end.
    + simpl in Hfuel. lia.
    + reflexivity.
    + cbn [donors write set_stdout set_stdin].
      unfold find_by_name in *.
      rewrite (find_loop_names _ (donors w)); [exact Hfind|].
      apply alter_append_names.
    + cbn [donors write set_stdout set_stdin].
      now rewrite list_lookup_alter_eq, Hd.
    + exists w'. split; [exact Hrun|]. split; [exact Hrest|].
      rewrite Hdon. cbn [donors clock ticks write set_stdout set_stdin].
      rewrite append_stamped.
      rewrite list_insert_alter, list_alter_alter_eq, list_insert_alter. reflexivity.
Qed.

End SessionFacts.

(** ** Appended donations: claim C7 *)

Section EntryClaims.
Import PyStr PyFormat Mailroom.

Lemma stamped_amounts clk amounts :
  forall t,
    map amount (Spec.stamped clk t amounts) = amounts
    /\ length (Spec.stamped clk t amounts) = length amounts.
Proof.
  induction amounts as [|a amounts IH]; intros t; [now split|].
  destruct (IH (S t)) as [H1 H2]. simpl. now rewrite H1, H2.
Qed.

Lemma enter_all_cons i cur a amounts w :
  Spec.enter_all i cur (a :: amounts) w =
  Spec.enter_all i cur amounts (snd (add_donation (Some i) cur a w)).
Proof. reflexivity. Qed.

(** Entries for the donor at index [i] put their donations, in order, after
    the ones it has, and change nothing else. *)
Lemma enter_all_spec i cur amounts :
  forall w d,
    donors w !! i = Some d ->
    donors (Spec.enter_all i cur amounts w) =
    <[i := {| created := created d; user_id := user_id d;
              donations := donations d ++ Spec.stamped (clock w) (ticks w) amounts;
              name := name d |}]> (donors w).
Proof.
  induction amounts as [|a amounts IH]; intros w d Hd.
  - simpl. rewrite app_nil_r. symmetry. apply list_insert_id.
    rewrite Hd. now destruct d.
  - rewrite enter_all_cons, add_donation_existing. cbn [snd].
    erewrite IH.
    2: { cbn [donors]. rewrite list_lookup_alter_eq, Hd. reflexivity. }
    cbn [donors clock ticks append_donation created user_id donations name].
    rewrite list_insert_alter, list_alter_alter_eq, <- app_assoc.
    rewrite list_insert_alter. reflexivity.
Qed.

(** C7.  Donations are only ever appended, but entries under one name do
    not always reach one donor.  (1) Whatever is typed, [thank_you_entry]
    keeps every donor at its index with its identity, its name and its
    donations, to which it only appends: nothing is removed or reordered.
    (2) When [N] amounts are typed under a name that the lookup resolves to
    the donor at index [i], the store differs at that index only and the
    record there differs in its donations only: the earlier ones followed by
    the [N] new ones in the order of entry.  (3) When [N] amounts are typed
    under a name that no donor matches and whose full name matches its own
    first and last name, one record is added, whose donations are the [N]
    amounts in the order of entry.  (4) Under a name with a suffix the record
    that the first entry creates is not found by the next one: three entries
    under "John Smith, Jr" leave three records of one donation each, where
    three entries under "John Smith" leave one record with the three
    donations. *)
Theorem donations_append_only :
  (forall w, Spec.store_extends (donors w) (donors (snd (thank_you_entry w))))
  /\ (forall w line p q rest ls amounts cur i d,
        Spec.names line p ->
        Spec.quits q = true ->
        Forall2 Spec.reads_as ls amounts ->
        stdin w = Spec.entry_lines line ls ++ q :: rest ->
        find_by_name (donors w) p = (cur, Some i) ->
        donors w !! i = Some d ->
        exists w',
          thank_you_entry w = (Returned, w')
          /\ stdin w' = rest
          /\ donors w' =
             <[i := {| created := created d; user_id := user_id d;
                       donations := donations d ++ Spec.stamped (clock w) (ticks w) amounts;
                       name := name d |}]> (donors w)
          /\ map amount (Spec.stamped (clock w) (ticks w) amounts) = amounts)
  /\ (forall w line p q rest ls amounts,
        Spec.names line p ->
        Spec.matches_itself p = true ->
        Spec.quits q = true ->
        Forall2 Spec.reads_as ls amounts ->
        stdin w = Spec.entry_lines line ls ++ q :: rest ->
        Forall (fun d => name_matches d p = false) (donors w) ->
        exists w',
          thank_you_entry w = (Returned, w')
          /\ stdin w' = rest
          /\ donors w' =
             donors w ++
             match amounts with
             | [] => []
             | a :: amounts' => [Spec.new_donor w p a amounts']
             end
          /\ match amounts with
             | [] => True
             | a :: amounts' =>
                 map amount (donations (Spec.new_donor w p a amounts')) = amounts
             end)
  /\ Demo.ledger
       (Demo.store_after []
          ["John Smith, Jr"; "10"; "John Smith, Jr"; "20"; "John Smith, Jr"; "30"; "q"])
     = [("John Smith, JR", [10%float]); ("John Smith, JR", [20%float]);
        ("John Smith, JR", [30%float])]
  /\ Demo.ledger
       (Demo.store_after [] ["John Smith"; "10"; "John Smith"; "20"; "John Smith"; "30"; "q"])
     = [("John Smith", [10%float; 20%float; 30%float])].
Proof.
  split; [|split; [|split]].
  - intros w. apply thank_you_loop_extends.
  - intros w line p q rest ls amounts cur i d Hname Hq Hls Hin Hfind Hd.
    unfold thank_you_entry.
    destruct (entries_for_found_donor line p q rest ls amounts Hname Hq Hls
                (S (length (stdin w))) w cur i d) as (w' & H1 & H2 & H3);
      [|exact Hin|exact Hfind|exact Hd|].
    + rewrite Hin, length_app, entry_lines_length. lia.
    + exists w'. repeat split; try assumption. apply stamped_amounts.
  - intros w line p q rest ls amounts Hname Hself Hq Hls Hin Hno.
    destruct (entries_for_new_donor line p q rest ls amounts w Hname Hself Hq Hls Hin Hno)
      as (w' & H1 & H2 & H3).
    exists w'. repeat split; try assumption.
    destruct amounts as [|a amounts']; [exact I|].
    cbn [Spec.new_donor donations map Spec.donation_at amount].
    f_equal. apply stamped_amounts.
  - vm_compute. split; reflexivity.
Qed.

Lemma donations_append_only_witness :
  let jane := {| full_name := "Jane Doe"; informal_name := "Jane Doe";
                 suffix := EmptyString; last_name := "Doe"; first_name := "Jane" |} in
  let d := {| created := "2017-05-09T12:00:00Z"; user_id := "0";
              donations := [ {| amount := 1; date := "2017-05-09Z" |} ];
              name := jane |} in
  let w := Demo.session [d] ["jane doe"; "2"; "jane doe"; "3"; "q"] in
  let typed := Demo.session [] ["Jane Doe"; "1"; "Jane Doe"; "2.5"; "Q"] in
  Spec.names "jane doe" jane
  /\ Forall2 Spec.reads_as ["2"; "3"] [2; 3]%float
  /\ find_by_name (donors w) jane = (jane, Some 0)
  /\ (exists w',
        thank_you_entry w = (Returned, w')
        /\ stdin w' = []
        /\ donors w' =
           <[0 := {| created := created d; user_id := user_id d;
                     donations := donations d ++ Spec.stamped (clock w) (ticks w) [2; 3]%float;
                     name := name d |}]> (donors w)
        /\ map amount (Spec.stamped (clock w) (ticks w) [2; 3]%float) = [2; 3]%float)
  /\ Spec.names "Jane Doe" jane
  /\ Forall2 Spec.reads_as ["1"; "2.5"] [1; 2.5]%float
  /\ exists w',
       thank_you_entry typed = (Returned, w')
       /\ stdin w' = []
       /\ donors w' = [] ++ [Spec.new_donor typed jane 1 [2.5%float]]
       /\ map amount (donations (Spec.new_donor typed jane 1 [2.5%float])) = [1; 2.5]%float.
Proof.
  intros jane d w typed.
  assert (Hn' : Spec.names "jane doe" jane) by (repeat split; reflexivity).
  assert (Hr' : Forall2 Spec.reads_as ["2"; "3"] [2; 3]%float)
    by (repeat constructor; vm_compute; reflexivity).
  assert (Hn : Spec.names "Jane Doe" jane) by (repeat split; reflexivity).
  assert (Hr : Forall2 Spec.reads_as ["1"; "2.5"] [1; 2.5]%float)
    by (repeat constructor; vm_compute; reflexivity).
  split; [exact Hn'|]. split; [exact Hr'|]. split; [reflexivity|]. split.
  - exact (proj1 (proj2 donations_append_only)
             w "jane doe" jane "q" [] ["2"; "3"] [2; 3]%float jane 0 d
             Hn' eq_refl Hr' eq_refl eq_refl eq_refl).
  - split; [exact Hn|]. split; [exact Hr|].
    exact (proj1 (proj2 (proj2 donations_append_only))
             typed "Jane Doe" jane "Q" [] ["1"; "2.5"] [1; 2.5]%float
             Hn eq_refl eq_refl Hr eq_refl ltac:(constructor)).
Defined.

End EntryClaims.

(** ** Cancelled and new entries: claims C6 and C9 *)

Section FlowClaims.
Import PyStr PyFormat Mailroom.

(** Lines that are not numbers, then a directive to quit: the prompt
    returns [None]. *)
Lemma amount_cancelled cur junk q rest :
  Forall (fun l => Spec.not_a_number l = true) junk ->
  Spec.quits q = true ->
  exists out, get_donation_amount cur (junk ++ q :: rest) = (NoAmount, rest, out).
Proof.
  intros Hj Hq. destruct (amount_skips cur junk (q :: rest) Hj) as [out ->].
  rewrite (amount_quit _ _ _ Hq). eauto.
Qed.

Lemma amount_entered cur junk l a rest :
  Forall (fun l => Spec.not_a_number l = true) junk ->
  Spec.reads_as l a ->
  exists out, get_donation_amount cur (junk ++ l :: rest) = (Given a, rest, out).
Proof.
  intros Hj Hl. destruct (amount_skips cur junk (l :: rest) Hj) as [out ->].
  rewrite (amount_read _ _ _ _ Hl). eauto.
Qed.

(** A pass that ends the call leaves the store as it was. *)
Lemma thank_you_pass_stop w e w' :
  thank_you_pass w = (Stop e, w') -> donors w' = donors w.
Proof.
  unfold thank_you_pass.
  cbn [stdin write set_stdout].
  destruct (stdin w) as [|line rest]; [intros [= _ <-]; reflexivity|].
  cbn [safe_input].
  destruct (mem (lower (strip line)) ["q"; "quit"]); [intros [= _ <-]; reflexivity|].
  destruct (mem (lower (strip line)) ["l"; "list"]).
  { destruct (print_report _) as [out [[]|e']]; [discriminate|].
    intros [= _ <-]. reflexivity. }
  destruct (String.eqb (strip line) EmptyString); [discriminate|].
  destruct (parse_name (strip line)) as [p|e']; [|intros [= _ <-]; reflexivity].
  destruct (_ || _); [discriminate|].
  destruct (find_by_name _ p) as [cur id].
  destruct (get_donation_amount cur _) as [[[a| |] rest'] out];
    [|intros [= _ <-]; reflexivity|intros [= _ <-]; reflexivity].
  destruct (add_donation id cur a _). discriminate.
Qed.

(** C6.  Cancel atomicity: whatever the store and whatever name led to the
    amount prompt, answering it with "q" or "quit" (in any case, after any
    number of answers that were not numbers) ends [thank_you_entry] with the
    store unchanged: no record is created and no donation added.  And a pass
    of the loop that ends by the cancellation has not changed the store. *)
Theorem cancel_leaves_store :
  (forall w line p junk q rest,
      stdin w = line :: junk ++ q :: rest ->
      Spec.names line p ->
      Forall (fun l => Spec.not_a_number l = true) junk ->
      Spec.quits q = true ->
      exists out,
        thank_you_entry w =
        (Cancelled,
         {| donors := donors w; stdin := rest; stdout := out; ticks := ticks w;
            clock := clock w |}))
  /\ (forall w w', thank_you_pass w = (Stop Cancelled, w') -> donors w' = donors w).
Proof.
  split; [|intros w w'; apply thank_you_pass_stop].
  intros w line p junk q rest Hin Hname Hjunk Hq.
  unfold thank_you_entry. cbn [thank_you_loop].
  rewrite (thank_you_pass_named _ _ _ _ Hin Hname). cbv zeta.
  destruct (find_by_name (donors w) p) as [cur id].
  destruct (amount_cancelled cur junk q rest Hjunk Hq) as [out ->].
  eexists. reflexivity.
Qed.

Lemma cancel_leaves_store_witness :
  let jane := {| full_name := "Jane Doe"; informal_name := "Jane Doe"; suffix := EmptyString;
                 last_name := "Doe"; first_name := "Jane" |} in
  let d := {| created := "2017-05-09T12:00:00Z"; user_id := "0";
              donations := [ {| amount := 1; date := "2017-05-09Z" |} ]; name := jane |} in
  let w := Demo.session [d] ["  jane DOE "; "ten"; " Quit "; "q"] in
  Spec.names "  jane DOE " jane
  /\ Forall (fun l => Spec.not_a_number l = true) ["ten"]
  /\ Spec.quits " Quit " = true
  /\ exists out,
       thank_you_entry w =
       (Cancelled,
        {| donors := [d]; stdin := ["q"]; stdout := out; ticks := 0; clock := Demo.noon |}).
Proof.
  intros jane d w.
  assert (Hn : Spec.names "  jane DOE " jane) by (repeat split; reflexivity).
  assert (Hj : Forall (fun l => Spec.not_a_number l = true) ["ten"])
    by (repeat constructor).
  exact (conj Hn (conj Hj (conj eq_refl
           (proj1 cancel_leaves_store w _ jane ["ten"] " Quit " ["q"] eq_refl Hn Hj eq_refl)))).
Defined.

(** C9.  New-donor construction: when the name typed matches no donor and a
    number is typed at the amount prompt, the pass appends exactly one record
    at the end of the store: its name is the parsed name, its donations are
    the one donation of that amount dated today, [created] is the reading of
    the clock that follows, and [user_id] is the MD5 digest of the full name
    followed by [created]. *)
Theorem new_donor_construction w line p junk l a rest :
  stdin w = line :: junk ++ l :: rest ->
  Spec.names line p ->
  snd (find_by_name (donors w) p) = None ->
  Forall (fun l => Spec.not_a_number l = true) junk ->
  Spec.reads_as l a ->
  let today := (DateTime.date_isoformat (clock w (ticks w)) ++ "Z")%string in
  let now := (DateTime.isoformat (clock w (S (ticks w))) ++ "Z")%string in
  exists out,
    thank_you_pass w =
    (Continue,
     {| donors :=
          donors w ++
          [ {| created := now;
               user_id := MD5.hexdigest (full_name p ++ now);
               donations := [ {| amount := a; date := today |} ];
               name := p |} ];
        stdin := rest; stdout := out; ticks := S (S (ticks w)); clock := clock w |}).
Proof.
  intros Hin Hname Hnone Hjunk Hl today now.
  rewrite (thank_you_pass_named _ _ _ _ Hin Hname). cbv zeta.
  rewrite (find_by_name_none _ _ Hnone).
  destruct (amount_entered p junk l a rest Hjunk Hl) as [out ->].
  rewrite add_donation_new. cbv zeta.
  eexists. reflexivity.
Qed.

Lemma new_donor_construction_witness :
  let jane := {| full_name := "Jane Doe"; informal_name := "Jane Doe"; suffix := EmptyString;
                 last_name := "Doe"; first_name := "Jane" |} in
  let w := Demo.session [] ["Jane Doe"; "abc"; "12.5"; "q"] in
  let now := "2017-05-09T12:00:00.000002Z" in
  Spec.names "Jane Doe" jane
  /\ snd (find_by_name (donors w) jane) = None
  /\ Forall (fun l => Spec.not_a_number l = true) ["abc"]
  /\ Spec.reads_as "12.5" 12.5%float
  /\ exists out,
       thank_you_pass w =
       (Continue,
        {| donors :=
             [ {| created := now; user_id := MD5.hexdigest (full_name jane ++ now);
                  donations := [ {| amount := 12.5; date := "2017-05-09Z" |} ];
                  name := jane |} ];
           stdin := ["q"]; stdout := out; ticks := 2; clock := Demo.noon |}).
Proof.
  intros jane w now.
  assert (Hn : Spec.names "Jane Doe" jane) by (repeat split; reflexivity).
  assert (Hj : Forall (fun l => Spec.not_a_number l = true) ["abc"])
    by (repeat constructor).
  assert (Hr : Spec.reads_as "12.5" 12.5%float) by (split; vm_compute; reflexivity).
  exact (conj Hn (conj eq_refl (conj Hj (conj Hr
           (new_donor_construction w _ jane ["abc"] "12.5" 12.5%float ["q"]
              eq_refl Hn eq_refl Hj Hr))))).
Defined.

End FlowClaims.

(** ** The amounts recorded: claim C2 *)

Section AmountClaim.
Import PyStr PyFormat Mailroom.

(** The pass that a name and a number make: the store becomes
    [Spec.recorded]. *)
Lemma thank_you_pass_recorded w line p junk l a rest :
  stdin w = line :: junk ++ l :: rest ->
  Spec.names line p ->
  Forall (fun l => Spec.not_a_number l = true) junk ->
  Spec.reads_as l a ->
  fst (thank_you_pass w) = Continue
  /\ donors (snd (thank_you_pass w)) = Spec.recorded w p a.
Proof.
  intros Hin Hname Hjunk Hl.
  rewrite (thank_you_pass_named _ _ _ _ Hin Hname). cbv zeta.
  unfold Spec.recorded.
  destruct (find_by_name (donors w) p) as [cur id] eqn:E.
  destruct (amount_entered cur junk l a rest Hjunk Hl) as [out ->].
  cbn [snd]. destruct id as [i|].
  - rewrite add_donation_existing. split; reflexivity.
  - pose proof (find_by_name_none (donors w) p) as H.
    rewrite E in H. specialize (H eq_refl). injection H as ->.
    rewrite add_donation_new. cbv zeta. split; reflexivity.
Qed.

(** C2, as the code has it.  At the amount prompt a line that is neither a
    directive to quit nor a number is answered by the message that the value
    must be numeric and by a new turn of the prompt; a line that [float]
    reads is accepted with the value read, whatever its sign; an amount the
    prompt returns is always a number that was typed; and that number is
    what the entry records. *)
Theorem amount_validation cur :
  (forall line rest,
      Spec.not_a_number line = true ->
      get_donation_amount cur (line :: rest) =
      let '(r, rest', out) := get_donation_amount cur rest in
      (r, rest', amount_turn cur ++ print_lines 2 ++ print not_numeric ++ out))
  /\ (forall line rest a,
        Spec.reads_as line a ->
        get_donation_amount cur (line :: rest) = (Given a, rest, amount_turn cur))
  /\ (forall lines a rest out,
        get_donation_amount cur lines = (Given a, rest, out) ->
        exists junk l,
          lines = junk ++ l :: rest
          /\ Forall (fun j => Spec.not_a_number j = true) junk
          /\ Spec.reads_as l a)
  /\ (forall w line junk l a rest,
        stdin w = line :: junk ++ l :: rest ->
        Spec.names line cur ->
        Forall (fun l => Spec.not_a_number l = true) junk ->
        Spec.reads_as l a ->
        fst (thank_you_pass w) = Continue
        /\ donors (snd (thank_you_pass w)) = Spec.recorded w cur a).
Proof.
  split; [|split; [|split]].
  - intros. now apply amount_rejected.
  - intros. now apply amount_read.
  - intros. eapply amount_given_inv. eassumption.
  - intros. eapply thank_you_pass_recorded; eassumption.
Qed.

Lemma amount_validation_witness :
  let jane := {| full_name := "Jane Doe"; informal_name := "Jane Doe"; suffix := EmptyString;
                 last_name := "Doe"; first_name := "Jane" |} in
  Spec.not_a_number "ten dollars" = true
  /\ Spec.reads_as " 12.50 " 12.5%float
  /\ get_donation_amount jane ["ten dollars"; " 12.50 "; "q"]
     = (Given 12.5%float, ["q"],
        amount_turn jane ++ print_lines 2 ++ print not_numeric ++ amount_turn jane).
Proof.
  intros jane.
  assert (Hr : Spec.reads_as " 12.50 " 12.5%float) by (split; vm_compute; reflexivity).
  refine (conj eq_refl (conj Hr _)).
  rewrite (proj1 (amount_validation jane) "ten dollars" _ eq_refl).
  rewrite (proj1 (proj2 (amount_validation jane)) " 12.50 " _ _ Hr).
  reflexivity.
Defined.

(** C2 as stated fails: the answers "-5" and "0" are numbers that are not
    positive; the prompt accepts them and they are recorded. *)
Lemma non_positive_amounts_recorded :
  PyFloat.of_string "-5" = Some (-5)%float
  /\ PyFloat.of_string "0" = Some 0%float
  /\ (0 <? -5)%float = false
  /\ (0 <? 0)%float = false
  /\ Demo.ledger (Demo.store_after [] ["Jane Doe"; "-5"; "jane doe"; "0"; "q"])
     = [("Jane Doe", [(-5)%float; 0%float])].
Proof. vm_compute. repeat split; reflexivity. Qed.

End AmountClaim.

(** ** Which match wins: claim C8 *)

Section LookupClaim.
Import PyStr Mailroom.

Lemma plain_same_key d c :
  Spec.plain c = true -> name_matches d c = Spec.same_key d c.
Proof.
  unfold Spec.plain, name_matches, Spec.same_key, Spec.key. intros H.
  apply String.eqb_eq in H. now rewrite H.
Qed.

Lemma plain_self_matching d :
  Spec.plain (name d) = true -> Spec.self_matching d = true.
Proof.
  unfold Spec.plain, Spec.self_matching, name_matches, Spec.key. intros H.
  apply String.eqb_eq in H. rewrite H. apply String.eqb_refl.
Qed.

Lemma last_same_key_match k ds c :
  Spec.plain c = true -> Spec.last_match k ds c = Spec.last_same_key k ds c.
Proof.
  intros H. revert k. induction ds as [|d ds IH]; intros k; [reflexivity|].
  simpl. now rewrite IH, (plain_same_key d c H).
Qed.

(** What [last_same_key] returns: the index of a donor that has the key, after
    which no donor has it; nothing when no donor has it. *)
Lemma last_same_key_spec ds c :
  forall k,
    match Spec.last_same_key k ds c with
    | Some n =>
        exists i d, n = k + i /\ ds !! i = Some d /\ Spec.same_key d c = true
                    /\ forall j d', i < j -> ds !! j = Some d' -> Spec.same_key d' c = false
    | None => Forall (fun d => Spec.same_key d c = false) ds
    end.
Proof.
  induction ds as [|d ds IH]; intros k; [constructor|].
  simpl. specialize (IH (S k)).
  destruct (Spec.last_same_key (S k) ds c) as [n|].
  - destruct IH as (i & d1 & -> & Hi & Hk & Hafter).
    exists (S i), d1. repeat split; [lia | exact Hi | exact Hk |].
    intros [|j] d' Hj Hd'; [lia|]. apply (Hafter j); [lia | exact Hd'].
  - destruct (Spec.same_key d c) eqn:E.
    + exists 0, d. repeat split; [lia | exact E |].
      intros [|j] d' Hj Hd'; [lia|]. simpl in Hd'.
      rewrite Forall_forall in IH. apply IH.
      eapply list_elem_of_lookup_2. exact Hd'.
    + now constructor.
Qed.

(** C8, as the code has it: the last match wins.  The scan has no early
    exit.  For a candidate and stored donors whose full name is their first
    and last name with a blank between them, up to case and outer whitespace
    (for these the test of the code is the comparison of the keys
    [first_name + " " + last_name], trimmed and case-folded), the lookup
    returns the greatest index of a donor that has the key of the candidate:
    a donor at the index returned has the key and no donor after it has; no
    index is returned exactly when no donor has the key; the candidate
    becomes the donor returned; and the donation of an entry under that name
    goes to the donor at that index (or to a new record when there is
    none). *)
Theorem find_by_name_last_match ds c :
  Forall (fun d => Spec.plain (name d) = true) ds ->
  Spec.plain c = true ->
  snd (find_by_name ds c) = Spec.last_same_key 0 ds c
  /\ (forall i,
        snd (find_by_name ds c) = Some i ->
        exists d,
          ds !! i = Some d /\ fst (find_by_name ds c) = name d
          /\ Spec.same_key d c = true
          /\ forall j d', i < j -> ds !! j = Some d' -> Spec.same_key d' c = false)
  /\ (snd (find_by_name ds c) = None <-> Forall (fun d => Spec.same_key d c = false) ds)
  /\ (forall w line junk l a rest,
        donors w = ds ->
        stdin w = line :: junk ++ l :: rest ->
        Spec.names line c ->
        Forall (fun l => Spec.not_a_number l = true) junk ->
        Spec.reads_as l a ->
        donors (snd (thank_you_pass w)) =
        match Spec.last_same_key 0 ds c with
        | Some i => alter (append_donation (Spec.donation_at w a)) i ds
        | None =>
            let now := (DateTime.isoformat (clock w (S (ticks w))) ++ "Z")%string in
            ds ++ [ {| created := now; user_id := MD5.hexdigest (full_name c ++ now);
                       donations := [Spec.donation_at w a]; name := c |} ]
        end).
Proof.
  intros Hds Hc.
  assert (Hself : Forall (fun d => Spec.self_matching d = true) ds).
  { eapply Forall_impl; [exact Hds|]. intros d. apply plain_self_matching. }
  assert (E : snd (find_by_name ds c) = Spec.last_same_key 0 ds c).
  { unfold find_by_name. rewrite (find_loop_last_match ds 0 c None Hself).
    rewrite (last_same_key_match 0 ds c Hc).
    now destruct (Spec.last_same_key 0 ds c). }
  split; [exact E|].
  pose proof (last_same_key_spec ds c 0) as Hspec.
  split; [|split].
  - intros i Hi. rewrite E in Hi. rewrite Hi in Hspec.
    destruct Hspec as (i' & d & -> & Hd & Hk & Hafter). exists d.
    split; [exact Hd|]. split; [|split; [exact Hk | exact Hafter]].
    unfold find_by_name in *.
    destruct (find_loop 0 ds c None) as [c' r] eqn:El. cbn [fst snd] in *.
    apply find_loop_spec in El as [(-> & _) | (i0 & d0 & Hr & Hd0 & -> & _)];
      [rewrite Hi in E; discriminate|].
    rewrite Hr in E. rewrite Hi in E. injection E as E.
    simpl in E. subst i0. rewrite Hd0 in Hd. now injection Hd as ->.
  - rewrite E. destruct (Spec.last_same_key 0 ds c) as [n|].
    + split; [discriminate|]. intros Hall.
      destruct Hspec as (i & d & _ & Hd & Hk & _).
      rewrite Forall_forall in Hall.
      rewrite (Hall d) in Hk; [discriminate|].
      eapply list_elem_of_lookup_2. exact Hd.
    + now split.
  - intros w line junk l a rest Hw Hin Hname Hjunk Hl.
    destruct (thank_you_pass_recorded w line c junk l a rest Hin Hname Hjunk Hl) as [_ ->].
    unfold Spec.recorded. rewrite Hw, E. reflexivity.
Qed.

Lemma find_by_name_last_match_witness :
  let ann := {| full_name := "Ann Lee"; informal_name := "Ann Lee"; suffix := EmptyString;
                last_name := "Lee"; first_name := "Ann" |} in
  let bo := {| full_name := "Bo Diaz"; informal_name := "Bo Diaz"; suffix := EmptyString;
               last_name := "Diaz"; first_name := "Bo" |} in
  let donor p := {| created := "2017-05-09T12:00:00Z"; user_id := EmptyString;
                    donations := [ {| amount := 1; date := "2017-05-09Z" |} ]; name := p |} in
  let ds := [donor ann; donor bo; donor bo; donor ann] in
  Forall (fun d => Spec.plain (name d) = true) ds
  /\ Spec.plain bo = true
  /\ snd (find_by_name ds bo) = Spec.last_same_key 0 ds bo
  /\ Spec.last_same_key 0 ds bo = Some 2.
Proof.
  intros ann bo donor ds.
  assert (H : Forall (fun d => Spec.plain (name d) = true) ds)
    by (repeat constructor).
  exact (conj H (conj eq_refl (conj (proj1 (find_by_name_last_match ds bo H eq_refl)) eq_refl))).
Defined.

(** C8 as stated fails: after "John Smith" and "John Smith, Jr" have been
    entered, both records match the candidate "john smith"; the lookup
    returns the second one (index 1), and the donation of 5 goes to it, not
    to the first match. *)
Lemma first_match_does_not_win :
  let ds := Demo.store_after [] ["John Smith"; "10"; "John Smith, Jr"; "20"; "q"] in
  let c := {| full_name := "John Smith"; informal_name := "John Smith"; suffix := EmptyString;
              last_name := "Smith"; first_name := "John" |} in
  parse_name "john smith" = Ok c
  /\ map (fun d => name_matches d c) ds = [true; true]
  /\ snd (find_by_name ds c) = Some 1
  /\ Demo.ledger ds = [("John Smith", [10%float]); ("John Smith, JR", [20%float])]
  /\ Demo.ledger (Demo.store_after ds ["john smith"; "5"; "q"])
     = [("John Smith", [10%float]); ("John Smith, JR", [20%float; 5%float])].
Proof. vm_compute. repeat split; reflexivity. Qed.

End LookupClaim.

(** ** The report: claim C5 *)

Section ReportClaim.
Import PyStr PyFormat Mailroom.

Lemma fold_left_amounts l :
  forall acc,
    fold_left (fun total donation => (total + amount donation)%float) l acc
    = fold_left PrimFloat.add (map amount l) acc.
Proof. induction l as [|x l IH]; intros acc; [reflexivity | apply IH]. Qed.

Lemma total_donations_eq d : total_donations d = Spec.total d.
Proof. apply fold_left_amounts. Qed.

Lemma report_row_ok k d :
  Spec.has_donation d = true -> report_row k d = Ok (Spec.row k d).
Proof.
  unfold Spec.has_donation, report_row, Spec.row, Spec.money, Spec.average, Spec.count.
  rewrite total_donations_eq. unfold Spec.total.
  destruct (donations d) as [|x l]; [discriminate|]. intros _. reflexivity.
Qed.

(** A donor without a donation stops the report: [0 / 0] raises. *)
Lemma report_row_empty k d :
  Spec.has_donation d = false -> report_row k d = Raise ZeroDivisionError.
Proof.
  unfold Spec.has_donation, report_row.
  destruct (donations d); [reflexivity | discriminate].
Qed.

Lemma report_rows_ok ds :
  forall k,
    Forall (fun d => Spec.has_donation d = true) ds ->
    report_rows k ds = (Spec.rows k ds, Ok tt).
Proof.
  induction ds as [|d ds IH]; intros k H; [reflexivity|].
  inversion H as [|? ? Hd Hds]; subst.
  simpl. now rewrite (report_row_ok _ _ Hd), (IH _ Hds).
Qed.

Lemma rows_length ds : forall k, length (Spec.rows k ds) = length ds.
Proof. induction ds as [|d ds IH]; intros k; [reflexivity|]. simpl. now rewrite IH. Qed.

(** C5.  Report correctness: for a store in which every donor has a
    donation, [print_report] returns after writing two empty lines, the
    header, the rule and one row per donor in store order; the row of a donor
    shows its index padded with zeros, its display name, the sum of its
    amounts, the count of its donations and the sum divided by the count,
    the currency fields with two decimals.  A donor with the donations 10.00
    and 20.50 shows the total 30.50, the count 2 and the average 15.25. *)
Theorem print_report_correct :
  (forall ds,
      Forall (fun d => Spec.has_donation d = true) ds ->
      print_report ds =
      (print_lines 2 ++ print report_header ++ print (repeat_char "-" 72) ++ Spec.rows 0 ds,
       Ok tt)
      /\ length (Spec.rows 0 ds) = length ds)
  /\ (forall created user_id date1 date2,
        Spec.row 0 {| created := created; user_id := user_id;
                      donations := [ {| amount := 10; date := date1 |};
                                     {| amount := 20.5; date := date2 |} ];
                      name := {| full_name := "Jane Doe"; informal_name := "Jane Doe";
                                 suffix := EmptyString; last_name := "Doe";
                                 first_name := "Jane" |} |}
        = "00000   Jane Doe              $         30.50           2  $       15.25").
Proof.
  split.
  - intros ds H. split; [|apply rows_length].
    unfold print_report. now rewrite (report_rows_ok _ _ H).
  - intros. vm_compute. reflexivity.
Qed.

Lemma print_report_correct_witness :
  let jane := {| full_name := "Jane Doe"; informal_name := "Jane Doe"; suffix := EmptyString;
                 last_name := "Doe"; first_name := "Jane" |} in
  let d := {| created := "2017-05-09T12:00:00Z"; user_id := "0";
              donations := [ {| amount := 10; date := "2017-05-09Z" |};
                             {| amount := 20.5; date := "2017-05-10Z" |} ];
              name := jane |} in
  Forall (fun d => Spec.has_donation d = true) [d; d]
  /\ print_report [d; d] =
     (print_lines 2 ++ print report_header ++ print (repeat_char "-" 72) ++ Spec.rows 0 [d; d],
      Ok tt).
Proof.
  intros jane d.
  assert (H : Forall (fun d => Spec.has_donation d = true) [d; d]) by (repeat constructor).
  exact (conj H (proj1 (proj1 print_report_correct [d; d] H))).
Defined.

End ReportClaim.

(** ** Names that are not accepted, and names entered twice: claims C3 and C1 *)

Section NameDefects.
Import PyStr PyFormat Mailroom.

(** The last name of a parse is never empty: the second half of the test in
    [thank_you_entry] cannot succeed. *)
Lemma last_name_not_empty raw p :
  parse_name raw = Ok p -> String.eqb (last_name p) EmptyString = false.
Proof.
  rewrite parse_name_eq. cbv zeta.
  destruct (last (split (informal_name (Spec.parse raw)))) as [l|] eqn:Hl; [|discriminate].
  intros [= <-]. cbn [last_name].
  assert (Hw : is_word l = true).
  { pose proof (split_words (informal_name (Spec.parse raw))) as Hall.
    rewrite Forall_forall in Hall. apply Hall. eapply last_Some_elem_of. exact Hl. }
  rewrite (strip_word _ Hw). destruct l; [discriminate | reflexivity].
Qed.

(** [parse_name] raises exactly when nothing but whitespace stands before
    the first comma. *)
Lemma parse_name_raises raw :
  parse_name raw = Raise IndexError <-> split (informal_name (Spec.parse raw)) = [].
Proof.
  rewrite parse_name_eq. cbv zeta. split.
  - destruct (last _) eqn:Hl; [discriminate|]. intros _. now apply last_None.
  - intros ->. reflexivity.
Qed.

(** A name whose first name is empty is answered by the message, and the
    pass goes on with the store as it was. *)
Lemma thank_you_pass_rejects w line rest p :
  stdin w = line :: rest ->
  mem (lower (strip line)) ["q"; "quit"] = false ->
  mem (lower (strip line)) ["l"; "list"] = false ->
  String.eqb (strip line) EmptyString = false ->
  parse_name (strip line) = Ok p ->
  Spec.accepted p = false ->
  thank_you_pass w =
  (Continue,
   {| donors := donors w; stdin := rest;
      stdout := (stdout w ++ entry_turn) ++ print need_both_names;
      ticks := ticks w; clock := clock w |}).
Proof.
  intros Hin Hq Hl He Hp Ha.
  unfold thank_you_pass.
  cbn [stdin write set_stdout]. rewrite Hin.
  cbn [safe_input]. rewrite Hq, Hl, He, Hp.
  unfold Spec.accepted in Ha. apply negb_false_iff in Ha. rewrite Ha.
  reflexivity.
Qed.

(** C3: a name with nothing before the comma is not rejected: it raises
    [IndexError] in [parse_name], and [thank_you_entry] ends with it.  The
    single token "Madonna" is rejected as the claim says. *)
Lemma blank_before_comma_raises :
  parse_name "," = Raise IndexError
  /\ parse_name ", Jr" = Raise IndexError
  /\ fst (thank_you_entry (Demo.session [] [", Jr"; "Jane Doe"; "10"; "q"])) = Raised IndexError
  /\ Demo.store_after [] [", Jr"; "Jane Doe"; "10"; "q"] = []
  /\ fst (thank_you_entry (Demo.session [] ["Madonna"; "q"])) = Returned
  /\ Demo.store_after [] ["Madonna"; "q"] = [].
Proof. vm_compute. repeat split; reflexivity. Qed.

(** C1: a name entered twice with a suffix, or with two blanks between its
    words, makes two records with the same first and last name; and a donor
    stored without a suffix is not found when the suffix is typed. *)
Lemma suffix_entry_duplicates :
  Demo.ledger (Demo.store_after [] ["John Smith, Jr"; "10"; "John Smith, Jr"; "20"; "q"])
  = [("John Smith, JR", [10%float]); ("John Smith, JR", [20%float])]
  /\ Demo.ledger (Demo.store_after [] ["John Smith"; "10"; "john smith , jr"; "20"; "q"])
     = [("John Smith", [10%float]); ("John Smith, JR", [20%float])]
  /\ Demo.ledger (Demo.store_after [] ["Jane  Doe"; "1"; "Jane  Doe"; "2"; "q"])
     = [("Jane  Doe", [1%float]); ("Jane  Doe", [2%float])]
  /\ map (fun d => (first_name (name d), last_name (name d)))
         (Demo.store_after [] ["Jane  Doe"; "1"; "Jane  Doe"; "2"; "q"])
     = [("Jane", "Doe"); ("Jane", "Doe")]
  /\ Demo.ledger (Demo.store_after [] ["Jane Doe"; "1"; "  jANE doe "; "2"; "q"])
     = [("Jane Doe", [1%float; 2%float])].
Proof. vm_compute. repeat split; reflexivity. Qed.

(** The loop of [thank_you_entry] never stops for want of passes. *)
Lemma thank_you_pass_reads w :
  forall w', thank_you_pass w = (Continue, w') -> length (stdin w') < length (stdin w).
Proof.
  intros w'. unfold thank_you_pass.
  cbn [stdin write set_stdout].
  destruct (stdin w) as [|line rest]; [discriminate|].
  cbn [safe_input].
  destruct (mem (lower (strip line)) ["q"; "quit"]); [discriminate|].
  destruct (mem (lower (strip line)) ["l"; "list"]).
  { destruct (print_report _) as [out [[]|e]]; [|discriminate].
    intros [= <-]. simpl. lia. }
  destruct (String.eqb (strip line) EmptyString); [intros [= <-]; simpl; lia|].
  destruct (parse_name (strip line)) as [p|e]; [|discriminate].
  destruct (_ || _); [intros [= <-]; simpl; lia|].
  change (donors (set_stdin rest (write entry_turn w))) with (donors w).
  change (stdin (set_stdin rest (write entry_turn w))) with rest.
  destruct (find_by_name (donors w) p) as [cur id].
  destruct (get_donation_amount cur rest) as [[r rest'] out] eqn:E.
  assert (Hlen : length rest' <= length rest).
  { clear -E. revert r rest' out E.
    induction rest as [|l rest IH]; intros r rest' out E.
    - injection E as _ <- _. simpl. lia.
    - rewrite get_donation_amount_cons in E.
      destruct (Spec.quits l); [injection E as _ <- _; simpl; lia|].
      destruct (PyFloat.of_string (strip l)); [injection E as _ <- _; simpl; lia|].
      destruct (get_donation_amount cur rest) as [[r0 rest0] out0].
      injection E as _ <- _. specialize (IH _ _ _ eq_refl). simpl. lia. }
  destruct r as [a| |]; [|discriminate|discriminate].
  destruct id as [i|].
  - rewrite add_donation_existing. intros [= <-]. simpl. lia.
  - rewrite add_donation_new. cbv zeta. intros [= <-]. simpl. lia.
Qed.

Lemma thank_you_loop_fuel fuel :
  forall w, length (stdin w) < fuel -> fst (thank_you_loop fuel w) <> OutOfFuel.
Proof.
  induction fuel as [|fuel IH]; intros w H; [lia|].
  simpl. destruct (thank_you_pass w) as [[|e] w'] eqn:E.
  - apply IH. apply thank_you_pass_reads in E. lia.
  - cbn [fst]. unfold thank_you_pass in E. revert E.
    cbn [stdin write set_stdout].
    destruct (stdin w) as [|line rest]; [intros [= <- _]; discriminate|].
    cbn [safe_input].
    destruct (mem _ _); [intros [= <- _]; discriminate|].
    destruct (mem _ _).
    { destruct (print_report _) as [out [[]|e']]; intros [= <- _]; discriminate. }
    destruct (String.eqb _ _); [discriminate|].
    destruct (parse_name _) as [p|e']; [|intros [= <- _]; discriminate].
    destruct (_ || _); [discriminate|].
    destruct (find_by_name _ _) as [cur id].
    destruct (get_donation_amount _ _) as [[[a| |] rest'] out];
      [|intros [= <- _]; discriminate|intros [= <- _]; discriminate].
    destruct (add_donation _ _ _ _). discriminate.
Qed.

End NameDefects.

(** ** Further properties *)

Section CaseFacts.
Import PyStr PyFormat Mailroom.

Lemma to_upper_to_lower c : to_upper (to_lower c) = to_upper c.
Proof. destruct c as [[] [] [] [] [] [] [] []]; reflexivity. Qed.

Lemma title_from_lower s : forall b, title_from b (lower s) = title_from b s.
Proof.
  induction s as [|c s IH]; intros b; [reflexivity|].
  simpl lower. rewrite !title_from_cons, is_cased_to_lower, IH.
  f_equal. destruct b; simpl; [apply to_lower_idem | apply to_upper_to_lower].
Qed.

Lemma upper_lower s : upper (lower s) = upper s.
Proof.
  induction s as [|c s IH]; [reflexivity|].
  simpl. now rewrite to_upper_to_lower, IH.
Qed.

Lemma lstrip_lower s : lstrip (lower s) = lower (lstrip s).
Proof.
  induction s as [|c s IH]; [reflexivity|].
  simpl. rewrite is_space_to_lower. now destruct (is_space c).
Qed.

Lemma rstrip_lower s : rstrip (lower s) = lower (rstrip s).
Proof.
  induction s as [|c s IH]; [reflexivity|].
  simpl lower. rewrite !rstrip_cons, IH.
  destruct (rstrip s) as [|x r]; simpl.
  - rewrite is_space_to_lower. now destruct (is_space c).
  - reflexivity.
Qed.

Lemma strip_lower s : strip (lower s) = lower (strip s).
Proof. unfold strip. now rewrite rstrip_lower, lstrip_lower. Qed.

Lemma split_on_lower s : split_on "," (lower s) = map lower (split_on "," s).
Proof.
  induction s as [|c s IH]; [reflexivity|].
  simpl lower. rewrite !split_on_cons, comma_to_lower, IH.
  destruct (Ascii.eqb c ","); [reflexivity|].
  now destruct (split_on "," s).
Qed.

(** The parse does not depend on the case of what is typed. *)
Lemma parse_lower raw : Spec.parse (lower raw) = Spec.parse raw.
Proof.
  assert (Hs : suffix (Spec.parse (lower raw)) = suffix (Spec.parse raw)).
  { unfold Spec.parse. cbn [suffix]. rewrite split_on_lower.
    destruct (split_on "," raw) as [|h [|a ps]]; try reflexivity.
    cbn [map]. now rewrite strip_lower, upper_lower. }
  assert (Hi : informal_name (Spec.parse (lower raw)) = informal_name (Spec.parse raw)).
  { unfold Spec.parse. cbn [informal_name]. rewrite split_on_lower.
    destruct (split_on "," raw) as [|h ps]; [reflexivity|].
    cbn [map hd]. rewrite strip_lower. apply title_from_lower. }
  unfold Spec.parse in *. cbn [suffix informal_name] in *.
  now rewrite Hs, Hi.
Qed.

Lemma parse_name_lower raw : parse_name (lower raw) = parse_name raw.
Proof. rewrite !parse_name_eq. now rewrite parse_lower. Qed.

End CaseFacts.

Section FurtherProperties.
Import PyStr PyFormat Mailroom.

(** In the ASCII embedding two lines that differ by the case of their
    letters and by the whitespace around them only are parsed to the same
    name parts. *)
Lemma same_name_any_case_ascii line line' :
  lower (strip line) = lower (strip line') ->
  parse_name (strip line) = parse_name (strip line').
Proof.
  intros H.
  rewrite <- (parse_name_lower (strip line)), <- (parse_name_lower (strip line')).
  now rewrite H.
Qed.

(** A candidate that some stored donor matches is resolved to a stored
    donor: no record is created for it. *)
Theorem matched_name_is_found ds i d c :
  ds !! i = Some d ->
  name_matches d c = true ->
  exists k d', snd (find_by_name ds c) = Some k /\ ds !! k = Some d'.
Proof.
  intros Hd Hm.
  unfold find_by_name.
  destruct (find_loop 0 ds c None) as [c' r] eqn:E. cbn [snd].
  apply find_loop_spec in E as [(-> & _ & Hall) | (k & d' & -> & Hk & _)].
  - rewrite Forall_forall in Hall.
    rewrite (Hall d) in Hm; [discriminate|].
    eapply list_elem_of_lookup_2. exact Hd.
  - exists k, d'. split; [reflexivity | exact Hk].
Qed.

Lemma matched_name_is_found_witness :
  let jane := {| full_name := "Jane Doe"; informal_name := "Jane Doe"; suffix := EmptyString;
                 last_name := "Doe"; first_name := "Jane" |} in
  let d := {| created := "2017-05-09T12:00:00Z"; user_id := "0";
              donations := [ {| amount := 1; date := "2017-05-09Z" |} ]; name := jane |} in
  [d] !! 0 = Some d
  /\ name_matches d jane = true
  /\ exists k d', snd (find_by_name [d] jane) = Some k /\ [d] !! k = Some d'.
Proof.
  intros jane d.
  exact (conj eq_refl (conj eq_refl (matched_name_is_found [d] 0 d jane eq_refl eq_refl))).
Defined.

Lemma last_name_not_empty_witness :
  let p := {| full_name := "Madonna"; informal_name := "Madonna"; suffix := EmptyString;
              last_name := "Madonna"; first_name := EmptyString |} in
  parse_name "Madonna" = Ok p /\ String.eqb (last_name p) EmptyString = false.
Proof.
  intros p. exact (conj eq_refl (last_name_not_empty "Madonna" p eq_refl)).
Defined.

Lemma thank_you_pass_rejects_witness :
  let p := {| full_name := "Madonna"; informal_name := "Madonna"; suffix := EmptyString;
              last_name := "Madonna"; first_name := EmptyString |} in
  let w := Demo.session [] [" madonna "; "q"] in
  parse_name (strip " madonna ") = Ok p
  /\ Spec.accepted p = false
  /\ thank_you_pass w =
     (Continue,
      {| donors := []; stdin := ["q"];
         stdout := ([] ++ entry_turn) ++ print need_both_names;
         ticks := 0; clock := Demo.noon |}).
Proof.
  intros p w.
  exact (conj eq_refl (conj eq_refl
           (thank_you_pass_rejects w " madonna " ["q"] p
              eq_refl eq_refl eq_refl eq_refl eq_refl eq_refl))).
Defined.

(** The report stops at the first donor without a donation: the rows before
    it are written and [ZeroDivisionError] is raised. *)
Theorem report_raises_without_donation ds d ds' :
  Forall (fun d => Spec.has_donation d = true) ds ->
  Spec.has_donation d = false ->
  print_report (ds ++ d :: ds') =
  (print_lines 2 ++ print report_header ++ print (repeat_char "-" 72) ++ Spec.rows 0 ds,
   Raise ZeroDivisionError).
Proof.
  intros Hds Hd. unfold print_report.
  assert (H : forall k, report_rows k (ds ++ d :: ds') = (Spec.rows k ds, Raise ZeroDivisionError)).
  { induction ds as [|x ds IH]; intros k.
    - simpl. now rewrite (report_row_empty _ _ Hd).
    - inversion Hds as [|? ? Hx Hds']; subst.
      simpl. now rewrite (report_row_ok _ _ Hx), (IH Hds'). }
  now rewrite H.
Qed.

Lemma report_raises_without_donation_witness :
  let jane := {| full_name := "Jane Doe"; informal_name := "Jane Doe"; suffix := EmptyString;
                 last_name := "Doe"; first_name := "Jane" |} in
  let d := {| created := "2017-05-09T12:00:00Z"; user_id := "0";
              donations := [ {| amount := 1; date := "2017-05-09Z" |} ]; name := jane |} in
  let e := {| created := "2017-05-09T12:00:00Z"; user_id := "1"; donations := [];
              name := jane |} in
  Forall (fun d => Spec.has_donation d = true) [d]
  /\ Spec.has_donation e = false
  /\ print_report ([d] ++ e :: [d]) =
     (print_lines 2 ++ print report_header ++ print (repeat_char "-" 72) ++ Spec.rows 0 [d],
      Raise ZeroDivisionError).
Proof.
  intros jane d e.
  assert (H : Forall (fun d => Spec.has_donation d = true) [d]) by (repeat constructor).
  exact (conj H (conj eq_refl (report_raises_without_donation [d] e [d] H eq_refl))).
Defined.

(** [thank_you_entry] always ends in one of the ways the program can end:
    one pass more than there are lines to read is enough. *)
Theorem thank_you_entry_ends w : Spec.ends (fst (thank_you_entry w)) = true.
Proof.
  pose proof (thank_you_loop_fuel (S (length (stdin w))) w) as H.
  unfold thank_you_entry.
  destruct (fst (thank_you_loop (S (length (stdin w))) w)); try reflexivity.
  exfalso. apply H; [lia | reflexivity].
Qed.

End FurtherProperties.

(** ** The letters of [thank_all_donors] *)

Section LetterFacts.
Import PyStr PyFormat Mailroom Program.

Lemma plain_char_written c :
  ProgramSpec.plain_char (if Ascii.eqb (to_lower c) " " then "_"%char else to_lower c) = true.
Proof. destruct c as [[] [] [] [] [] [] [] []]; reflexivity. Qed.

Lemma plain_replace_lower s :
  all_chars ProgramSpec.plain_char (replace_char " " "_" (lower s)) = true.
Proof.
  induction s as [|c s IH]; [reflexivity|].
  simpl. now rewrite plain_char_written, IH.
Qed.

Lemma lower_app a b : lower (a ++ b) = (lower a ++ lower b)%string.
Proof. induction a as [|c a IH]; [reflexivity|]. simpl. now rewrite IH. Qed.

Lemma replace_char_app x y a b :
  replace_char x y (a ++ b) = (replace_char x y a ++ replace_char x y b)%string.
Proof. induction a as [|c a IH]; [reflexivity|]. simpl. now rewrite IH. Qed.

Lemma join_cons sep x l :
  join sep (x :: l) =
  (x ++ match l with [] => EmptyString | _ :: _ => sep ++ join sep l end)%string.
Proof.
  destruct l; simpl; [|reflexivity].
  induction x as [|c x IH]; [reflexivity|].
  change (String c x = String c (x ++ EmptyString)). f_equal. exact IH.
Qed.

(** The name of a letter file starts with [thank_you]. *)
Lemma letter_file_prefix d : starts_with "thank_you" (letter_file d) = true.
Proof.
  unfold letter_file, non_empty. cbn [List.filter String.eqb negb].
  rewrite join_cons, lower_app, replace_char_app. reflexivity.
Qed.

Lemma starts_with_differs path d :
  starts_with "thank_you" path = false -> letter_file d <> path.
Proof. intros H <-. now rewrite letter_file_prefix in H. Qed.

Lemma thank_all_donors_cons donor ds d :
  thank_all_donors (donor :: ds) d =
  match denied d (letter_file donor) with
  | Some message => (Some (OSError message), d)
  | None => thank_all_donors ds (write_file (letter_file donor) (letter_text donor) d)
  end.
Proof. reflexivity. Qed.

Lemma thank_all_donors_denied ds :
  forall d, denied (snd (thank_all_donors ds d)) = denied d.
Proof.
  induction ds as [|donor ds IH]; intros d; [reflexivity|].
  rewrite thank_all_donors_cons.
  destruct (denied d (letter_file donor)); [reflexivity|].
  now rewrite IH.
Qed.

(** When every letter can be written, each file holds the letter of the
    last donor it is named after, and every other file is as before. *)
Lemma thank_all_donors_files ds :
  forall d,
    ProgramSpec.letters_allowed d ds ->
    fst (thank_all_donors ds d) = None
    /\ forall path,
         files (snd (thank_all_donors ds d)) !! path =
         match ProgramSpec.last_letter path ds with
         | Some text => Some text
         | None => files d !! path
         end.
Proof.
  induction ds as [|donor ds IH]; intros d H; [now split|].
  inversion H as [|? ? Hd Hds]; subst.
  rewrite thank_all_donors_cons, Hd.
  destruct (IH (write_file (letter_file donor) (letter_text donor) d)) as [Hr Hf];
    [exact Hds|].
  split; [exact Hr|].
  intros path. rewrite Hf. simpl ProgramSpec.last_letter.
  destruct (ProgramSpec.last_letter path ds); [reflexivity|].
  cbn [files write_file].
  destruct (String.eqb (letter_file donor) path) eqn:E.
  - apply String.eqb_eq in E. subst. now rewrite lookup_insert_eq.
  - apply String.eqb_neq in E. now rewrite lookup_insert_ne.
Qed.

Lemma thank_all_donors_other_files ds :
  forall d path,
    starts_with "thank_you" path = false ->
    files (snd (thank_all_donors ds d)) !! path = files d !! path.
Proof.
  induction ds as [|donor ds IH]; intros d path H; [reflexivity|].
  rewrite thank_all_donors_cons.
  destruct (denied d (letter_file donor)); [reflexivity|].
  rewrite (IH _ _ H). cbn [files write_file].
  apply lookup_insert_ne. now apply starts_with_differs.
Qed.

Lemma letters_allowed_denied d d' ds :
  denied d' = denied d -> ProgramSpec.letters_allowed d ds -> ProgramSpec.letters_allowed d' ds.
Proof. unfold ProgramSpec.letters_allowed. intros ->. exact id. Qed.

Lemma thank_all_donors_unreadable ds :
  forall d, unreadable (snd (thank_all_donors ds d)) = unreadable d.
Proof.
  induction ds as [|donor ds IH]; intros d; [reflexivity|].
  rewrite thank_all_donors_cons.
  destruct (denied d (letter_file donor)); [reflexivity|].
  now rewrite IH.
Qed.

Lemma disk_eq d d' :
  files d = files d' -> denied d = denied d' -> unreadable d = unreadable d' -> d = d'.
Proof. destruct d, d'. simpl. intros -> -> ->. reflexivity. Qed.

End LetterFacts.

Section LetterProperties.
Import PyStr PyFormat Mailroom Program.

(** The name of a letter file starts with [thank_you] and holds neither a
    blank nor an upper-case letter, whatever the names of the donor are. *)
Theorem letter_file_plain d :
  starts_with "thank_you" (letter_file d) = true
  /\ all_chars ProgramSpec.plain_char (letter_file d) = true.
Proof. split; [apply letter_file_prefix | apply plain_replace_lower]. Qed.



(** Writing the letters twice leaves the disk that writing them once
    leaves. *)
Theorem letters_idempotent ds d :
  ProgramSpec.letters_allowed d ds ->
  thank_all_donors ds (snd (thank_all_donors ds d)) = thank_all_donors ds d.
Proof.
  intros H.
  pose proof (thank_all_donors_denied ds d) as Hden.
  assert (H' : ProgramSpec.letters_allowed (snd (thank_all_donors ds d)) ds)
    by (eapply letters_allowed_denied; eassumption).
  destruct (thank_all_donors_files ds d H) as [Hr Hf].
  destruct (thank_all_donors_files ds _ H') as [Hr' Hf'].
  pose proof (thank_all_donors_denied ds (snd (thank_all_donors ds d))) as Hden'.
  pose proof (thank_all_donors_unreadable ds (snd (thank_all_donors ds d))) as Hun.
  destruct (thank_all_donors ds (snd (thank_all_donors ds d))) as [r2 d2].
  destruct (thank_all_donors ds d) as [r1 d1].
  cbn [fst snd] in *. subst r1 r2. f_equal.
  apply disk_eq; [|exact Hden'|exact Hun].
  apply map_eq. intros path. rewrite Hf', Hf.
  now destruct (ProgramSpec.last_letter path ds).
Qed.

Lemma letters_idempotent_witness :
  ProgramSpec.letters_allowed (ProgramDemo.open_disk ∅) ProgramDemo.two_donors
  /\ thank_all_donors ProgramDemo.two_donors
       (snd (thank_all_donors ProgramDemo.two_donors (ProgramDemo.open_disk ∅))) =
     thank_all_donors ProgramDemo.two_donors (ProgramDemo.open_disk ∅).
Proof.
  assert (H : ProgramSpec.letters_allowed (ProgramDemo.open_disk ∅) ProgramDemo.two_donors)
    by (repeat constructor).
  split; [exact H | exact (letters_idempotent _ _ H)].
Defined.



(** [thank_all_donors] stops at the first donor whose letter file is
    refused: [OSError] leaves the function, the letters of the donors
    before are written and those of the donors after are not. *)
Theorem letters_stop_at_refusal ds1 donor ds2 message :
  forall d,
    ProgramSpec.letters_allowed d ds1 ->
    denied d (letter_file donor) = Some message ->
    thank_all_donors (ds1 ++ donor :: ds2) d =
    (Some (OSError message), snd (thank_all_donors ds1 d)).
Proof.
  induction ds1 as [|x ds1 IH]; intros d H Hd.
  - simpl. now rewrite Hd.
  - inversion H as [|? ? Hx Hds]; subst.
    change ((x :: ds1) ++ donor :: ds2) with (x :: (ds1 ++ donor :: ds2)).
    rewrite !thank_all_donors_cons, Hx. now apply IH.
Qed.

Lemma letters_stop_at_refusal_witness :
  ProgramSpec.letters_allowed
    (ProgramDemo.locked_disk ∅ "thank_you_doe_jane")
    [ProgramDemo.donor_of ProgramDemo.john_smith_jr [10%float]]
  /\ denied (ProgramDemo.locked_disk ∅ "thank_you_doe_jane")
       (letter_file (ProgramDemo.donor_of ProgramDemo.jane_doe [5%float])) =
     Some "[Errno 13] Permission denied"
  /\ thank_all_donors
       ([ProgramDemo.donor_of ProgramDemo.john_smith_jr [10%float]]
        ++ ProgramDemo.donor_of ProgramDemo.jane_doe [5%float]
        :: [ProgramDemo.donor_of ProgramDemo.john_smith_jr [1%float]])
       (ProgramDemo.locked_disk ∅ "thank_you_doe_jane") =
     (Some (OSError "[Errno 13] Permission denied"),
      snd (thank_all_donors [ProgramDemo.donor_of ProgramDemo.john_smith_jr [10%float]]
             (ProgramDemo.locked_disk ∅ "thank_you_doe_jane"))).
Proof.
  assert (H : ProgramSpec.letters_allowed
                (ProgramDemo.locked_disk ∅ "thank_you_doe_jane")
                [ProgramDemo.donor_of ProgramDemo.john_smith_jr [10%float]])
    by (repeat constructor).
  assert (Hd : denied (ProgramDemo.locked_disk ∅ "thank_you_doe_jane")
                 (letter_file (ProgramDemo.donor_of ProgramDemo.jane_doe [5%float])) =
               Some "[Errno 13] Permission denied")
    by (vm_compute; reflexivity).
  split; [exact H|]. split; [exact Hd|].
  exact (letters_stop_at_refusal _ _ _ _ _ H Hd).
Defined.

End LetterProperties.

(** ** A check of the embedding of the program *)

Section ProgramChecks.
Import PyStr PyFormat Mailroom Program.

(** A session from an empty disk: two entries, the letters, a choice that
    the menu does not know, and the quit that saves. *)
Example run_session :
  let r := run ProgramDemo.dumps ProgramDemo.loads ProgramDemo.repr (ProgramDemo.open_disk ∅)
             ["e"; "Jane Doe"; "10"; "john smith, jr"; "2.5"; "q"; "P"; "x"; "Q"]
             Demo.noon None in
  fst r = Finished
  /\ map fst (map_to_list (files (disk (snd r)))) =
     ["thank_you_smith_jr_john"; "thank_you_doe_jane"; "donors.json"]
  /\ files (disk (snd r)) !! "donors.json" = Some "2"
  /\ Demo.ledger (donors (world (snd r))) =
     [("Jane Doe", [10%float]); ("John Smith, JR", [2.5%float])]
  /\ stdin (world (snd r)) = [].
Proof. vm_compute. repeat split; reflexivity. Qed.

End ProgramChecks.

(** ** What [thank_you_entry] keeps *)

Section EntryFacts.
Import PyStr PyFormat Mailroom Program.

Lemma get_donation_amount_rest cur lines :
  snd (fst (get_donation_amount cur lines)) `suffix_of` lines.
Proof.
  induction lines as [|l rest IH]; [reflexivity|].
  rewrite get_donation_amount_cons.
  destruct (Spec.quits l); [now apply suffix_cons_r|].
  destruct (PyFloat.of_string (strip l)); [now apply suffix_cons_r|].
  destruct (get_donation_amount cur rest) as [[r rest'] out].
  now apply suffix_cons_r.
Qed.

Lemma add_donation_stdin id cur a w : stdin (snd (add_donation id cur a w)) = stdin w.
Proof. destruct id; reflexivity. Qed.

Lemma add_donation_healthy id cur a w :
  ProgramSpec.healthy (donors w) ->
  ProgramSpec.healthy (donors (snd (add_donation id cur a w))).
Proof.
  unfold ProgramSpec.healthy. intros H. destruct id as [i|].
  - rewrite add_donation_existing. cbn [snd donors].
    apply Forall_alter; [exact H|].
    intros d _ _. unfold Spec.has_donation. simpl.
    now destruct (donations d).
  - rewrite add_donation_new. cbn [snd donors].
    apply Forall_app. split; [exact H|]. repeat constructor.
Qed.

Lemma print_report_healthy ds :
  ProgramSpec.healthy ds -> snd (print_report ds) = Ok tt.
Proof.
  intros H. unfold print_report. now rewrite (report_rows_ok _ _ H).
Qed.

(** A pass reads from the front of the input. *)
Lemma thank_you_pass_lines w : stdin (snd (thank_you_pass w)) `suffix_of` stdin w.
Proof.
  unfold thank_you_pass.
  cbn [stdin write set_stdout].
  destruct (stdin w) as [|line rest] eqn:Hin; [cbn; now rewrite Hin|].
  cbn [safe_input].
  destruct (mem (lower (strip line)) ["q"; "quit"]); [now apply suffix_cons_r|].
  destruct (mem (lower (strip line)) ["l"; "list"]).
  { destruct (print_report _) as [out [[]|e]]; now apply suffix_cons_r. }
  destruct (String.eqb (strip line) EmptyString); [now apply suffix_cons_r|].
  destruct (parse_name (strip line)) as [p|e]; [|now apply suffix_cons_r].
  destruct (_ || _); [now apply suffix_cons_r|].
  change (donors (set_stdin rest (write entry_turn w))) with (donors w).
  change (stdin (set_stdin rest (write entry_turn w))) with rest.
  destruct (find_by_name (donors w) p) as [cur id].
  pose proof (get_donation_amount_rest cur rest) as Hs.
  destruct (get_donation_amount cur rest) as [[r rest'] out]. cbn [fst snd] in Hs.
  apply suffix_cons_r.
  destruct r as [a| |]; [|exact Hs|exact Hs].
  match goal with
  | |- context [add_donation id cur a ?w0] =>
      pose proof (add_donation_stdin id cur a w0) as Ha;
      destruct (add_donation id cur a w0) as [hint w3]
  end.
  cbn [snd stdin write set_stdout] in *. rewrite Ha. exact Hs.
Qed.

(** A pass on a healthy store leaves a healthy store and does not divide by
    zero. *)
Lemma thank_you_pass_healthy w :
  ProgramSpec.healthy (donors w) ->
  ProgramSpec.healthy (donors (snd (thank_you_pass w)))
  /\ fst (thank_you_pass w) <> Stop (Raised ZeroDivisionError).
Proof.
  intros H. split.
  { destruct (thank_you_pass_store w) as [-> | (id & cur & a & w0 & E & ->)];
      [exact H|].
    apply add_donation_healthy. now rewrite E. }
  unfold thank_you_pass.
  cbn [stdin write set_stdout].
  destruct (stdin w) as [|line rest]; [discriminate|].
  cbn [safe_input].
  destruct (mem (lower (strip line)) ["q"; "quit"]); [discriminate|].
  destruct (mem (lower (strip line)) ["l"; "list"]).
  { pose proof (print_report_healthy _ H) as Hr.
    change (donors (set_stdin rest (write entry_turn w))) with (donors w).
    destruct (print_report (donors w)) as [out [[]|e]]; [discriminate|discriminate]. }
  destruct (String.eqb (strip line) EmptyString); [discriminate|].
  pose proof (parse_name_eq (strip line)) as Hp. cbv zeta in Hp.
  destruct (parse_name (strip line)) as [p|e].
  2:{ destruct (last _); [discriminate|]. injection Hp as ->. discriminate. }
  destruct (_ || _); [discriminate|].
  destruct (find_by_name _ _) as [cur id].
  destruct (get_donation_amount _ _) as [[[a| |] rest'] out];
    [|discriminate|discriminate].
  destruct (add_donation _ _ _ _). discriminate.
Qed.

Lemma thank_you_loop_lines fuel :
  forall w, stdin (snd (thank_you_loop fuel w)) `suffix_of` stdin w.
Proof.
  induction fuel as [|fuel IH]; intros w; [reflexivity|].
  rewrite thank_you_loop_S.
  pose proof (thank_you_pass_lines w) as H.
  destruct (thank_you_pass w) as [[|e] w']; cbn [snd] in *; [|exact H].
  now transitivity (stdin w').
Qed.

Lemma thank_you_loop_healthy fuel :
  forall w,
    ProgramSpec.healthy (donors w) ->
    ProgramSpec.healthy (donors (snd (thank_you_loop fuel w)))
    /\ fst (thank_you_loop fuel w) <> Raised ZeroDivisionError.
Proof.
  induction fuel as [|fuel IH]; intros w H; [split; [exact H|discriminate]|].
  rewrite thank_you_loop_S.
  destruct (thank_you_pass_healthy w H) as [H1 H2].
  destruct (thank_you_pass w) as [[|e] w']; cbn [fst snd] in *.
  - now apply IH.
  - split; [exact H1|]. intros ->. now apply H2.
Qed.

End EntryFacts.

(** ** The main menu *)

Lemma mem_In c l : PyStr.mem c l = true -> In c l.
Proof.
  unfold PyStr.mem. intros H. apply existsb_exists in H as (x & Hx & E).
  apply String.eqb_eq in E. now subst.
Qed.

(** The cases of a choice that is in a list of the menu. *)
Ltac pick H :=
  apply mem_In in H; simpl in H;
  repeat match type of H with
         | _ \/ _ => destruct H as [H|H]
         | False => destruct H
         end;
  subst.

Section MainFacts.
Import PyStr PyFormat Mailroom Program ProgramSpec.

Variable dumps : list Donor -> string.
Variable repr : list Donor -> string.

(** The tests of a pass exclude each other: a pass runs one branch at most. *)
Lemma main_pass_cons f line rest :
  stdin (world (machine f)) = line :: rest ->
  main_pass dumps repr f =
  let choice := lower (strip line) in
  let f1 := chosen f line rest in
  if mem choice ["l"; "list"] then do_report f1
  else if mem choice ["p"; "print"] then do_letters f1
  else if mem choice ["s"; "send"; "e"; "enter"; "a"; "add"] then do_entry f1
  else if mem choice ["d"; "debug"] then do_debug repr f1
  else if mem choice ["q"; "quit"] then do_quit dumps f1
  else (None, f1).
Proof.
  intros Hin. unfold main_pass.
  cbn [emit set_world world stdin write set_stdout]. rewrite Hin.
  cbn [safe_input]. cbv zeta.
  change {| machine := _; selection := _ |} with (chosen f line rest).
  generalize (chosen f line rest) as f1. generalize (lower (strip line)) as c.
  intros c f1.
  destruct (mem c ["l"; "list"]) eqn:E1.
  { pick E1; cbn [mem existsb String.eqb Ascii.eqb Bool.eqb orb when];
      unfold and_then; now destruct (do_report f1) as [[h|] f']. }
  destruct (mem c ["p"; "print"]) eqn:E2.
  { pick E2; cbn [mem existsb String.eqb Ascii.eqb Bool.eqb orb when];
      unfold and_then; now destruct (do_letters f1) as [[h|] f']. }
  destruct (mem c ["s"; "send"; "e"; "enter"; "a"; "add"]) eqn:E3.
  { pick E3; cbn [mem existsb String.eqb Ascii.eqb Bool.eqb orb when];
      unfold and_then; now destruct (do_entry f1) as [[h|] f']. }
  destruct (mem c ["d"; "debug"]) eqn:E4.
  { pick E4; cbn [mem existsb String.eqb Ascii.eqb Bool.eqb orb when];
      unfold and_then; now destruct (do_debug repr f1) as [[h|] f']. }
  destruct (mem c ["q"; "quit"]) eqn:E5; reflexivity.
Qed.

Lemma main_pass_nil f :
  stdin (world (machine f)) = [] ->
  main_pass dumps repr f =
  (Some Spinning, {| machine := emit main_turn (machine f); selection := Some EmptyString |}).
Proof.
  intros Hin. unfold main_pass.
  cbn [emit set_world world stdin write set_stdout]. now rewrite Hin.
Qed.

Lemma main_loop_S fuel f :
  main_loop dumps repr (S fuel) f =
  if stays (selection f) then
    match main_pass dumps repr f with
    | (None, f') => main_loop dumps repr fuel f'
    | (Some h, f') => (h, machine f')
    end
  else (Finished, emit farewell (machine f)).
Proof. reflexivity. Qed.

(** A line that quits passes the tests before the test of [q] and [quit],
    and ends the loop unless the selection is cleared. *)
Lemma quit_tests line :
  Spec.quits line = true ->
  (mem (lower (strip line)) ["l"; "list"] = false
   /\ mem (lower (strip line)) ["p"; "print"] = false)
  /\ (mem (lower (strip line)) ["s"; "send"; "e"; "enter"; "a"; "add"] = false
      /\ mem (lower (strip line)) ["d"; "debug"] = false)
  /\ stays (Some (lower (strip line))) = false.
Proof.
  unfold Spec.quits. generalize (lower (strip line)) as c. intros c Hq.
  pick Hq; repeat split.
Qed.

Lemma main_pass_quit f line rest :
  stdin (world (machine f)) = line :: rest ->
  Spec.quits line = true ->
  main_pass dumps repr f = do_quit dumps (chosen f line rest).
Proof.
  intros Hin Hq. rewrite (main_pass_cons _ _ _ Hin). cbv zeta.
  destruct (quit_tests _ Hq) as ((-> & ->) & (-> & ->) & _).
  unfold Spec.quits in Hq. now rewrite Hq.
Qed.

(** *** What a run keeps *)

Lemma advances_intro m m' :
  Spec.store_extends (donors (world m)) (donors (world m')) ->
  (healthy (donors (world m)) -> healthy (donors (world m'))) ->
  stdin (world m') `suffix_of` stdin (world m) ->
  denied (disk m') = denied (disk m) ->
  unreadable (disk m') = unreadable (disk m) ->
  mock m' = mock m ->
  advances m m'.
Proof. intros. unfold advances. tauto. Qed.

Lemma advances_refl m : advances m m.
Proof. apply advances_intro; try reflexivity; [apply store_extends_refl | exact id]. Qed.

Lemma advances_trans m1 m2 m3 : advances m1 m2 -> advances m2 m3 -> advances m1 m3.
Proof.
  intros (A1 & B1 & C1 & D1 & U1 & E1) (A2 & B2 & C2 & D2 & U2 & E2).
  apply advances_intro.
  - eapply store_extends_trans; eassumption.
  - auto.
  - now transitivity (stdin (world m2)).
  - congruence.
  - congruence.
  - congruence.
Qed.

(** A machine that differs in the output, the clock and the files only. *)
Lemma advances_same m m' :
  donors (world m') = donors (world m) ->
  stdin (world m') = stdin (world m) ->
  denied (disk m') = denied (disk m) ->
  unreadable (disk m') = unreadable (disk m) ->
  mock m' = mock m ->
  advances m m'.
Proof.
  intros A B C U D. apply advances_intro; rewrite ?A, ?B, ?C, ?U, ?D; try reflexivity;
    [apply store_extends_refl | exact id].
Qed.

Lemma chosen_advances f line rest :
  stdin (world (machine f)) = line :: rest ->
  advances (machine f) (machine (chosen f line rest)).
Proof.
  intros Hin. apply advances_intro; cbn; rewrite ?Hin; try reflexivity;
    [apply store_extends_refl | exact id | apply suffix_cons_r; reflexivity].
Qed.

Lemma do_report_advances f : advances (machine f) (machine (snd (do_report f))).
Proof.
  unfold do_report.
  destruct (print_report _) as [out [[]|e]]; now apply advances_same.
Qed.

Lemma do_letters_advances f : advances (machine f) (machine (snd (do_letters f))).
Proof.
  unfold do_letters.
  pose proof (thank_all_donors_denied (donors (world (machine f))) (disk (machine f))) as H.
  pose proof (thank_all_donors_unreadable (donors (world (machine f))) (disk (machine f)))
    as U.
  destruct (thank_all_donors _ _) as [[e|] d]; now apply advances_same.
Qed.

Lemma do_entry_advances f : advances (machine f) (machine (snd (do_entry f))).
Proof.
  unfold do_entry, thank_you_entry.
  pose proof (thank_you_loop_extends (S (length (stdin (world (machine f)))))
                (world (machine f))) as A.
  pose proof (thank_you_loop_lines (S (length (stdin (world (machine f)))))
                (world (machine f))) as B.
  pose proof (fun H => proj1 (thank_you_loop_healthy
                (S (length (stdin (world (machine f))))) (world (machine f)) H)) as C.
  destruct (thank_you_loop _ _) as [e w]. cbn [snd] in *.
  assert (advances (machine f) (set_world w (machine f)))
    by (apply advances_intro; try assumption; reflexivity).
  now destruct e.
Qed.

Lemma do_debug_advances f : advances (machine f) (machine (snd (do_debug repr f))).
Proof. now apply advances_same. Qed.

Lemma do_quit_advances f : advances (machine f) (machine (snd (do_quit dumps f))).
Proof.
  unfold do_quit, save_donor_file.
  destruct (denied (disk (machine f)) "donors.json") as [e|];
    [|now apply advances_same].
  cbn [set_disk emit set_world mock].
  destruct (mock (machine f)) as [[|]|]; [now apply advances_same| |now apply advances_same].
  cbn.
  destruct (stdin (world (machine f))) as [|answer rest] eqn:Hin; cbn;
    apply advances_intro; cbn; rewrite ?Hin; try reflexivity;
    try apply store_extends_refl; try exact id.
  apply suffix_cons_r; reflexivity.
Qed.

Lemma main_pass_advances f :
  advances (machine f) (machine (snd (main_pass dumps repr f))).
Proof.
  destruct (stdin (world (machine f))) as [|line rest] eqn:Hin.
  - rewrite (main_pass_nil _ Hin). now apply advances_same.
  - rewrite (main_pass_cons _ _ _ Hin). cbv zeta.
    eapply advances_trans; [apply (chosen_advances _ _ _ Hin)|].
    repeat match goal with |- context [if ?c then _ else _] => destruct c end.
    + apply do_report_advances.
    + apply do_letters_advances.
    + apply do_entry_advances.
    + apply do_debug_advances.
    + apply do_quit_advances.
    + apply advances_refl.
Qed.

Lemma main_loop_advances fuel :
  forall f, advances (machine f) (snd (main_loop dumps repr fuel f)).
Proof.
  induction fuel as [|fuel IH]; intros f.
  - simpl. destruct (stays (selection f)); [apply advances_refl | now apply advances_same].
  - rewrite main_loop_S.
    destruct (stays (selection f)); [|now apply advances_same].
    pose proof (main_pass_advances f) as H.
    destruct (main_pass dumps repr f) as [[h|] f']; cbn [snd] in *; [exact H|].
    eapply advances_trans; [exact H | apply IH].
Qed.

(** *** How a run ends *)

Lemma thank_all_donors_error ds :
  forall d e, fst (thank_all_donors ds d) = Some e -> exists message, e = OSError message.
Proof.
  induction ds as [|donor ds IH]; intros d e; [discriminate|].
  rewrite thank_all_donors_cons.
  destruct (denied d (letter_file donor)) as [message|]; [|apply IH].
  intros [= <-]. now exists message.
Qed.

Lemma do_report_fine f h :
  fst (do_report f) = Some h -> fine (donors (world (machine f))) h.
Proof.
  unfold do_report.
  pose proof (print_report_healthy (donors (world (machine f)))) as H.
  destruct (print_report _) as [out [[]|e]]; [discriminate|].
  intros [= <-]. split; [reflexivity|].
  intros Hh. now specialize (H Hh).
Qed.

Lemma do_letters_fine f h :
  fst (do_letters f) = Some h -> fine (donors (world (machine f))) h.
Proof.
  unfold do_letters.
  pose proof (thank_all_donors_error (donors (world (machine f))) (disk (machine f))) as H.
  destruct (thank_all_donors _ _) as [[e|] d]; [|discriminate].
  intros [= <-]. destruct (H e eq_refl) as [message ->]. now split.
Qed.

Lemma do_entry_fine f h :
  fst (do_entry f) = Some h -> fine (donors (world (machine f))) h.
Proof.
  unfold do_entry, thank_you_entry.
  pose proof (thank_you_loop_fuel (S (length (stdin (world (machine f)))))
                (world (machine f)) ltac:(lia)) as A.
  pose proof (fun H => proj2 (thank_you_loop_healthy
                (S (length (stdin (world (machine f))))) (world (machine f)) H)) as C.
  destruct (thank_you_loop _ _) as [e w]. cbn [fst] in *.
  destruct e as [| |x| |]; try discriminate; intros [= <-].
  - split; [reflexivity|]. intros Hh. specialize (C Hh).
    destruct x; [reflexivity | now destruct C].
  - now split.
  - now destruct A.
Qed.

Lemma do_quit_fine f h :
  fst (do_quit dumps f) = Some h -> fine (donors (world (machine f))) h.
Proof.
  unfold do_quit, save_donor_file.
  destruct (denied (disk (machine f)) "donors.json") as [e|]; [|discriminate].
  cbn [set_disk emit set_world mock].
  destruct (mock (machine f)) as [[|]|].
  - discriminate.
  - destruct (safe_input _). discriminate.
  - intros [= <-]. now split.
Qed.

Lemma chosen_donors f line rest :
  donors (world (machine (chosen f line rest))) = donors (world (machine f)).
Proof. reflexivity. Qed.

Lemma main_pass_fine f h :
  fst (main_pass dumps repr f) = Some h -> fine (donors (world (machine f))) h.
Proof.
  destruct (stdin (world (machine f))) as [|line rest] eqn:Hin.
  - rewrite (main_pass_nil _ Hin). intros [= <-]. now split.
  - rewrite (main_pass_cons _ _ _ Hin). cbv zeta.
    rewrite <- (chosen_donors f line rest).
    repeat match goal with |- context [if ?c then _ else _] => destruct c end.
    + apply do_report_fine.
    + apply do_letters_fine.
    + apply do_entry_fine.
    + discriminate.
    + apply do_quit_fine.
    + discriminate.
Qed.

(** A pass that goes on has read a line. *)
Lemma main_pass_reads f f' :
  main_pass dumps repr f = (None, f') ->
  length (stdin (world (machine f'))) < length (stdin (world (machine f))).
Proof.
  intros E.
  destruct (stdin (world (machine f))) as [|line rest] eqn:Hin.
  - now rewrite (main_pass_nil _ Hin) in E.
  - assert (H : advances (machine (chosen f line rest)) (machine f')).
    { rewrite (main_pass_cons _ _ _ Hin) in E. cbv zeta in E.
      change f' with (snd (@None Halt, f')). rewrite <- E.
      repeat match goal with |- context [if ?c then _ else _] => destruct c end.
      + apply do_report_advances.
      + apply do_letters_advances.
      + apply do_entry_advances.
      + apply do_debug_advances.
      + apply do_quit_advances.
      + apply advances_refl. }
    destruct H as (_ & _ & H & _). apply suffix_length in H.
    cbn in H. simpl. lia.
Qed.

Lemma main_loop_fine fuel :
  forall f,
    length (stdin (world (machine f))) < fuel ->
    fine (donors (world (machine f))) (fst (main_loop dumps repr fuel f)).
Proof.
  induction fuel as [|fuel IH]; intros f Hf; [lia|].
  rewrite main_loop_S.
  destruct (stays (selection f)); [|now split].
  pose proof (main_pass_advances f) as Ha.
  pose proof (main_pass_fine f) as Hh.
  pose proof (main_pass_reads f) as Hr.
  destruct (main_pass dumps repr f) as [[h|] f']; cbn [fst snd] in *.
  - now apply Hh.
  - specialize (Hr f' eq_refl).
    destruct (IH f' ltac:(lia)) as [A B].
    split; [exact A|]. intros H. apply B.
    destruct Ha as (_ & Ha & _). now apply Ha.
Qed.

Lemma main_fine m : fine (donors (world m)) (fst (main dumps repr m)).
Proof.
  apply (main_loop_fine (S (S (length (stdin (world m)))))
           {| machine := m; selection := None |}). simpl. lia.
Qed.

(** *** The donor file *)

Lemma do_report_disk f :
  disk (machine (snd (do_report f))) = disk (machine f)
  /\ selection (snd (do_report f)) = selection f.
Proof. unfold do_report. now destruct (print_report _) as [out [[]|e]]. Qed.

Lemma do_letters_file f :
  donor_file (machine (snd (do_letters f))) = donor_file (machine f)
  /\ selection (snd (do_letters f)) = selection f.
Proof.
  unfold do_letters, donor_file.
  pose proof (thank_all_donors_other_files (donors (world (machine f))) (disk (machine f))
                "donors.json" eq_refl) as H.
  now destruct (thank_all_donors _ _) as [[e|] d].
Qed.

Lemma do_entry_disk f :
  disk (machine (snd (do_entry f))) = disk (machine f)
  /\ selection (snd (do_entry f)) = selection f.
Proof. unfold do_entry. destruct (thank_you_entry _) as [e w]. now destruct e. Qed.

Lemma do_quit_saves f :
  denied (disk (machine f)) "donors.json" = None ->
  fst (do_quit dumps f) = None
  /\ donor_file (machine (snd (do_quit dumps f))) =
     Some (dumps (donors (world (machine (snd (do_quit dumps f))))))
  /\ selection (snd (do_quit dumps f)) = selection f.
Proof.
  intros Hd. unfold do_quit, save_donor_file. rewrite Hd. cbn.
  unfold donor_file. cbn. now rewrite lookup_insert_eq.
Qed.

(** A pass that ends the program does not end it by the farewell. *)
Lemma main_pass_halts f h : fst (main_pass dumps repr f) = Some h -> h <> Finished.
Proof.
  destruct (stdin (world (machine f))) as [|line rest] eqn:Hin.
  - rewrite (main_pass_nil _ Hin). now intros [= <-].
  - rewrite (main_pass_cons _ _ _ Hin). cbv zeta.
    generalize (chosen f line rest) as f1. intros f1.
    repeat match goal with |- context [if ?c then _ else _] => destruct c end;
      try discriminate.
    + unfold do_report. destruct (print_report _) as [out [[]|e]]; [discriminate|].
      now intros [= <-].
    + unfold do_letters. destruct (thank_all_donors _ _) as [[e|] d]; [|discriminate].
      now intros [= <-].
    + unfold do_entry. destruct (thank_you_entry _) as [e w].
      destruct e; try discriminate; now intros [= <-].
    + unfold do_quit, save_donor_file.
      destruct (denied _ _); [|discriminate]. cbn [set_disk emit set_world mock].
      destruct (mock _) as [[|]|]; [discriminate| |now intros [= <-]].
      destruct (safe_input _). discriminate.
Qed.

Lemma Forall_suffix {A} (P : A -> Prop) (l1 l2 : list A) :
  l1 `suffix_of` l2 -> Forall P l2 -> Forall P l1.
Proof. intros [k ->] H. now apply Forall_app in H. Qed.

(** When the donor file can be written and no line is [0], a pass that goes
    on has saved the store or stays in the loop. *)
Lemma main_pass_saved f f' :
  Forall (fun line => not_zero line = true) (stdin (world (machine f))) ->
  denied (disk (machine f)) "donors.json" = None ->
  main_pass dumps repr f = (None, f') ->
  stays (selection f') = true
  \/ donor_file (machine f') = Some (dumps (donors (world (machine f')))).
Proof.
  intros Hz Hd E.
  destruct (stdin (world (machine f))) as [|line rest] eqn:Hin.
  { now rewrite (main_pass_nil _ Hin) in E. }
  inversion Hz as [|? ? Hline _]; subst.
  rewrite (main_pass_cons _ _ _ Hin) in E. cbv zeta in E.
  unfold not_zero in Hline. apply negb_true_iff in Hline.
  assert (Hsel : selection (chosen f line rest) = Some (lower (strip line))) by reflexivity.
  revert E Hsel Hline. generalize (lower (strip line)) as c. intros c E Hsel Hline.
  destruct (mem c ["l"; "list"]) eqn:E1.
  { left. change f' with (snd (@None Halt, f')). rewrite <- E.
    rewrite (proj2 (do_report_disk _)), Hsel. pick E1; reflexivity. }
  destruct (mem c ["p"; "print"]) eqn:E2.
  { left. change f' with (snd (@None Halt, f')). rewrite <- E.
    rewrite (proj2 (do_letters_file _)), Hsel. pick E2; reflexivity. }
  destruct (mem c ["s"; "send"; "e"; "enter"; "a"; "add"]) eqn:E3.
  { left. change f' with (snd (@None Halt, f')). rewrite <- E.
    rewrite (proj2 (do_entry_disk _)), Hsel. pick E3; reflexivity. }
  destruct (mem c ["d"; "debug"]) eqn:E4.
  { left. injection E as <-. cbn [do_debug on_machine selection]. rewrite Hsel.
    pick E4; reflexivity. }
  destruct (mem c ["q"; "quit"]) eqn:E5.
  - right. destruct (do_quit_saves (chosen f line rest) Hd) as (_ & H & _).
    now rewrite E in H.
  - left. injection E as <-. rewrite Hsel. unfold stays.
    cbn [mem existsb] in *. apply orb_false_iff in E5 as (Hq1 & E5).
    apply orb_false_iff in E5 as (Hq2 & _). now rewrite Hline, Hq1, Hq2.
Qed.

Lemma main_loop_saved fuel :
  forall f,
    Forall (fun line => not_zero line = true) (stdin (world (machine f))) ->
    denied (disk (machine f)) "donors.json" = None ->
    stays (selection f) = true
    \/ donor_file (machine f) = Some (dumps (donors (world (machine f)))) ->
    fst (main_loop dumps repr fuel f) = Finished ->
    donor_file (snd (main_loop dumps repr fuel f)) =
    Some (dumps (donors (world (snd (main_loop dumps repr fuel f))))).
Proof.
  induction fuel as [|fuel IH]; intros f Hz Hd H.
  - simpl. destruct (stays (selection f)); [discriminate|].
    intros _. now destruct H.
  - rewrite main_loop_S. destruct (stays (selection f)).
    2:{ intros _. now destruct H. }
    pose proof (main_pass_halts f) as Hh.
    pose proof (main_pass_saved f) as Hs.
    pose proof (main_pass_advances f) as Ha.
    destruct (main_pass dumps repr f) as [[h|] f']; cbn [fst snd] in *.
    + intros ->. now destruct (Hh Finished).
    + destruct Ha as (_ & _ & Ha & Hden & _).
      apply IH.
      * eapply Forall_suffix; eassumption.
      * now rewrite Hden.
      * now apply Hs.
Qed.

End MainFacts.

(** ** Properties of the files and of the main menu *)

Section MainProperties.
Import PyStr PyFormat Mailroom Program ProgramSpec.

Variable dumps : list Donor -> string.
Variable loads : string -> string + list Donor.
Variable repr : list Donor -> string.

(** What [save_donor_file] writes, [load_donor_file] reads back: when the
    file can be written and read and [json.load] inverts [json.dumps] on the
    store, saving prints nothing and returns [True], and loading the file
    afterwards prints nothing and returns the store. *)
Theorem save_then_load ds path d :
  denied d path = None ->
  unreadable d path = false ->
  loads (dumps ds) = inr ds ->
  fst (save_donor_file dumps ds path d) = ([], true)
  /\ load_donor_file loads path (snd (save_donor_file dumps ds path d)) = ([], Donors ds).
Proof.
  intros Hw Hr Hl. unfold save_donor_file, load_donor_file. rewrite Hw.
  split; [reflexivity|]. cbn. now rewrite lookup_insert_eq, Hr, Hl.
Qed.

(** The choice [0] leaves the program at once and without saving: the
    farewell is written after the menu, and the disk and the store are as
    they were. *)
Theorem zero_leaves_unsaved m line rest :
  stdin (world m) = line :: rest ->
  lower (strip line) = "0" ->
  fst (main dumps repr m) = Finished
  /\ disk (snd (main dumps repr m)) = disk m
  /\ donors (world (snd (main dumps repr m))) = donors (world m)
  /\ stdin (world (snd (main dumps repr m))) = rest
  /\ stdout (world (snd (main dumps repr m))) = stdout (world m) ++ main_turn ++ farewell.
Proof.
  intros Hin Hz.
  assert (E : main dumps repr m =
              (Finished,
               emit farewell
                 (machine (chosen {| machine := m; selection := None |} line rest)))).
  { unfold main. rewrite main_loop_S. cbn [selection stays].
    rewrite (main_pass_cons dumps repr _ line rest) by exact Hin. cbv zeta.
    rewrite Hz. cbn [mem existsb String.eqb Ascii.eqb Bool.eqb orb].
    rewrite main_loop_S. unfold chosen. cbn [selection]. now rewrite Hz. }
  rewrite E. cbn [fst snd]. repeat split.
  cbn [chosen world emit set_world write set_stdout set_stdin stdout machine].
  now rewrite <- app_assoc.
Qed.

(** The choice [q] or [quit], when the donor file can be written, saves the
    store and leaves: [donors.json] holds [json.dumps] of the store, the
    count of the records is reported, and the farewell follows. *)
Theorem quit_saves m line rest :
  stdin (world m) = line :: rest ->
  Spec.quits line = true ->
  denied (disk m) "donors.json" = None ->
  fst (main dumps repr m) = Finished
  /\ disk (snd (main dumps repr m)) =
     write_file "donors.json" (dumps (donors (world m))) (disk m)
  /\ donors (world (snd (main dumps repr m))) = donors (world m)
  /\ stdin (world (snd (main dumps repr m))) = rest
  /\ stdout (world (snd (main dumps repr m))) =
     stdout (world m) ++ main_turn
     ++ print (PyFloat.decimal (N.of_nat (length (donors (world m))))
               ++ " donor records saved.")%string
     ++ farewell.
Proof.
  intros Hin Hq Hd.
  assert (E : main dumps repr m =
              (Finished,
               emit farewell
                 (machine (snd (do_quit dumps
                                  (chosen {| machine := m; selection := None |} line rest)))))).
  { unfold main. rewrite main_loop_S. cbn [selection stays].
    rewrite (main_pass_quit dumps repr _ line rest) by assumption.
    destruct (do_quit_saves dumps (chosen {| machine := m; selection := None |} line rest) Hd)
      as (Hr & _ & Hs).
    change (selection (chosen _ line rest)) with (Some (lower (strip line))) in Hs.
    destruct (quit_tests _ Hq) as (_ & _ & Hc).
    destruct (do_quit dumps _) as [r f']. cbn [fst snd] in *. subst r.
    rewrite main_loop_S, Hs, Hc. reflexivity. }
  rewrite E. unfold do_quit, save_donor_file.
  cbn [chosen machine emit set_world disk]. rewrite Hd.
  cbn [fst snd]. repeat split.
  cbn [world emit set_world set_disk write set_stdout set_stdin stdout machine donors].
  now rewrite app_nil_r, <- !app_assoc.
Qed.

(** The choice [q] or [quit], when the donor file cannot be written and the
    global [mock] is not defined, ends the program by [NameError]: the two
    messages of the failed save are written, the test of [mock] raises, and
    the disk is as it was. *)
Theorem refused_quit_raises m line rest message :
  stdin (world m) = line :: rest ->
  Spec.quits line = true ->
  denied (disk m) "donors.json" = Some message ->
  mock m = None ->
  fst (main dumps repr m) = Failed (NameError "mock")
  /\ disk (snd (main dumps repr m)) = disk m
  /\ donors (world (snd (main dumps repr m))) = donors (world m)
  /\ stdout (world (snd (main dumps repr m))) =
     stdout (world m) ++ main_turn
     ++ print "Sorry, couldn't write the donor file!" ++ print message
     ++ print "Please resolve the issues with the donor file before exiting.".
Proof.
  intros Hin Hq Hd Hm. unfold main. rewrite main_loop_S. cbn [selection stays].
  rewrite (main_pass_quit dumps repr _ line rest) by assumption.
  unfold do_quit, save_donor_file.
  cbn [chosen machine emit set_world set_disk disk mock]. rewrite Hd.
  cbn [emit set_world set_disk disk mock]. rewrite Hm.
  cbn [fst snd machine]. repeat split.
  cbn [world emit set_world set_disk write set_stdout set_stdin stdout machine donors].
  now rewrite <- !app_assoc.
Qed.

(** With [mock] defined and false, the answer to the question that follows
    a failed save decides: an answer that contains [exit] leaves the program
    with the farewell, the store unsaved and the disk as it was. *)
Theorem abandon_by_exit m line answer rest message :
  stdin (world m) = line :: answer :: rest ->
  Spec.quits line = true ->
  denied (disk m) "donors.json" = Some message ->
  mock m = Some false ->
  contains "exit" (strip answer) = true ->
  fst (main dumps repr m) = Finished
  /\ disk (snd (main dumps repr m)) = disk m
  /\ donors (world (snd (main dumps repr m))) = donors (world m)
  /\ stdin (world (snd (main dumps repr m))) = rest.
Proof.
  intros Hin Hq Hd Hm Ha. unfold main. rewrite main_loop_S. cbn [selection stays].
  rewrite (main_pass_quit dumps repr _ line (answer :: rest)) by assumption.
  unfold do_quit, save_donor_file.
  cbn [chosen machine emit set_world set_disk disk mock]. rewrite Hd.
  cbn [emit set_world set_disk disk mock world write set_stdout set_stdin stdin]. rewrite Hm.
  cbn [safe_input selection]. rewrite Ha. cbn [negb].
  rewrite main_loop_S. cbn [selection].
  change (selection (chosen _ line (answer :: rest))) with (Some (lower (strip line))).
  destruct (quit_tests _ Hq) as (_ & _ & ->).
  cbn [fst snd]. repeat split.
Qed.

(** With [mock] defined and true, the question is not asked and its answer
    is the empty string, which does not contain [exit]: after a failed save
    the selection is cleared and the loop goes on, with the remaining input
    and the disk as they were. *)
Theorem mock_quit_stays f line rest message :
  stdin (world (machine f)) = line :: rest ->
  Spec.quits line = true ->
  denied (disk (machine f)) "donors.json" = Some message ->
  mock (machine f) = Some true ->
  fst (main_pass dumps repr f) = None
  /\ stays (selection (snd (main_pass dumps repr f))) = true
  /\ stdin (world (machine (snd (main_pass dumps repr f)))) = rest
  /\ disk (machine (snd (main_pass dumps repr f))) = disk (machine f)
  /\ donors (world (machine (snd (main_pass dumps repr f)))) = donors (world (machine f)).
Proof.
  intros Hin Hq Hd Hm.
  rewrite (main_pass_quit dumps repr _ line rest) by assumption.
  unfold do_quit, save_donor_file.
  cbn [chosen machine emit set_world set_disk disk mock]. rewrite Hd.
  cbn [emit set_world set_disk disk mock]. rewrite Hm.
  repeat split.
Qed.

(** Whatever is typed, [main] keeps the store: every donor it started with
    is at its index when it ends, with its donations and possibly more after
    them; and it reads the typed lines from the front only. *)
Theorem main_keeps_store m :
  Spec.store_extends (donors (world m)) (donors (world (snd (main dumps repr m))))
  /\ stdin (world (snd (main dumps repr m))) `suffix_of` stdin (world m).
Proof.
  destruct (main_loop_advances dumps repr (S (S (length (stdin (world m)))))
              {| machine := m; selection := None |}) as (A & _ & B & _).
  now split.
Qed.

(** On a store in which every donor has a donation, [main] never ends by a
    division by zero, whatever is typed, and the store it leaves is such a
    store again. *)
Theorem healthy_never_divides m :
  healthy (donors (world m)) ->
  division_free (fst (main dumps repr m)) = true
  /\ healthy (donors (world (snd (main dumps repr m)))).
Proof.
  intros H. split.
  - now apply main_fine.
  - now apply (main_loop_advances dumps repr (S (S (length (stdin (world m)))))
                 {| machine := m; selection := None |}).
Qed.

(** On a finite script of typed lines [main] ends in one of the program's
    own ways (the farewell, an uncaught exception, or the endless loop at the
    end of the input), never by [sys.exit]: every pass that goes on has read
    a line. *)
Theorem main_ends_properly m : main_ends (fst (main dumps repr m)) = true.
Proof. apply main_fine. Qed.

(** When the donor file can be written and no typed line is the choice [0],
    a run of [main] that ends by the farewell has saved its store: the donor
    file holds [json.dumps] of the store that [main] leaves. *)
Theorem finished_session_saved m :
  denied (disk m) "donors.json" = None ->
  Forall (fun line => not_zero line = true) (stdin (world m)) ->
  fst (main dumps repr m) = Finished ->
  donor_file (snd (main dumps repr m)) =
  Some (dumps (donors (world (snd (main dumps repr m))))).
Proof.
  intros Hd Hz. 
  apply (main_loop_saved dumps repr (S (S (length (stdin (world m)))))
           {| machine := m; selection := None |}); [exact Hz | exact Hd | now left].
Qed.

(** The program run as a script ends by [sys.exit] only from
    [load_donor_file]: the status is 1, the donor file exists and is
    unreadable or not valid JSON, no line has been read and the disk is as it
    was. *)
Theorem exit_status d lines clk global_mock code :
  fst (run dumps loads repr d lines clk global_mock) = Exited code ->
  code = 1
  /\ disk (snd (run dumps loads repr d lines clk global_mock)) = d
  /\ stdin (world (snd (run dumps loads repr d lines clk global_mock))) = lines
  /\ exists text,
       files d !! "donors.json" = Some text
       /\ (unreadable d "donors.json" = true \/ exists e, loads text = inl e).
Proof.
  unfold run, load_donor_file.
  destruct (files d !! "donors.json") as [text|] eqn:Hf.
  - destruct (unreadable d "donors.json") eqn:Hu.
    + intros [= <-]. repeat split. exists text. split; [reflexivity | now left].
    + destruct (loads text) as [e|ds] eqn:Hl.
      * intros [= <-]. repeat split. exists text. split; [reflexivity|].
        right. now exists e.
      * intros H. match type of H with fst (main _ _ ?m) = _ =>
                    destruct (main_fine dumps repr m) as [A _] end.
        rewrite H in A. discriminate.
  - intros H. match type of H with fst (main _ _ ?m) = _ =>
                destruct (main_fine dumps repr m) as [A _] end.
    rewrite H in A. discriminate.
Qed.

End MainProperties.

Section MainWitnesses.
Import PyStr PyFormat Mailroom Program ProgramSpec.

Lemma save_then_load_witness :
  denied (ProgramDemo.open_disk ∅) "donors.json" = None
  /\ unreadable (ProgramDemo.open_disk ∅) "donors.json" = false
  /\ ProgramDemo.loads
       (ProgramDemo.dumps [ProgramDemo.donor_of ProgramDemo.jane_doe [10%float]]) =
     inr [ProgramDemo.donor_of ProgramDemo.jane_doe [10%float]]
  /\ fst (save_donor_file ProgramDemo.dumps
            [ProgramDemo.donor_of ProgramDemo.jane_doe [10%float]]
            "donors.json" (ProgramDemo.open_disk ∅)) = ([], true)
  /\ load_donor_file ProgramDemo.loads "donors.json"
       (snd (save_donor_file ProgramDemo.dumps
               [ProgramDemo.donor_of ProgramDemo.jane_doe [10%float]]
               "donors.json" (ProgramDemo.open_disk ∅))) =
     ([], Donors [ProgramDemo.donor_of ProgramDemo.jane_doe [10%float]]).
Proof.
  refine (conj eq_refl (conj eq_refl (conj eq_refl _))).
  exact (save_then_load ProgramDemo.dumps ProgramDemo.loads
           [ProgramDemo.donor_of ProgramDemo.jane_doe [10%float]]
           "donors.json" (ProgramDemo.open_disk ∅) eq_refl eq_refl eq_refl).
Defined.

Lemma zero_leaves_unsaved_witness :
  stdin (world (ProgramDemo.at_menu [" 0 "; "q"])) = " 0 " :: ["q"]
  /\ lower (strip " 0 ") = "0"
  /\ fst (main ProgramDemo.dumps ProgramDemo.repr (ProgramDemo.at_menu [" 0 "; "q"])) = Finished
  /\ disk (snd (main ProgramDemo.dumps ProgramDemo.repr (ProgramDemo.at_menu [" 0 "; "q"]))) =
     disk (ProgramDemo.at_menu [" 0 "; "q"]).
Proof.
  refine (conj eq_refl (conj eq_refl _)).
  pose proof (zero_leaves_unsaved ProgramDemo.dumps ProgramDemo.repr
                (ProgramDemo.at_menu [" 0 "; "q"]) " 0 " ["q"] eq_refl eq_refl)
    as (A & B & _).
  exact (conj A B).
Defined.

Lemma quit_saves_witness :
  stdin (world (ProgramDemo.at_menu ["Quit"])) = "Quit" :: []
  /\ Spec.quits "Quit" = true
  /\ denied (disk (ProgramDemo.at_menu ["Quit"])) "donors.json" = None
  /\ fst (main ProgramDemo.dumps ProgramDemo.repr (ProgramDemo.at_menu ["Quit"])) = Finished
  /\ disk (snd (main ProgramDemo.dumps ProgramDemo.repr (ProgramDemo.at_menu ["Quit"]))) =
     write_file "donors.json"
       (ProgramDemo.dumps (donors (world (ProgramDemo.at_menu ["Quit"]))))
       (disk (ProgramDemo.at_menu ["Quit"])).
Proof.
  refine (conj eq_refl (conj eq_refl (conj eq_refl _))).
  pose proof (quit_saves ProgramDemo.dumps ProgramDemo.repr
                (ProgramDemo.at_menu ["Quit"]) "Quit" [] eq_refl eq_refl eq_refl)
    as (A & B & _).
  exact (conj A B).
Defined.

Lemma refused_quit_raises_witness :
  stdin (world (ProgramDemo.at_menu_locked None ["q"])) = "q" :: []
  /\ Spec.quits "q" = true
  /\ denied (disk (ProgramDemo.at_menu_locked None ["q"])) "donors.json" =
     Some "[Errno 13] Permission denied"
  /\ mock (ProgramDemo.at_menu_locked None ["q"]) = None
  /\ fst (main ProgramDemo.dumps ProgramDemo.repr (ProgramDemo.at_menu_locked None ["q"])) =
     Failed (NameError "mock").
Proof.
  refine (conj eq_refl (conj eq_refl (conj eq_refl (conj eq_refl _)))).
  exact (proj1 (refused_quit_raises ProgramDemo.dumps ProgramDemo.repr
                  (ProgramDemo.at_menu_locked None ["q"]) "q" []
                  "[Errno 13] Permission denied" eq_refl eq_refl eq_refl eq_refl)).
Defined.

Lemma abandon_by_exit_witness :
  stdin (world (ProgramDemo.at_menu_locked (Some false) ["q"; "exit now"])) =
  "q" :: "exit now" :: []
  /\ Spec.quits "q" = true
  /\ denied (disk (ProgramDemo.at_menu_locked (Some false) ["q"; "exit now"])) "donors.json" =
     Some "[Errno 13] Permission denied"
  /\ mock (ProgramDemo.at_menu_locked (Some false) ["q"; "exit now"]) = Some false
  /\ contains "exit" (strip "exit now") = true
  /\ fst (main ProgramDemo.dumps ProgramDemo.repr
            (ProgramDemo.at_menu_locked (Some false) ["q"; "exit now"])) = Finished.
Proof.
  refine (conj eq_refl (conj eq_refl (conj eq_refl (conj eq_refl (conj eq_refl _))))).
  exact (proj1 (abandon_by_exit ProgramDemo.dumps ProgramDemo.repr
                  (ProgramDemo.at_menu_locked (Some false) ["q"; "exit now"])
                  "q" "exit now" [] "[Errno 13] Permission denied"
                  eq_refl eq_refl eq_refl eq_refl eq_refl)).
Defined.

Lemma mock_quit_stays_witness :
  stdin (world (machine {| machine := ProgramDemo.at_menu_locked (Some true) ["q"; "0"];
                            selection := None |})) = "q" :: ["0"]
  /\ Spec.quits "q" = true
  /\ denied (disk (machine {| machine := ProgramDemo.at_menu_locked (Some true) ["q"; "0"];
                               selection := None |})) "donors.json" =
     Some "[Errno 13] Permission denied"
  /\ mock (machine {| machine := ProgramDemo.at_menu_locked (Some true) ["q"; "0"];
                       selection := None |}) = Some true
  /\ stays (selection
              (snd (main_pass ProgramDemo.dumps ProgramDemo.repr
                      {| machine := ProgramDemo.at_menu_locked (Some true) ["q"; "0"];
                         selection := None |}))) = true.
Proof.
  refine (conj eq_refl (conj eq_refl (conj eq_refl (conj eq_refl _)))).
  exact (proj1 (proj2 (mock_quit_stays ProgramDemo.dumps ProgramDemo.repr
                  {| machine := ProgramDemo.at_menu_locked (Some true) ["q"; "0"];
                     selection := None |}
                  "q" ["0"] "[Errno 13] Permission denied"
                  eq_refl eq_refl eq_refl eq_refl))).
Defined.

Lemma healthy_never_divides_witness :
  healthy (donors (world (ProgramDemo.at_menu ["l"; "e"; "Jane Doe"; "7"; "q"; "q"])))
  /\ division_free
       (fst (main ProgramDemo.dumps ProgramDemo.repr
               (ProgramDemo.at_menu ["l"; "e"; "Jane Doe"; "7"; "q"; "q"]))) = true.
Proof.
  assert (H : healthy (donors (world (ProgramDemo.at_menu
                                        ["l"; "e"; "Jane Doe"; "7"; "q"; "q"]))))
    by (repeat constructor).
  exact (conj H (proj1 (healthy_never_divides ProgramDemo.dumps ProgramDemo.repr _ H))).
Defined.

Lemma finished_session_saved_witness :
  denied (disk (ProgramDemo.at_menu ["d"; "q"])) "donors.json" = None
  /\ Forall (fun line => not_zero line = true) (stdin (world (ProgramDemo.at_menu ["d"; "q"])))
  /\ fst (main ProgramDemo.dumps ProgramDemo.repr (ProgramDemo.at_menu ["d"; "q"])) = Finished
  /\ donor_file (snd (main ProgramDemo.dumps ProgramDemo.repr (ProgramDemo.at_menu ["d"; "q"]))) =
     Some (ProgramDemo.dumps
             (donors (world (snd (main ProgramDemo.dumps ProgramDemo.repr
                                    (ProgramDemo.at_menu ["d"; "q"])))))).
Proof.
  assert (Hz : Forall (fun line => not_zero line = true)
                 (stdin (world (ProgramDemo.at_menu ["d"; "q"]))))
    by (repeat constructor).
  assert (Hf : fst (main ProgramDemo.dumps ProgramDemo.repr (ProgramDemo.at_menu ["d"; "q"])) =
               Finished)
    by (vm_compute; reflexivity).
  refine (conj eq_refl (conj Hz (conj Hf _))).
  exact (finished_session_saved ProgramDemo.dumps ProgramDemo.repr
           (ProgramDemo.at_menu ["d"; "q"]) eq_refl Hz Hf).
Defined.

Lemma exit_status_witness :
  fst (run ProgramDemo.dumps ProgramDemo.loads ProgramDemo.repr
         ProgramDemo.corrupt_disk ["q"] Demo.noon None) = Exited 1
  /\ 1 = 1
  /\ disk (snd (run ProgramDemo.dumps ProgramDemo.loads ProgramDemo.repr
                  ProgramDemo.corrupt_disk ["q"] Demo.noon None)) = ProgramDemo.corrupt_disk
  /\ stdin (world (snd (run ProgramDemo.dumps ProgramDemo.loads ProgramDemo.repr
                          ProgramDemo.corrupt_disk ["q"] Demo.noon None))) = ["q"].
Proof.
  assert (H : fst (run ProgramDemo.dumps ProgramDemo.loads ProgramDemo.repr
                     ProgramDemo.corrupt_disk ["q"] Demo.noon None) = Exited 1)
    by (vm_compute; reflexivity).
  pose proof (exit_status ProgramDemo.dumps ProgramDemo.loads ProgramDemo.repr _ _ _ _ _ H)
    as (A & B & C & _).
  exact (conj H (conj A (conj B C))).
Defined.

End MainWitnesses.

(** ** The tokens of a name *)

Section NameTokens.
Import PyStr Mailroom.

Lemma split_blank_cons c s : is_space c = true -> split (String c s) = split s.
Proof. intros H. rewrite split_cons. now rewrite H. Qed.

(** A word followed by a blank is the first token. *)
Lemma split_word_app x rest :
  is_word x = true -> split (x ++ String " " rest) = x :: split rest.
Proof.
  induction x as [|c x IH]; [discriminate|].
  unfold is_word, no_blank. simpl all_chars. intros H.
  apply andb_prop in H as [Hc Hx]. apply negb_true_iff in Hc.
  change (String c x ++ String " " rest)%string with (String c (x ++ String " " rest)).
  rewrite split_cons, Hc.
  destruct x as [|c' x].
  - simpl. reflexivity.
  - assert (Hw : is_word (String c' x) = true) by exact Hx.
    rewrite (IH Hw).
    simpl in Hx. apply andb_prop in Hx as [Hc' _].
    change (String c' x ++ String " " rest)%string with (String c' (x ++ String " " rest)).
    cbn [starts_word]. now rewrite Hc'.
Qed.

Lemma split_word x : is_word x = true -> split x = [x].
Proof.
  induction x as [|c x IH]; [discriminate|].
  unfold is_word, no_blank. simpl all_chars. intros H.
  apply andb_prop in H as [Hc Hx]. apply negb_true_iff in Hc.
  rewrite split_cons, Hc.
  destruct x as [|c' x]; [reflexivity|].
  assert (Hw : is_word (String c' x) = true) by exact Hx.
  rewrite (IH Hw).
  simpl in Hx. apply andb_prop in Hx as [Hc' _].
  cbn [starts_word]. now rewrite Hc'.
Qed.

(** Words joined by single blanks are split into these words. *)
Lemma split_join l :
  Forall (fun t => is_word t = true) l -> split (join " " l) = l.
Proof.
  induction l as [|x l IH]; intros H; [reflexivity|].
  inversion H as [|? ? Hx Hl]; subst.
  destruct l as [|y l]; [now apply split_word|].
  change (join " " (x :: y :: l)) with (x ++ String " " (join " " (y :: l)))%string.
  rewrite (split_word_app _ _ Hx). f_equal. now apply IH.
Qed.

Lemma Forall_removelast {A} (P : A -> Prop) l : Forall P l -> Forall P (removelast l).
Proof.
  induction 1 as [|x l Hx Hl IH]; [constructor|].
  destruct l; [constructor|]. simpl. constructor; [exact Hx | exact IH].
Qed.

(** In the ASCII embedding the first and the last name that [parse_name]
    returns hold the tokens of the informal name, one after the other. *)
Lemma name_parts_are_tokens_ascii raw p :
  parse_name raw = Ok p ->
  split (first_name p) ++ [last_name p] = split (informal_name p).
Proof.
  intros H. apply parse_name_refines in H as Hp.
  rewrite parse_name_eq in H. cbv zeta in H.
  destruct (last (split (informal_name (Spec.parse raw)))) as [l|] eqn:Hl; [|discriminate].
  subst p. unfold Spec.parse in *. cbn [informal_name first_name last_name] in *.
  rewrite Hl. cbn [default].
  rewrite split_join by (apply Forall_removelast, split_words).
  apply last_Some in Hl as [l' Hl]. rewrite Hl.
  now rewrite removelast_last.
Qed.

End NameTokens.

(** ** From one session to the next *)

Section NextSession.
Import PyStr PyFormat Mailroom Program ProgramSpec.

Variable dumps : list Donor -> string.
Variable loads : string -> string + list Donor.
Variable repr : list Donor -> string.

(** What a session leaves, the next one finds: when the donor file can be
    written and read, no typed line is the choice [0], [main] ends by the
    farewell and [json.load] inverts [json.dumps] on the store that [main]
    leaves, [load_donor_file] on the disk that [main] leaves prints nothing
    and returns that store. *)
Theorem next_session_resumes m :
  denied (disk m) "donors.json" = None ->
  unreadable (disk m) "donors.json" = false ->
  Forall (fun line => not_zero line = true) (stdin (world m)) ->
  fst (main dumps repr m) = Finished ->
  loads (dumps (donors (world (snd (main dumps repr m))))) =
  inr (donors (world (snd (main dumps repr m)))) ->
  load_donor_file loads "donors.json" (disk (snd (main dumps repr m))) =
  ([], Donors (donors (world (snd (main dumps repr m))))).
Proof.
  intros Hd Hu Hz Hf Hl.
  pose proof (main_loop_saved dumps repr (S (S (length (stdin (world m)))))
                {| machine := m; selection := None |} Hz Hd (or_introl eq_refl) Hf) as Hs.
  destruct (main_loop_advances dumps repr (S (S (length (stdin (world m)))))
              {| machine := m; selection := None |}) as (_ & _ & _ & _ & U & _).
  fold (main dumps repr m) in Hs, U. unfold donor_file in Hs.
  unfold load_donor_file. rewrite Hs, U. cbn [machine]. now rewrite Hu, Hl.
Qed.

End NextSession.

Section NextSessionWitness.
Import PyStr PyFormat Mailroom Program ProgramSpec.

Lemma next_session_resumes_witness :
  load_donor_file ProgramDemo.loads "donors.json"
    (disk (snd (main ProgramDemo.dumps ProgramDemo.repr
                  (ProgramDemo.machine_of
                     [ProgramDemo.donor_of ProgramDemo.jane_doe [10%float]]
                     (ProgramDemo.open_disk ∅) None ["d"; "q"])))) =
  ([], Donors (donors (world (snd (main ProgramDemo.dumps ProgramDemo.repr
                                    (ProgramDemo.machine_of
                                       [ProgramDemo.donor_of ProgramDemo.jane_doe [10%float]]
                                       (ProgramDemo.open_disk ∅) None ["d"; "q"]))))))
  /\ donors (world (snd (main ProgramDemo.dumps ProgramDemo.repr
                           (ProgramDemo.machine_of
                              [ProgramDemo.donor_of ProgramDemo.jane_doe [10%float]]
                              (ProgramDemo.open_disk ∅) None ["d"; "q"])))) =
     [ProgramDemo.donor_of ProgramDemo.jane_doe [10%float]].
Proof.
  assert (Hz : Forall (fun line => not_zero line = true)
                 (stdin (world (ProgramDemo.machine_of
                                  [ProgramDemo.donor_of ProgramDemo.jane_doe [10%float]]
                                  (ProgramDemo.open_disk ∅) None ["d"; "q"]))))
    by (repeat constructor).
  assert (Hf : fst (main ProgramDemo.dumps ProgramDemo.repr
                      (ProgramDemo.machine_of
                         [ProgramDemo.donor_of ProgramDemo.jane_doe [10%float]]
                         (ProgramDemo.open_disk ∅) None ["d"; "q"])) = Finished)
    by (vm_compute; reflexivity).
  assert (Hs : donors (world (snd (main ProgramDemo.dumps ProgramDemo.repr
                           (ProgramDemo.machine_of
                              [ProgramDemo.donor_of ProgramDemo.jane_doe [10%float]]
                              (ProgramDemo.open_disk ∅) None ["d"; "q"])))) =
               [ProgramDemo.donor_of ProgramDemo.jane_doe [10%float]])
    by (vm_compute; reflexivity).
  assert (Hl : ProgramDemo.loads
                 (ProgramDemo.dumps
                    (donors (world (snd (main ProgramDemo.dumps ProgramDemo.repr
                           (ProgramDemo.machine_of
                              [ProgramDemo.donor_of ProgramDemo.jane_doe [10%float]]
                              (ProgramDemo.open_disk ∅) None ["d"; "q"])))))) =
               inr (donors (world (snd (main ProgramDemo.dumps ProgramDemo.repr
                           (ProgramDemo.machine_of
                              [ProgramDemo.donor_of ProgramDemo.jane_doe [10%float]]
                              (ProgramDemo.open_disk ∅) None ["d"; "q"]))))))
    by (vm_compute; reflexivity).
  split; [|exact Hs].
  exact (next_session_resumes ProgramDemo.dumps ProgramDemo.loads ProgramDemo.repr
           (ProgramDemo.machine_of
              [ProgramDemo.donor_of ProgramDemo.jane_doe [10%float]]
              (ProgramDemo.open_disk ∅) None ["d"; "q"]) eq_refl eq_refl Hz Hf Hl).
Defined.

End NextSessionWitness.

(** ** ASCII text: the two embeddings of the [str] methods agree *)

Section AsciiText.
Import PyStr UnicodeName.

(** On an ASCII character the tables of [Unicode] give what the ASCII
    embedding computes. *)
Lemma ascii7_char a :
  ascii7 a = true ->
  Unicode.is_space (N_of_ascii a) = is_space a
  /\ Unicode.is_cased (N_of_ascii a) = is_cased a
  /\ Unicode.to_lower_full (N_of_ascii a) = [N_of_ascii (to_lower a)]
  /\ Unicode.to_upper_full (N_of_ascii a) = [N_of_ascii (to_upper a)]
  /\ Unicode.to_title_full (N_of_ascii a) = [N_of_ascii (to_upper a)]
  /\ N.eqb (N_of_ascii a) 931 = false
  /\ ascii7 (to_lower a) = true
  /\ ascii7 (to_upper a) = true.
Proof.
  destruct a as [[] [] [] [] [] [] [] []]; intros H;
    try (vm_compute in H; discriminate H); vm_compute; repeat split.
Qed.

Lemma comma_char a : N.eqb (N_of_ascii a) comma = Ascii.eqb a ",".
Proof. destruct a as [[] [] [] [] [] [] [] []]; reflexivity. Qed.

Lemma of_string_cons c s :
  Unicode.of_string (String c s) = N_of_ascii c :: Unicode.of_string s.
Proof. reflexivity. Qed.

Lemma of_string_app a b :
  Unicode.of_string (a ++ b) = Unicode.of_string a ++ Unicode.of_string b.
Proof.
  induction a as [|c a IH]; [reflexivity|].
  change (String c a ++ b)%string with (String c (a ++ b)).
  rewrite !of_string_cons, IH. reflexivity.
Qed.

Lemma of_string_nil s : Unicode.of_string s = [] -> s = EmptyString.
Proof. now destruct s. Qed.

Lemma of_string_inj a : forall b, Unicode.of_string a = Unicode.of_string b -> a = b.
Proof.
  induction a as [|c a IH]; intros [|d b] H; try discriminate; [reflexivity|].
  rewrite !of_string_cons in H. injection H as Hc Hs.
  f_equal; [|now apply IH].
  rewrite <- (ascii_N_embedding c), <- (ascii_N_embedding d). now rewrite Hc.
Qed.

Lemma eqb_of_string a :
  forall b, Unicode.eqb (Unicode.of_string a) (Unicode.of_string b) = String.eqb a b.
Proof.
  induction a as [|c a IH]; intros [|d b]; try reflexivity.
  rewrite !of_string_cons. simpl. rewrite IH.
  destruct (Ascii.eqb c d) eqn:E.
  - apply Ascii.eqb_eq in E. subst. now rewrite N.eqb_refl.
  - destruct (N.eqb_spec (N_of_ascii c) (N_of_ascii d)) as [H|H]; [|reflexivity].
    apply Ascii.eqb_neq in E. exfalso. apply E.
    rewrite <- (ascii_N_embedding c), <- (ascii_N_embedding d). now rewrite H.
Qed.

Lemma ascii_string_cons c s :
  ascii_string (String c s) = ascii7 c && ascii_string s.
Proof. reflexivity. Qed.

Lemma ascii_string_app a b :
  ascii_string (a ++ b) = ascii_string a && ascii_string b.
Proof.
  induction a as [|c a IH]; [reflexivity|].
  change (String c a ++ b)%string with (String c (a ++ b)).
  rewrite !ascii_string_cons, IH. now rewrite andb_assoc.
Qed.

Lemma is_ascii_of_string s : Unicode.is_ascii (Unicode.of_string s) = ascii_string s.
Proof. induction s as [|c s IH]; [reflexivity|]. rewrite of_string_cons. simpl. now rewrite IH. Qed.

(** An ASCII text is the text of a string. *)
Lemma of_to_string t :
  Unicode.is_ascii t = true -> Unicode.of_string (Unicode.to_string t) = t.
Proof.
  induction t as [|c t IH]; [reflexivity|]. simpl. intros H.
  apply andb_prop in H as [Hc Ht]. apply N.ltb_lt in Hc.
  unfold Unicode.to_string in *. simpl. rewrite of_string_cons. rewrite (IH Ht).
  f_equal. apply N_ascii_embedding. lia.
Qed.

Ltac ascii_cons H Hc Hs :=
  rewrite ascii_string_cons in H; apply andb_prop in H as [Hc Hs].

(** *** [lower], [upper] and [title] *)

Lemma lower_ascii s :
  ascii_string s = true ->
  forall before, Unicode.lower_from before (Unicode.of_string s) = Unicode.of_string (lower s).
Proof.
  induction s as [|c s IH]; intros H before; [reflexivity|].
  ascii_cons H Hc Hs. destruct (ascii7_char c Hc) as (_ & _ & Hl & _ & _ & Hsig & _).
  rewrite of_string_cons. simpl Unicode.lower_from. unfold Unicode.lower_ucs4.
  rewrite Hsig, Hl, (IH Hs). reflexivity.
Qed.

Lemma upper_ascii s :
  ascii_string s = true -> Unicode.upper (Unicode.of_string s) = Unicode.of_string (upper s).
Proof.
  induction s as [|c s IH]; intros H; [reflexivity|].
  ascii_cons H Hc Hs. destruct (ascii7_char c Hc) as (_ & _ & _ & Hu & _).
  rewrite of_string_cons. simpl Unicode.upper. rewrite Hu, (IH Hs). reflexivity.
Qed.

Lemma title_from_ascii s :
  ascii_string s = true ->
  forall before b,
    Unicode.title_from before b (Unicode.of_string s) = Unicode.of_string (title_from b s).
Proof.
  induction s as [|c s IH]; intros H before b; [reflexivity|].
  ascii_cons H Hc Hs.
  destruct (ascii7_char c Hc) as (_ & Hcased & Hl & _ & Ht & Hsig & _).
  rewrite of_string_cons. simpl Unicode.title_from. unfold Unicode.lower_ucs4.
  rewrite Hsig, Hl, Ht, Hcased, (IH Hs). now destruct b.
Qed.

Lemma title_ascii s :
  ascii_string s = true -> Unicode.title (Unicode.of_string s) = Unicode.of_string (title s).
Proof. intros H. now apply title_from_ascii. Qed.

Lemma lower_keeps_ascii s : ascii_string s = true -> ascii_string (lower s) = true.
Proof.
  induction s as [|c s IH]; intros H; [reflexivity|].
  ascii_cons H Hc Hs. destruct (ascii7_char c Hc) as (_ & _ & _ & _ & _ & _ & Hl & _).
  simpl. now rewrite ascii_string_cons, Hl, (IH Hs).
Qed.

Lemma upper_keeps_ascii s : ascii_string s = true -> ascii_string (upper s) = true.
Proof.
  induction s as [|c s IH]; intros H; [reflexivity|].
  ascii_cons H Hc Hs. destruct (ascii7_char c Hc) as (_ & _ & _ & _ & _ & _ & _ & Hu).
  simpl. now rewrite ascii_string_cons, Hu, (IH Hs).
Qed.

Lemma title_keeps_ascii s :
  ascii_string s = true -> forall b, ascii_string (title_from b s) = true.
Proof.
  induction s as [|c s IH]; intros H b; [reflexivity|].
  ascii_cons H Hc Hs. destruct (ascii7_char c Hc) as (_ & _ & _ & _ & _ & _ & Hl & Hu).
  simpl. rewrite ascii_string_cons, (IH Hs). unfold title_char.
  now destruct b; rewrite ?Hl, ?Hu.
Qed.

(** *** [strip] *)

Lemma lstrip_ascii s :
  ascii_string s = true ->
  Unicode.lstrip (Unicode.of_string s) = Unicode.of_string (lstrip s)
  /\ ascii_string (lstrip s) = true.
Proof.
  induction s as [|c s IH]; intros H; [now split|].
  pose proof H as H0. ascii_cons H Hc Hs. destruct (ascii7_char c Hc) as (Hsp & _).
  rewrite of_string_cons. simpl. rewrite Hsp.
  destruct (is_space c); [now apply IH | now split].
Qed.

Lemma rstrip_ascii s :
  ascii_string s = true ->
  Unicode.rstrip (Unicode.of_string s) = Unicode.of_string (rstrip s)
  /\ ascii_string (rstrip s) = true.
Proof.
  induction s as [|c s IH]; intros H; [now split|].
  ascii_cons H Hc Hs. destruct (ascii7_char c Hc) as (Hsp & _).
  destruct (IH Hs) as [IH1 IH2].
  rewrite of_string_cons. simpl. rewrite IH1, Hsp.
  destruct (rstrip s) as [|d r] eqn:E.
  - simpl. destruct (is_space c); [now split|]. split; [reflexivity|].
    now rewrite ascii_string_cons, Hc.
  - rewrite of_string_cons. split; [reflexivity|].
    now rewrite ascii_string_cons, Hc, IH2.
Qed.

Lemma strip_ascii s :
  ascii_string s = true ->
  Unicode.strip (Unicode.of_string s) = Unicode.of_string (strip s)
  /\ ascii_string (strip s) = true.
Proof.
  intros H. unfold Unicode.strip, strip.
  destruct (rstrip_ascii s H) as [E1 H1]. rewrite E1. now apply lstrip_ascii.
Qed.

(** *** [split] and [join] *)

Lemma split_on_ascii s :
  ascii_string s = true ->
  Unicode.split_on comma (Unicode.of_string s) = map Unicode.of_string (split_on "," s)
  /\ Forall (fun p => ascii_string p = true) (split_on "," s).
Proof.
  induction s as [|c s IH]; intros H; [split; [reflexivity | repeat constructor]|].
  ascii_cons H Hc Hs. destruct (IH Hs) as [IH1 IH2].
  rewrite of_string_cons. simpl. rewrite comma_char, IH1.
  destruct (Ascii.eqb c ","); [split; [reflexivity | now constructor]|].
  destruct (split_on "," s) as [|p ps]; simpl.
  - split; [reflexivity|]. constructor; [|constructor]. now rewrite ascii_string_cons, Hc.
  - inversion IH2 as [|? ? Hp Hps]; subst. split; [reflexivity|].
    constructor; [|exact Hps]. now rewrite ascii_string_cons, Hc, Hp.
Qed.

Lemma starts_word_ascii s :
  ascii_string s = true -> Unicode.starts_word (Unicode.of_string s) = starts_word s.
Proof.
  destruct s as [|c s]; [reflexivity|]. intros H. ascii_cons H Hc Hs.
  destruct (ascii7_char c Hc) as (Hsp & _). rewrite of_string_cons. simpl. now rewrite Hsp.
Qed.

Lemma split_ascii s :
  ascii_string s = true ->
  Unicode.split (Unicode.of_string s) = map Unicode.of_string (split s)
  /\ Forall (fun t => ascii_string t = true) (split s).
Proof.
  induction s as [|c s IH]; intros H; [split; [reflexivity | constructor]|].
  ascii_cons H Hc Hs. destruct (IH Hs) as [IH1 IH2].
  destruct (ascii7_char c Hc) as (Hsp & _).
  rewrite of_string_cons. simpl. rewrite Hsp, (starts_word_ascii s Hs), IH1.
  destruct (is_space c); [now split|].
  assert (Hone : ascii_string (String c EmptyString) = true)
    by now rewrite ascii_string_cons, Hc.
  destruct (starts_word s).
  - destruct (split s) as [|t ts]; simpl.
    + split; [reflexivity|]. now repeat constructor.
    + inversion IH2 as [|? ? Ht Hts]; subst. split; [reflexivity|].
      constructor; [|exact Hts]. now rewrite ascii_string_cons, Hc, Ht.
  - split; [reflexivity|]. now constructor.
Qed.

Lemma join_of_string sep l :
  Unicode.join (Unicode.of_string sep) (map Unicode.of_string l) = Unicode.of_string (join sep l).
Proof.
  induction l as [|x l IH]; [reflexivity|].
  destruct l as [|y l]; [reflexivity|].
  change (join sep (x :: y :: l)) with (x ++ sep ++ join sep (y :: l))%string.
  rewrite !of_string_app, <- IH. reflexivity.
Qed.

Lemma join_keeps_ascii sep l :
  ascii_string sep = true ->
  Forall (fun t => ascii_string t = true) l ->
  ascii_string (join sep l) = true.
Proof.
  intros Hsep. induction 1 as [|x l Hx Hl IH]; [reflexivity|].
  destruct l as [|y l]; [exact Hx|].
  change (join sep (x :: y :: l)) with (x ++ sep ++ join sep (y :: l))%string.
  now rewrite !ascii_string_app, Hx, Hsep, IH.
Qed.

(** *** [parse_name] *)

Lemma last_map {A B} (f : A -> B) l : last (map f l) = option_map f (last l).
Proof.
  induction l as [|x l IH]; [reflexivity|].
  destruct l as [|y l]; [reflexivity|].
  change (last (map f (x :: y :: l))) with (last (map f (y :: l))).
  change (last (x :: y :: l)) with (last (y :: l)). exact IH.
Qed.

Lemma Forall_last {A} (P : A -> Prop) l x : Forall P l -> last l = Some x -> P x.
Proof.
  intros H Hl. rewrite Forall_forall in H. apply H.
  eapply last_Some_elem_of. exact Hl.
Qed.

(** The suffix and the remainder of an ASCII name. *)
Lemma suffix_ascii raw :
  ascii_string raw = true ->
  match Unicode.split_on comma (Unicode.of_string raw) with
  | _ :: p :: _ => Unicode.upper (Unicode.strip p)
  | _ => []
  end = Unicode.of_string (Mailroom.suffix (Spec.parse raw))
  /\ ascii_string (Mailroom.suffix (Spec.parse raw)) = true.
Proof.
  intros H. destruct (split_on_ascii raw H) as [E Hp]. rewrite E.
  unfold Spec.parse. cbn [Mailroom.suffix].
  destruct (split_on "," raw) as [|p0 [|p1 ps]]; [now split | now split|].
  inversion Hp as [|? ? _ Hps]; subst. inversion Hps as [|? ? Hp1 _]; subst.
  cbn [map]. destruct (strip_ascii p1 Hp1) as [E1 H1].
  rewrite E1, (upper_ascii _ H1). split; [reflexivity | now apply upper_keeps_ascii].
Qed.

Lemma informal_ascii raw :
  ascii_string raw = true ->
  Unicode.title (Unicode.strip (hd [] (Unicode.split_on comma (Unicode.of_string raw))))
  = Unicode.of_string (Mailroom.informal_name (Spec.parse raw))
  /\ ascii_string (Mailroom.informal_name (Spec.parse raw)) = true.
Proof.
  intros H. destruct (split_on_ascii raw H) as [E Hp]. rewrite E.
  unfold Spec.parse. cbn [Mailroom.informal_name].
  assert (Hh : ascii_string (hd EmptyString (split_on "," raw)) = true).
  { destruct Hp; [reflexivity | assumption]. }
  replace (hd [] (map Unicode.of_string (split_on "," raw)))
    with (Unicode.of_string (hd EmptyString (split_on "," raw)))
    by now destruct (split_on "," raw).
  destruct (strip_ascii _ Hh) as [E1 H1].
  rewrite E1, (title_ascii _ H1). split; [reflexivity | now apply title_keeps_ascii].
Qed.

(** On ASCII text [UnicodeName.parse_name] returns what [Mailroom.parse_name]
    returns. *)
Lemma parse_name_ascii raw :
  ascii_string raw = true ->
  parse_name (Unicode.of_string raw) =
  match Mailroom.parse_name raw with
  | Mailroom.Ok p => Mailroom.Ok (of_parts p)
  | Mailroom.Raise e => Mailroom.Raise e
  end.
Proof.
  intros H. rewrite parse_name_eq. cbv zeta. unfold parse_name.
  destruct (suffix_ascii raw H) as [-> Hsuf].
  destruct (informal_ascii raw H) as [-> Hinf].
  destruct (split_ascii _ Hinf) as [-> Htok].
  rewrite last_map.
  destruct (last (split (Mailroom.informal_name (Spec.parse raw)))) as [l|] eqn:Hl;
    [|reflexivity].
  cbn [option_map]. f_equal. unfold of_parts.
  cbn [Mailroom.full_name Mailroom.informal_name Mailroom.suffix Mailroom.last_name
       Mailroom.first_name].
  assert (Hla : ascii_string l = true)
    by exact (Forall_last _ _ _ Htok Hl).
  destruct (strip_ascii l Hla) as [-> Hls].
  rewrite (title_ascii _ Hls).
  rewrite removelast_map, join_of_string.
  rewrite title_ascii
    by (apply join_keeps_ascii; [reflexivity | now apply Forall_removelast]).
  change (@nil N) with (Unicode.of_string EmptyString) at 1.
  rewrite eqb_of_string.
  f_equal.
  destruct (String.eqb _ EmptyString); [reflexivity|].
  cbn [negb]. 
  change [Unicode.of_string (Mailroom.informal_name (Spec.parse raw));
          Unicode.of_string (Mailroom.suffix (Spec.parse raw))]
    with (map Unicode.of_string [Mailroom.informal_name (Spec.parse raw);
                                 Mailroom.suffix (Spec.parse raw)]).
  now rewrite join_of_string.
Qed.


(** The parser of the specification, on ASCII text. *)
Lemma parse_ascii raw :
  ascii_string raw = true -> parse (Unicode.of_string raw) = of_parts (Spec.parse raw).
Proof.
  intros H. unfold parse.
  destruct (suffix_ascii raw H) as [-> Hsuf].
  destruct (informal_ascii raw H) as [-> Hinf].
  destruct (split_ascii _ Hinf) as [-> Htok].
  unfold of_parts, Spec.parse at 3 4 5.
  cbn [Mailroom.full_name Mailroom.informal_name Mailroom.suffix Mailroom.last_name
       Mailroom.first_name].
  rewrite last_map, removelast_map, join_of_string.
  change (@nil N) with (Unicode.of_string EmptyString) at 1.
  rewrite eqb_of_string.
  f_equal.
  - unfold Spec.parse. cbn [Mailroom.full_name Mailroom.informal_name Mailroom.suffix].
    destruct (String.eqb _ EmptyString); [reflexivity|].
    now rewrite !of_string_app.
  - unfold Spec.parse. cbn [Mailroom.informal_name].
    now destruct (last _).
Qed.

End AsciiText.

(** ** The name parser on any text: claims C4 and C10 *)

Section UnicodeTokens.
Import Unicode.

(** A token: not empty and without whitespace. *)
Lemma usplit_cons c s :
  split (c :: s) =
  if is_space c then split s
  else if starts_word s then
         match split s with
         | t :: ts => (c :: t) :: ts
         | [] => [[c]]
         end
       else [c] :: split s.
Proof. reflexivity. Qed.

Lemma usplit_tokens s :
  Forall (fun t => t <> [] /\ forallb (fun c => negb (is_space c)) t = true) (split s).
Proof.
  induction s as [|c s IH]; [constructor|].
  rewrite usplit_cons.
  destruct (is_space c) eqn:Ec; [exact IH|].
  destruct (starts_word s).
  - destruct (split s) as [|t ts].
    + constructor; [|constructor]. split; [discriminate|]. simpl. now rewrite Ec.
    + inversion IH as [|? ? [_ Ht] Hts]; subst.
      constructor; [|exact Hts]. split; [discriminate|]. simpl. now rewrite Ec, Ht.
  - constructor; [|exact IH]. split; [discriminate|]. simpl. now rewrite Ec.
Qed.

Lemma urstrip_token t :
  forallb (fun c => negb (is_space c)) t = true -> rstrip t = t.
Proof.
  induction t as [|c t IH]; [reflexivity|].
  simpl. intros H. apply andb_prop in H as [Hc Ht]. apply negb_true_iff in Hc.
  rewrite (IH Ht). destruct t; [now rewrite Hc | reflexivity].
Qed.

Lemma ustrip_token t :
  forallb (fun c => negb (is_space c)) t = true -> strip t = t.
Proof.
  intros H. unfold strip. rewrite (urstrip_token _ H).
  destruct t as [|c t]; [reflexivity|].
  simpl in H. apply andb_prop in H as [Hc _]. apply negb_true_iff in Hc.
  simpl. now rewrite Hc.
Qed.

End UnicodeTokens.

Section UnicodeNames.
Import UnicodeName.

Lemma to_string_ascii t :
  Unicode.is_ascii t = true -> ascii_string (Unicode.to_string t) = true.
Proof.
  intros H. rewrite <- is_ascii_of_string. now rewrite (of_to_string t H).
Qed.

(** What [parse_name] returns on an ASCII text: the parts that the ASCII
    embedding returns on the same characters. *)
Lemma parse_name_of_ascii raw p :
  Unicode.is_ascii raw = true ->
  parse_name raw = Mailroom.Ok p ->
  exists s p0,
    raw = Unicode.of_string s /\ ascii_string s = true
    /\ Mailroom.parse_name s = Mailroom.Ok p0 /\ p = of_parts p0.
Proof.
  intros Ha H. exists (Unicode.to_string raw).
  pose proof (to_string_ascii raw Ha) as Hs.
  pose proof (parse_name_ascii _ Hs) as E.
  rewrite (of_to_string raw Ha), H in E.
  destruct (Mailroom.parse_name (Unicode.to_string raw)) as [p0|e]; [|discriminate].
  exists p0. injection E as ->. now rewrite (of_to_string raw Ha).
Qed.

(** C4.  Name-parse postcondition.  For every text on which [parse_name]
    returns, the suffix, the remainder and the full name are what the
    specification's parser describes: the part after the comma, stripped and
    upper-cased, is the suffix (empty without a comma); the part before it,
    stripped and title-cased, is the remainder; and [full_name] is the
    remainder, followed by a comma, a blank and the suffix when there is one.
    The last name is the last token of the remainder title-cased once more,
    and the first name the tokens before it, joined by single blanks and
    title-cased once more.  For a name typed in ASCII characters the second
    title-casing changes nothing, and all the parts are those of the
    specification's parser.  In particular the two names of the
    specification parse as it says. *)
Theorem parse_name_postcondition :
  (forall raw p,
      parse_name raw = Mailroom.Ok p ->
      suffix p = suffix (parse raw)
      /\ informal_name p = informal_name (parse raw)
      /\ full_name p = full_name (parse raw)
      /\ last_name p = Unicode.title (last_name (parse raw))
      /\ first_name p = Unicode.title (first_name (parse raw)))
  /\ (forall raw p,
        Unicode.is_ascii raw = true -> parse_name raw = Mailroom.Ok p -> p = parse raw)
  /\ parse_name (Unicode.of_string "Jane Doe")
     = Mailroom.Ok
         {| full_name := Unicode.of_string "Jane Doe";
            informal_name := Unicode.of_string "Jane Doe"; suffix := [];
            last_name := Unicode.of_string "Doe"; first_name := Unicode.of_string "Jane" |}
  /\ parse_name (Unicode.of_string "John Smith, Jr")
     = Mailroom.Ok
         {| full_name := Unicode.of_string "John Smith, JR";
            informal_name := Unicode.of_string "John Smith";
            suffix := Unicode.of_string "JR";
            last_name := Unicode.of_string "Smith"; first_name := Unicode.of_string "John" |}.
Proof.
  split; [|split; [|split; vm_compute; reflexivity]].
  - intros raw p. unfold parse_name, parse.
    destruct (last (Unicode.split _)) as [l|] eqn:Hl; [|discriminate].
    intros [= <-]. cbn [suffix informal_name full_name last_name first_name default].
    repeat split.
    + now destruct (Unicode.eqb _ []).
    + f_equal. apply ustrip_token.
      pose proof (usplit_tokens
                    (Unicode.title
                       (Unicode.strip (hd [] (Unicode.split_on comma raw))))) as Ht.
      rewrite Forall_forall in Ht. apply Ht.
      eapply last_Some_elem_of. exact Hl.
  - intros raw p Ha H.
    destruct (parse_name_of_ascii raw p Ha H) as (s & p0 & -> & Hs & Hp0 & ->).
    rewrite (parse_ascii s Hs). f_equal. now apply parse_name_refines.
Qed.

Lemma parse_name_postcondition_witness :
  Unicode.is_ascii (Unicode.of_string "  mary  ann   o'neil ,  iii, esq") = true
  /\ parse_name (Unicode.of_string "  mary  ann   o'neil ,  iii, esq") =
     Mailroom.Ok (of_parts
                    {| Mailroom.full_name := "Mary  Ann   O'Neil, III";
                       Mailroom.informal_name := "Mary  Ann   O'Neil";
                       Mailroom.suffix := "III"; Mailroom.last_name := "O'Neil";
                       Mailroom.first_name := "Mary Ann" |})
  /\ of_parts
       {| Mailroom.full_name := "Mary  Ann   O'Neil, III";
          Mailroom.informal_name := "Mary  Ann   O'Neil";
          Mailroom.suffix := "III"; Mailroom.last_name := "O'Neil";
          Mailroom.first_name := "Mary Ann" |}
     = parse (Unicode.of_string "  mary  ann   o'neil ,  iii, esq").
Proof.
  assert (Ha : Unicode.is_ascii (Unicode.of_string "  mary  ann   o'neil ,  iii, esq") = true)
    by (vm_compute; reflexivity).
  assert (Hp : parse_name (Unicode.of_string "  mary  ann   o'neil ,  iii, esq") =
               Mailroom.Ok (of_parts
                    {| Mailroom.full_name := "Mary  Ann   O'Neil, III";
                       Mailroom.informal_name := "Mary  Ann   O'Neil";
                       Mailroom.suffix := "III"; Mailroom.last_name := "O'Neil";
                       Mailroom.first_name := "Mary Ann" |}))
    by (vm_compute; reflexivity).
  exact (conj Ha (conj Hp (proj1 (proj2 parse_name_postcondition) _ _ Ha Hp))).
Defined.

(** C4 as stated fails outside ASCII: for the name typed as [ali DEM], the
    dotted capital I (U+0130) and [R], the remainder is title-cased to
    [Ali Demi], the combining dot (U+0307) and [r]; its last token is [Demi],
    the dot and [r]; and the last name that [parse_name] returns is [Demi],
    the dot and [R]: the second title-casing upper-cases the letter after the
    combining dot.  The name is accepted: both names are non-empty. *)
Lemma second_title_changes_last_name :
  parse_name ali_demir =
  Mailroom.Ok
    {| full_name := Unicode.of_string "Ali Demi" ++ [775%N] ++ Unicode.of_string "r";
       informal_name := Unicode.of_string "Ali Demi" ++ [775%N] ++ Unicode.of_string "r";
       suffix := [];
       last_name := Unicode.of_string "Demi" ++ [775%N] ++ Unicode.of_string "R";
       first_name := Unicode.of_string "Ali" |}
  /\ last_name (parse ali_demir) = Unicode.of_string "Demi" ++ [775%N] ++ Unicode.of_string "r"
  /\ Unicode.split (Unicode.of_string "Ali Demi" ++ [775%N] ++ Unicode.of_string "r") =
     [Unicode.of_string "Ali"; Unicode.of_string "Demi" ++ [775%N] ++ Unicode.of_string "r"]
  /\ Unicode.is_ascii ali_demir = false
  /\ accepted
       {| full_name := Unicode.of_string "Ali Demi" ++ [775%N] ++ Unicode.of_string "r";
          informal_name := Unicode.of_string "Ali Demi" ++ [775%N] ++ Unicode.of_string "r";
          suffix := [];
          last_name := Unicode.of_string "Demi" ++ [775%N] ++ Unicode.of_string "R";
          first_name := Unicode.of_string "Ali" |} = true.
Proof. vm_compute. repeat split; reflexivity. Qed.




(** On ASCII lines case and outer whitespace do not matter at the name
    prompt: two lines of ASCII characters whose stripped, lower-cased texts
    are equal are parsed to the same name parts. *)
Theorem same_name_any_case line line' :
  Unicode.is_ascii line = true ->
  Unicode.is_ascii line' = true ->
  Unicode.lower (Unicode.strip line) = Unicode.lower (Unicode.strip line') ->
  parse_name (Unicode.strip line) = parse_name (Unicode.strip line').
Proof.
  intros Ha Ha' H.
  rewrite <- (of_to_string line Ha), <- (of_to_string line' Ha') in *.
  pose proof (to_string_ascii line Ha) as Hs.
  pose proof (to_string_ascii line' Ha') as Hs'.
  destruct (strip_ascii _ Hs) as [E1 H1]. destruct (strip_ascii _ Hs') as [E1' H1'].
  rewrite E1, E1' in *. unfold Unicode.lower in H.
  rewrite (lower_ascii _ H1), (lower_ascii _ H1') in H.
  apply of_string_inj in H.
  rewrite !parse_name_ascii by assumption.
  now rewrite (same_name_any_case_ascii _ _ H).
Qed.

Lemma same_name_any_case_witness :
  Unicode.is_ascii (Unicode.of_string "  jANE doe ") = true
  /\ Unicode.is_ascii (Unicode.of_string "Jane Doe") = true
  /\ Unicode.lower (Unicode.strip (Unicode.of_string "  jANE doe ")) =
     Unicode.lower (Unicode.strip (Unicode.of_string "Jane Doe"))
  /\ parse_name (Unicode.strip (Unicode.of_string "  jANE doe ")) =
     parse_name (Unicode.strip (Unicode.of_string "Jane Doe")).
Proof.
  assert (Ha : Unicode.is_ascii (Unicode.of_string "  jANE doe ") = true)
    by (vm_compute; reflexivity).
  assert (Ha' : Unicode.is_ascii (Unicode.of_string "Jane Doe") = true)
    by (vm_compute; reflexivity).
  assert (H : Unicode.lower (Unicode.strip (Unicode.of_string "  jANE doe ")) =
              Unicode.lower (Unicode.strip (Unicode.of_string "Jane Doe")))
    by (vm_compute; reflexivity).
  exact (conj Ha (conj Ha' (conj H (same_name_any_case _ _ Ha Ha' H)))).
Defined.

(** For a name typed in ASCII characters, the first and the last name that
    [parse_name] returns hold the tokens of the informal name, one after the
    other: the tokens of the first name, then the last name. *)
Theorem name_parts_are_tokens raw p :
  Unicode.is_ascii raw = true ->
  parse_name raw = Mailroom.Ok p ->
  Unicode.split (first_name p) ++ [last_name p] = Unicode.split (informal_name p).
Proof.
  intros Ha H.
  destruct (parse_name_of_ascii raw p Ha H) as (s & p0 & -> & Hs & Hp0 & ->).
  cbn [of_parts first_name last_name informal_name].
  pose proof (name_parts_are_tokens_ascii s p0 Hp0) as E.
  pose proof (parse_name_refines _ _ Hp0) as Hp. 
  assert (Hinf : ascii_string (Mailroom.informal_name p0) = true)
    by (rewrite Hp; apply informal_ascii; exact Hs).
  destruct (split_ascii _ Hinf) as [-> Htok].
  rewrite <- E in *.
  apply Forall_app in Htok as [Hfirst _].
  assert (Hf : Unicode.split (Unicode.of_string (Mailroom.first_name p0)) =
               map Unicode.of_string (PyStr.split (Mailroom.first_name p0))).
  { apply split_ascii. rewrite Hp. unfold Spec.parse. cbn [Mailroom.first_name].
    apply join_keeps_ascii; [reflexivity|]. apply Forall_removelast.
    apply split_ascii. rewrite Hp in Hinf. exact Hinf. }
  rewrite Hf, map_app. reflexivity.
Qed.

Lemma name_parts_are_tokens_witness :
  Unicode.is_ascii (Unicode.of_string "mary ann  smith, jr") = true
  /\ parse_name (Unicode.of_string "mary ann  smith, jr") =
     Mailroom.Ok (of_parts
                    {| Mailroom.full_name := "Mary Ann  Smith, JR";
                       Mailroom.informal_name := "Mary Ann  Smith";
                       Mailroom.suffix := "JR"; Mailroom.last_name := "Smith";
                       Mailroom.first_name := "Mary Ann" |})
  /\ Unicode.split (Unicode.of_string "Mary Ann") ++ [Unicode.of_string "Smith"] =
     Unicode.split (Unicode.of_string "Mary Ann  Smith").
Proof.
  assert (Ha : Unicode.is_ascii (Unicode.of_string "mary ann  smith, jr") = true)
    by (vm_compute; reflexivity).
  assert (Hp : parse_name (Unicode.of_string "mary ann  smith, jr") =
               Mailroom.Ok (of_parts
                    {| Mailroom.full_name := "Mary Ann  Smith, JR";
                       Mailroom.informal_name := "Mary Ann  Smith";
                       Mailroom.suffix := "JR"; Mailroom.last_name := "Smith";
                       Mailroom.first_name := "Mary Ann" |}))
    by (vm_compute; reflexivity).
  exact (conj Ha (conj Hp (name_parts_are_tokens _ _ Ha Hp))).
Defined.

End UnicodeNames.

Section UnicodeChecks.
Import UnicodeName.

(** Outside ASCII equal lower-cased lines can parse differently: the Kelvin
    sign (U+212A) is lower-cased to [k], and title-cased to itself. *)
Example kelvin_line_differs :
  Unicode.lower (Unicode.strip ([8490%N] ++ Unicode.of_string " doe")) =
  Unicode.lower (Unicode.strip (Unicode.of_string "k doe"))
  /\ parse_name ([8490%N] ++ Unicode.of_string " doe") =
     Mailroom.Ok
       {| full_name := [8490%N] ++ Unicode.of_string " Doe";
          informal_name := [8490%N] ++ Unicode.of_string " Doe"; suffix := [];
          last_name := Unicode.of_string "Doe"; first_name := [8490%N] |}
  /\ parse_name (Unicode.of_string "k doe") =
     Mailroom.Ok
       {| full_name := Unicode.of_string "K Doe";
          informal_name := Unicode.of_string "K Doe"; suffix := [];
          last_name := Unicode.of_string "Doe"; first_name := Unicode.of_string "K" |}.
Proof. vm_compute. repeat split; reflexivity. Qed.

(** The methods of [Unicode] on a text with a final sigma, a sharp s, a
    no-break space and an ideographic space. *)
Example unicode_methods_ex :
  Unicode.lower [927; 916; 927; 931; 32; 931]%N = [959; 948; 959; 962; 32; 963]%N
  /\ Unicode.upper [115; 116; 114; 97; 223; 101]%N = [83; 84; 82; 65; 83; 83; 69]%N
  /\ Unicode.title [102; 108; 117; 223; 32; 64257]%N = [70; 108; 117; 223; 32; 70; 105]%N
  /\ Unicode.strip [160; 97; 12288]%N = [97%N]
  /\ Unicode.split [97; 160; 98; 8195; 99]%N = [[97]; [98]; [99]]%N.
Proof. vm_compute. repeat split; reflexivity. Qed.

End UnicodeChecks.
